(** * Multi-tenant notes backend: authorization and quota enforcement

    A shallow embedding of the Hono/PostgreSQL backend of the notes
    service: [signToken], [requireAuth], [initializeDatabase] and the
    routes that report health, log in, upgrade a tenant, invite a user
    and list, read, create, update and delete notes, with the part of
    the browser client that calls the creation route, followed by the
    properties of its tenant-isolation, role, ownership and quota rules.

    Modelling conventions.
    - The relational store is a record of three tables.  [tenants] and
      [notes] are finite maps keyed by their [SERIAL PRIMARY KEY];
      [users] is keyed by its [UNIQUE] e-mail column and carries the id
      as a field.  [INTEGER] columns and the numeric fields of a session
      claim are integers ([Z]); [TEXT] values are strings.
    - Every [await query(...)] is one statement, a function from the
      store to a result or a PostgreSQL error plus the new store.  A
      statement first converts its parameters, in their order: a text
      parameter that contains a NUL character and an integer parameter
      outside the range of [INTEGER] are refused before the statement
      touches the store.  A [SERIAL] column draws from a sequence that
      stops at 2147483647.
    - Handlers run in a state-and-exception monad over the process
      state (the [initialized] flag and the store); [try]/[catch] is
      [try_catch], and an exception that escapes a handler is answered
      by the framework with a plain-text 500.
    - Third-party functions the program calls but does not define
      (HMAC signing and the wire format of jsonwebtoken, bcryptjs,
      PostgreSQL's integer input conversion, the configured secret) are
      the fields of the class [Externals]; the program is embedded over
      an arbitrary instance. *)

From Stdlib Require Import ZArith String Ascii List Bool Lia DecimalString.
From stdpp Require Import base decidable option list gmap strings fin_maps sorting.

Local Open Scope Z_scope.
Local Open Scope string_scope.

(** ** Data model *)

Inductive Role := admin | member.
Inductive Plan := free | pro.

(** [type JWTPayload] *)
Record JWTPayload := {
  sub : Z;
  email : string;
  role : Role;
  tenantId : Z;
  tenantSlug : string;
  plan : Plan
}.

(** Rows of [tenants], keyed by [id]. *)
Record Tenant := {
  t_slug : string;
  t_name : string;
  t_plan : Plan
}.

(** Rows of [users], keyed by [email]. *)
Record User := {
  u_id : Z;
  u_password_hash : string;
  u_role : Role;
  u_tenant_id : Z
}.

(** Rows of [notes], keyed by [id]. *)
Record Note := {
  n_tenant_id : Z;
  n_user_id : Z;
  n_title : string;
  n_content : string;
  n_created_at : Z;
  n_updated_at : Z
}.

(** The store.  Each [*_id_seq] holds the last value its sequence gave out. *)
Record DB := {
  tenants : gmap Z Tenant;
  tenants_id_seq : Z;
  users : gmap string User;
  users_id_seq : Z;
  notes : gmap Z Note;
  notes_id_seq : Z
}.

(** Process state: the module-level [initialized] flag and the store
    behind [pool]. *)
Record World := {
  initialized : bool;
  db : DB
}.

#[global] Instance Role_eq_dec : EqDecision Role.
Proof. solve_decision. Defined.
#[global] Instance Plan_eq_dec : EqDecision Plan.
Proof. solve_decision. Defined.

(** ** JavaScript values read from a request body

    A destructured field of [await c.req.json()] is absent, [null], a
    string, or some other JSON value; for the last kind the model keeps
    what the program can observe of it: its truthiness and the text
    node-postgres sends when it is passed as a query parameter. *)
Inductive JsValue :=
  | VUndefined
  | VNull
  | VString (s : string)
  | VOther (truthy : bool) (text : string).

(** [!v] is [negb (truthy v)]. *)
Definition truthy (v : JsValue) : bool :=
  match v with
  | VUndefined | VNull => false
  | VString EmptyString => false
  | VString _ => true
  | VOther t _ => t
  end.

(** Query parameter conversion: [undefined] and [null] are sent as SQL
    [NULL] ([None]), everything else as text. *)
Definition prepareValue (v : JsValue) : option string :=
  match v with
  | VUndefined | VNull => None
  | VString s => Some s
  | VOther _ t => Some t
  end.

(** [s.slice(n)] and [s.includes(t)] on strings. *)
Definition slice (n : nat) (s : string) : string :=
  substring n (String.length s - n) s.

Definition includes (t s : string) : bool :=
  match index 0 t s with Some _ => true | None => false end.

(** ** Requests and responses *)

Record Request := {
  authorization : option string;        (* c.req.header('authorization') *)
  param : string;                       (* the route parameter, :id or :slug *)
  json : option (string -> JsValue)     (* c.req.json(); None when it rejects
                                           or the body is the JSON null *)
}.

(** Columns returned by the note queries. *)
Record NoteRow := {
  r_id : Z;
  r_title : string;
  r_content : string;
  r_user_id : Z;
  r_created_at : Z;
  r_updated_at : Z
}.

Inductive Json :=
  | JError (error : string)                       (* { error } *)
  | JErrorMessage (error message : string)        (* { error, message } *)
  | JSuccess                                      (* { success: true } *)
  | JUpgraded                                     (* { success: true, plan: 'pro' } *)
  | JNote (row : option NoteRow)                  (* result.rows[0] *)
  | JLogin (token : string) (u_email : string) (u_role : Role)
           (slug name : string) (t_plan : Plan)   (* { token, user: {...} } *)
  | JText (text : string).                        (* c.text(...) *)

Record Response := {
  status : Z;
  body : Json
}.

(** [c.json(b, s)]; the status defaults to 200. *)
Definition c_json (b : Json) (s : Z) : Response := {| status := s; body := b |}.
Definition c_json_ok (b : Json) : Response := c_json b 200.

(** Per-request inputs that are not part of the request: the clocks and
    the salts bcryptjs draws. *)
Record Env := {
  date_now : Z;          (* Date.now(), milliseconds *)
  pg_now : Z;            (* NOW() of the statement that uses it *)
  init_salt : string;    (* salt drawn by bcrypt.hash in initializeDatabase *)
  salt : string          (* salt drawn by bcrypt.hash in the invite route *)
}.

(** ** jsonwebtoken: token structure *)

Inductive Alg := HS256 | HS384 | HS512 | AlgOther (name : string).

(** The decoded payload of a token: the claim plus the registered
    [iat] and [exp] fields ([exp] may be absent in a foreign token). *)
Record JwtClaims := {
  payload : JWTPayload;
  iat : Z;
  exp : option Z
}.

Record Jws := {
  alg : Alg;
  claims : JwtClaims;
  signature : string
}.

Inductive JwtError :=
  | JwtMalformed          (* JsonWebTokenError: jwt malformed / invalid token *)
  | JwtInvalidAlgorithm   (* JsonWebTokenError: invalid algorithm *)
  | JwtInvalidSignature   (* JsonWebTokenError: invalid signature *)
  | TokenExpiredError.    (* TokenExpiredError: jwt expired *)

(** ** PostgreSQL errors and their messages *)

Inductive PgError :=
  | unique_violation (constraint : string)
  | foreign_key_violation (table constraint : string)
  | not_null_violation (column table : string)
  | invalid_text_representation (value : string)
  | numeric_value_out_of_range (value : string)
  | character_not_in_repertoire
  | sequence_generator_limit_exceeded (sequence : string).

Definition dquote : string := String "034"%char EmptyString.

Definition pg_message (e : PgError) : string :=
  match e with
  | unique_violation c =>
      "duplicate key value violates unique constraint " +:+ dquote +:+ c +:+ dquote
  | foreign_key_violation t c =>
      "insert or update on table " +:+ dquote +:+ t +:+ dquote +:+
      " violates foreign key constraint " +:+ dquote +:+ c +:+ dquote
  | not_null_violation c t =>
      "null value in column " +:+ dquote +:+ c +:+ dquote +:+ " of relation " +:+
      dquote +:+ t +:+ dquote +:+ " violates not-null constraint"
  | invalid_text_representation v =>
      "invalid input syntax for type integer: " +:+ dquote +:+ v +:+ dquote
  | numeric_value_out_of_range v =>
      "value " +:+ dquote +:+ v +:+ dquote +:+ " is out of range for type integer"
  | character_not_in_repertoire =>
      "invalid byte sequence for encoding " +:+ dquote +:+ "UTF8" +:+ dquote +:+ ": 0x00"
  | sequence_generator_limit_exceeded s =>
      "nextval: reached maximum value of sequence " +:+ dquote +:+ s +:+ dquote +:+
      " (2147483647)"
  end.

(** What a handler can throw. *)
Inductive Thrown :=
  | PgThrown (e : PgError)
  | JwtThrown (e : JwtError)
  | TypeError                 (* property access on undefined *)
  | SyntaxError               (* c.req.json() on a body that is not JSON *)
  | BcryptIllegalArguments.   (* bcrypt.compare on a non-string *)

(** [error.message] *)
Definition message (e : Thrown) : string :=
  match e with
  | PgThrown e => pg_message e
  | JwtThrown JwtMalformed => "jwt malformed"
  | JwtThrown JwtInvalidAlgorithm => "invalid algorithm"
  | JwtThrown JwtInvalidSignature => "invalid signature"
  | JwtThrown TokenExpiredError => "jwt expired"
  | TypeError => "Cannot read properties of undefined"
  | SyntaxError => "Unexpected token in JSON"
  | BcryptIllegalArguments => "Illegal arguments"
  end.

(** ** Third-party functions *)

Class Externals := {
  (* process.env.JWT_SECRET *)
  env_JWT_SECRET : option string;
  (* PostgreSQL's conversion of a text parameter to INTEGER *)
  int4in : string -> option Z;
  (* HMAC of the signing input (header and payload) under a secret *)
  hmac : Alg -> string -> JwtClaims -> string;
  (* the compact serialization of a token and its parser *)
  jws_encode : Jws -> string;
  jws_decode : string -> option Jws;
  (* bcrypt.hash(password, rounds) with the salt it draws, bcrypt.compare *)
  bcrypt_hash : string -> Z -> string -> string;
  bcrypt_compare : string -> string -> bool
}.

(** ** The handler monad *)

Definition M (A : Type) : Type := World -> (Thrown + A) * World.

Definition ret {A} (a : A) : M A := fun w => (inr a, w).

Definition bind {A B} (m : M A) (k : A -> M B) : M B :=
  fun w => match m w with
           | (inr a, w') => k a w'
           | (inl e, w') => (inl e, w')
           end.

Definition throw {A} (e : Thrown) : M A := fun w => (inl e, w).

Definition try_catch {A} (m : M A) (handler : Thrown -> M A) : M A :=
  fun w => match m w with
           | (inr a, w') => (inr a, w')
           | (inl e, w') => handler e w'
           end.

Definition get_world : M World := fun w => (inr w, w).
Definition set_initialized (b : bool) : M unit :=
  fun w => (inr tt, {| initialized := b; db := db w |}).

Notation "'let!' x ':=' c 'in' k" := (bind c (fun x => k))
  (at level 10, x name, c at level 100, k at level 200).
Notation "c ';;' k" := (bind c (fun _ => k))
  (at level 100, k at level 200, right associativity).

(** A statement maps the store to a result or an error, and a new store. *)
Definition Statement (A : Type) : Type := DB -> (PgError + A) * DB.

(** [async function query(text, params)] *)
Definition set_db (d : DB) (w : World) : World :=
  {| initialized := initialized w; db := d |}.

Definition query {A} (stmt : Statement A) : M A :=
  fun w => match stmt (db w) with
           | (inr a, d) => (inr a, set_db d w)
           | (inl e, d) => (inl (PgThrown e), set_db d w)
           end.

(** [rows[0]] and a property read on it. *)
Definition row0 {A} (rows : list A) : option A := head rows.

Definition prop {A B} (o : option A) (f : A -> B) : M B :=
  match o with
  | Some a => ret (f a)
  | None => throw TypeError
  end.

(** ** PostgreSQL: parameters and sequences *)

(** The range of [INTEGER]. *)
Definition int4_min : Z := -2147483648.
Definition int4_max : Z := 2147483647.

Definition int4 (z : Z) : bool := Z.leb int4_min z && Z.leb z int4_max.

(** A text value contains the character with code 0. *)
Fixpoint has_nul (s : string) : bool :=
  match s with
  | EmptyString => false
  | String a rest => Ascii.eqb a zero || has_nul rest
  end.

(** The decimal text node-postgres sends for a number. *)
Definition string_of_Z (z : Z) : string := NilZero.string_of_int (Z.to_int z).

(** A query parameter with the type the statement gives it: a number
    bound to an [INTEGER], or a text (or SQL [NULL]) bound to a [TEXT]. *)
Inductive Param :=
  | PInteger (z : Z)
  | PText (s : option string).

(** The conversion of one parameter: the error it is refused with. *)
Definition bind_param (p : Param) : option PgError :=
  match p with
  | PInteger z =>
      if int4 z then None else Some (numeric_value_out_of_range (string_of_Z z))
  | PText (Some s) => if has_nul s then Some character_not_in_repertoire else None
  | PText None => None
  end.

Fixpoint bind_params (ps : list Param) : option PgError :=
  match ps with
  | [] => None
  | p :: rest =>
      match bind_param p with
      | Some e => Some e
      | None => bind_params rest
      end
  end.

(** A statement with parameters: they are converted first, and a
    refused parameter leaves the store as it is. *)
Definition with_params {A} (ps : list Param) (stmt : Statement A) : Statement A :=
  fun d =>
    match bind_params ps with
    | Some e => (inl e, d)
    | None => stmt d
    end.

(** [nextval] of the sequence behind a [SERIAL] column whose last value
    is [seq]. *)
Definition nextval (sequence : string) (seq : Z) : PgError + Z :=
  if Z.ltb seq int4_max then inr (seq + 1)
  else inl (sequence_generator_limit_exceeded sequence).

(** ** SQL statements *)

Definition set_tenants (t : gmap Z Tenant) (seq : Z) (d : DB) : DB :=
  {| tenants := t; tenants_id_seq := seq;
     users := users d; users_id_seq := users_id_seq d;
     notes := notes d; notes_id_seq := notes_id_seq d |}.

Definition set_users (u : gmap string User) (seq : Z) (d : DB) : DB :=
  {| tenants := tenants d; tenants_id_seq := tenants_id_seq d;
     users := u; users_id_seq := seq;
     notes := notes d; notes_id_seq := notes_id_seq d |}.

Definition set_notes (n : gmap Z Note) (seq : Z) (d : DB) : DB :=
  {| tenants := tenants d; tenants_id_seq := tenants_id_seq d;
     users := users d; users_id_seq := users_id_seq d;
     notes := n; notes_id_seq := seq |}.

Definition slug_taken (slug : string) (t : gmap Z Tenant) : bool :=
  existsb (fun kv => String.eqb (t_slug (snd kv)) slug) (map_to_list t).

Definition user_id_taken (id : Z) (u : gmap string User) : bool :=
  existsb (fun kv => Z.eqb (u_id (snd kv)) id) (map_to_list u).

(** [INSERT INTO tenants (slug, name, plan) VALUES ... ON CONFLICT (slug)
    DO NOTHING], row by row.  The sequence advances for every proposed
    row, also for a skipped one and when the statement fails. *)
Fixpoint insert_tenants_rows (rows : list (string * string * Plan)) (seq : Z)
    (t : gmap Z Tenant) : (PgError + gmap Z Tenant) * Z :=
  match rows with
  | [] => (inr t, seq)
  | (slug, name, p) :: rest =>
      match nextval "tenants_id_seq" seq with
      | inl e => (inl e, seq)
      | inr id =>
          if slug_taken slug t then insert_tenants_rows rest id t
          else match t !! id with
               | Some _ => (inl (unique_violation "tenants_pkey"), id)
               | None =>
                   insert_tenants_rows rest id
                     (<[id := {| t_slug := slug; t_name := name; t_plan := p |}]> t)
               end
      end
  end.

Definition insert_tenants_on_conflict_do_nothing
    (rows : list (string * string * Plan)) : Statement unit :=
  fun d =>
    match insert_tenants_rows rows (tenants_id_seq d) (tenants d) with
    | (inr t, seq) => (inr tt, set_tenants t seq d)
    | (inl e, seq) => (inl e, set_tenants (tenants d) seq d)
    end.

(** [SELECT id FROM tenants WHERE slug = $1] *)
Definition select_tenant_id_by_slug (slug : string) : Statement (list Z) :=
  fun d =>
    (inr (map fst (List.filter (fun kv => String.eqb (t_slug (snd kv)) slug)
                     (map_to_list (tenants d)))), d).

(** [INSERT INTO users (email, password_hash, role, tenant_id) VALUES ...
    ON CONFLICT (email) DO NOTHING]; the foreign key on [tenant_id] is
    checked for the rows that were inserted, after the last row. *)
Fixpoint insert_users_rows (rows : list (string * string * Role * Z)) (seq : Z)
    (u : gmap string User) (inserted : list Z)
    : (PgError + gmap string User * list Z) * Z :=
  match rows with
  | [] => (inr (u, inserted), seq)
  | (e, h, r, tid) :: rest =>
      match nextval "users_id_seq" seq with
      | inl err => (inl err, seq)
      | inr id =>
          match u !! e with
          | Some _ => insert_users_rows rest id u inserted
          | None =>
              if user_id_taken id u then (inl (unique_violation "users_pkey"), id)
              else insert_users_rows rest id
                     (<[e := {| u_id := id; u_password_hash := h; u_role := r;
                                u_tenant_id := tid |}]> u)
                     (tid :: inserted)
          end
      end
  end.

Definition tenant_exists (tid : Z) (d : DB) : bool :=
  match tenants d !! tid with Some _ => true | None => false end.

(** The parameters of the seed statement are the hash [$1] and the
    tenant id [$2] its rows share; the e-mails and roles are literals. *)
Definition seed_params (rows : list (string * string * Role * Z)) : list Param :=
  flat_map (fun row => [PText (Some row.1.1.2); PInteger row.2]) rows.

Definition insert_users_on_conflict_do_nothing
    (rows : list (string * string * Role * Z)) : Statement unit :=
  with_params (seed_params rows)
    (fun d =>
       match insert_users_rows rows (users_id_seq d) (users d) [] with
       | (inr (u, inserted), seq) =>
           if forallb (fun tid => tenant_exists tid d) inserted
           then (inr tt, set_users u seq d)
           else (inl (foreign_key_violation "users" "users_tenant_id_fkey"),
                 set_users (users d) seq d)
       | (inl e, seq) => (inl e, set_users (users d) seq d)
       end).

(** [INSERT INTO users (email, password_hash, role, tenant_id)
    VALUES ($1, $2, $3, $4)] *)
Definition insert_user (e : option string) (h : string) (r : Role) (tid : Z)
    : Statement unit :=
  with_params [PText e; PText (Some h); PInteger tid]
    (fun d =>
       match nextval "users_id_seq" (users_id_seq d) with
       | inl err => (inl err, d)
       | inr id =>
           match e with
           | None => (inl (not_null_violation "email" "users"), set_users (users d) id d)
           | Some e =>
               if user_id_taken id (users d)
               then (inl (unique_violation "users_pkey"), set_users (users d) id d)
               else match users d !! e with
                    | Some _ =>
                        (inl (unique_violation "users_email_key"),
                         set_users (users d) id d)
                    | None =>
                        if tenant_exists tid d
                        then (inr tt,
                              set_users (<[e := {| u_id := id; u_password_hash := h;
                                                   u_role := r; u_tenant_id := tid |}]>
                                           (users d)) id d)
                        else (inl (foreign_key_violation "users" "users_tenant_id_fkey"),
                              set_users (users d) id d)
                    end
           end
       end).

(** [SELECT id, email, password_hash, role, tenant_id FROM users
    WHERE email = $1]; a [NULL] parameter matches no row. *)
Definition select_user_by_email (e : option string)
    : Statement (list (string * User)) :=
  with_params [PText e]
    (fun d =>
       match e with
       | None => (inr [], d)
       | Some e => (inr (option_list (pair e <$> users d !! e)), d)
       end).

(** [SELECT id, slug, name, plan FROM tenants WHERE id = $1] *)
Definition select_tenant_by_id (tid : Z) : Statement (list (Z * Tenant)) :=
  with_params [PInteger tid]
    (fun d => (inr (option_list (pair tid <$> tenants d !! tid)), d)).

(** [UPDATE tenants SET plan = 'pro' WHERE id = $1] *)
Definition set_plan_pro (t : Tenant) : Tenant :=
  {| t_slug := t_slug t; t_name := t_name t; t_plan := pro |}.

Definition update_tenant_plan_pro (tid : Z) : Statement unit :=
  with_params [PInteger tid]
    (fun d =>
       (inr tt, set_tenants (alter set_plan_pro tid (tenants d)) (tenants_id_seq d) d)).

(** The columns [id, title, content, user_id, created_at, updated_at]. *)
Definition note_row (id : Z) (n : Note) : NoteRow :=
  {| r_id := id; r_title := n_title n; r_content := n_content n;
     r_user_id := n_user_id n; r_created_at := n_created_at n;
     r_updated_at := n_updated_at n |}.

(** Rows of [notes] with [id = k AND tenant_id = tid]. *)
Definition notes_where_id_and_tenant (k tid : Z) (d : DB) : list (Z * Note) :=
  match notes d !! k with
  | Some n => if Z.eqb (n_tenant_id n) tid then [(k, n)] else []
  | None => []
  end.

(** [SELECT id, title, content, user_id, created_at, updated_at FROM notes
    WHERE id = $1 AND tenant_id = $2] *)
Definition select_note `{Externals} (id : string) (tid : Z) : Statement (list NoteRow) :=
  fun d =>
    match int4in id with
    | None => (inl (invalid_text_representation id), d)
    | Some k =>
        with_params [PInteger tid]
          (fun d => (inr (map (fun kv => note_row (fst kv) (snd kv))
                            (notes_where_id_and_tenant k tid d)), d)) d
    end.

(** [SELECT user_id FROM notes WHERE id = $1 AND tenant_id = $2] *)
Definition select_note_user_id `{Externals} (id : string) (tid : Z) : Statement (list Z) :=
  fun d =>
    match int4in id with
    | None => (inl (invalid_text_representation id), d)
    | Some k =>
        with_params [PInteger tid]
          (fun d => (inr (map (fun kv => n_user_id (snd kv))
                            (notes_where_id_and_tenant k tid d)), d)) d
    end.

(** [SELECT plan FROM tenants WHERE id = $1] *)
Definition select_plan (tid : Z) : Statement (list Plan) :=
  with_params [PInteger tid]
    (fun d => (inr (option_list (t_plan <$> tenants d !! tid)), d)).

(** [SELECT COUNT( * )::text as count FROM notes WHERE tenant_id = $1],
    read back with [parseInt]. *)
Definition note_count (tid : Z) (d : DB) : Z :=
  Z.of_nat (List.length
              (List.filter (fun kv => Z.eqb (n_tenant_id (snd kv)) tid)
                 (map_to_list (notes d)))).

Definition count_notes (tid : Z) : Statement Z :=
  with_params [PInteger tid] (fun d => (inr (note_count tid d), d)).

(** [INSERT INTO notes (tenant_id, user_id, title, content)
    VALUES ($1, $2, $3, $4) RETURNING ...] *)
Definition insert_note (tid uid : Z) (title content : option string) (now : Z)
    : Statement (list NoteRow) :=
  with_params [PInteger tid; PInteger uid; PText title; PText content]
    (fun d =>
       match nextval "notes_id_seq" (notes_id_seq d) with
       | inl e => (inl e, d)
       | inr id =>
           match title, content with
           | None, _ =>
               (inl (not_null_violation "title" "notes"), set_notes (notes d) id d)
           | _, None =>
               (inl (not_null_violation "content" "notes"), set_notes (notes d) id d)
           | Some t, Some c =>
               match notes d !! id with
               | Some _ => (inl (unique_violation "notes_pkey"), set_notes (notes d) id d)
               | None =>
                   if negb (tenant_exists tid d)
                   then (inl (foreign_key_violation "notes" "notes_tenant_id_fkey"),
                         set_notes (notes d) id d)
                   else if negb (user_id_taken uid (users d))
                   then (inl (foreign_key_violation "notes" "notes_user_id_fkey"),
                         set_notes (notes d) id d)
                   else
                     let n := {| n_tenant_id := tid; n_user_id := uid; n_title := t;
                                 n_content := c; n_created_at := now;
                                 n_updated_at := now |} in
                     (inr [note_row id n], set_notes (<[id := n]> (notes d)) id d)
               end
           end
       end).

(** [COALESCE($1, column)] *)
Definition COALESCE (p : option string) (column : string) : string :=
  match p with Some s => s | None => column end.

Definition update_note_fields (title content : option string) (now : Z) (n : Note) : Note :=
  {| n_tenant_id := n_tenant_id n; n_user_id := n_user_id n;
     n_title := COALESCE title (n_title n);
     n_content := COALESCE content (n_content n);
     n_created_at := n_created_at n; n_updated_at := now |}.

(** [UPDATE notes SET title = COALESCE($1, title), content =
    COALESCE($2, content), updated_at = NOW() WHERE id = $3 RETURNING ...] *)
Definition update_note `{Externals} (title content : option string) (id : string) (now : Z)
    : Statement (list NoteRow) :=
  with_params [PText title; PText content]
    (fun d =>
       match int4in id with
       | None => (inl (invalid_text_representation id), d)
       | Some k =>
           match notes d !! k with
           | Some n =>
               let n' := update_note_fields title content now n in
               (inr [note_row k n'], set_notes (<[k := n']> (notes d)) (notes_id_seq d) d)
           | None => (inr [], d)
           end
       end).

(** [DELETE FROM notes WHERE id = $1] *)
Definition delete_note `{Externals} (id : string) : Statement unit :=
  fun d =>
    match int4in id with
    | None => (inl (invalid_text_representation id), d)
    | Some k => (inr tt, set_notes (delete k (notes d)) (notes_id_seq d) d)
    end.

(** ** The server *)

Section Server.
Context `{Externals}.

(** [process.env.JWT_SECRET || 'dev-secret-change-in-production'] *)
Definition JWT_SECRET : string :=
  match env_JWT_SECRET with
  | Some (String a s) => String a s
  | Some EmptyString | None => "dev-secret-change-in-production"
  end.

(** jsonwebtoken's [expiresIn: '7d'], in seconds. *)
Definition seven_days : Z := 7 * 24 * 60 * 60.

(** [jwt.sign(payload, secret, { algorithm: 'HS256', expiresIn: '7d' })]:
    [iat] is the clock in whole seconds, [exp] is [iat] plus the lifetime. *)
Definition jwt_sign (p : JWTPayload) (secret : string) (now_ms : Z) : string :=
  let timestamp := now_ms / 1000 in
  let c := {| payload := p; iat := timestamp; exp := Some (timestamp + seven_days) |} in
  jws_encode {| alg := HS256; claims := c; signature := hmac HS256 secret c |}.

Definition hs_algorithm (a : Alg) : bool :=
  match a with HS256 | HS384 | HS512 => true | AlgOther _ => false end.

(** [jwt.verify(token, secret)]: parse, check the algorithm against the
    ones allowed for a shared secret, check the signature, then the
    expiry against the clock in whole seconds. *)
Definition jwt_verify (token secret : string) (now_ms : Z) : JwtError + JwtClaims :=
  match jws_decode token with
  | None => inl JwtMalformed
  | Some t =>
      if negb (hs_algorithm (alg t)) then inl JwtInvalidAlgorithm
      else if negb (String.eqb (signature t) (hmac (alg t) secret (claims t)))
      then inl JwtInvalidSignature
      else match exp (claims t) with
           | Some e =>
               if Z.leb e (now_ms / 1000) then inl TokenExpiredError
               else inr (claims t)
           | None => inr (claims t)
           end
  end.

(** [function signToken(payload)] *)
Definition signToken (env : Env) (p : JWTPayload) : string :=
  jwt_sign p JWT_SECRET (date_now env).

(** The framework's default error handler. *)
Definition onError : Response := {| status := 500; body := JText "Internal Server Error" |}.

(** [await next()]: the framework runs the downstream handler and
    answers an exception it throws itself, so none reaches the caller. *)
Definition hono_next (h : M Response) : M Response :=
  try_catch h (fun _ => ret onError).

(** [function requireAuth(requiredRole?)] *)
Definition requireAuth (requiredRole : option Role) (env : Env) (req : Request)
    (next : JWTPayload -> M Response) : M Response :=
  match authorization req with
  | None => ret (c_json (JError "Unauthorized") 401)
  | Some authHeader =>
      if negb (String.prefix "Bearer " authHeader)
      then ret (c_json (JError "Unauthorized") 401)
      else
        let token := slice 7 authHeader in
        try_catch
          (match jwt_verify token JWT_SECRET (date_now env) with
           | inl e => throw (JwtThrown e)
           | inr decoded =>
               match requiredRole with
               | Some r =>
                   if negb (bool_decide (role (payload decoded) = r))
                   then ret (c_json (JError "Forbidden") 403)
                   else hono_next (next (payload decoded))
               | None => hono_next (next (payload decoded))
               end
           end)
          (fun _ => ret (c_json (JError "Invalid token") 401))
  end.

Definition seed_tenants : list (string * string * Plan) :=
  [("acme", "Acme Corporation", free); ("globex", "Globex Corporation", free)].

(** [async function initializeDatabase()].  The [CREATE TABLE IF NOT
    EXISTS] and [CREATE INDEX IF NOT EXISTS] statements leave the rows of
    the three tables as they are. *)
Definition initializeDatabase (env : Env) : M unit :=
  let! w := get_world in
  if initialized w then ret tt
  else
    try_catch
      (query (insert_tenants_on_conflict_do_nothing seed_tenants) ;;
       let! acmeRows := query (select_tenant_id_by_slug "acme") in
       let acmeTenant := row0 acmeRows in
       let! globexRows := query (select_tenant_id_by_slug "globex") in
       let globexTenant := row0 globexRows in
       let passwordHash := bcrypt_hash "password" 10 (init_salt env) in
       let! acme_id := prop acmeTenant (fun id => id) in
       query (insert_users_on_conflict_do_nothing
                [("admin@acme.test", passwordHash, admin, acme_id);
                 ("user@acme.test", passwordHash, member, acme_id)]) ;;
       let! globex_id := prop globexTenant (fun id => id) in
       query (insert_users_on_conflict_do_nothing
                [("admin@globex.test", passwordHash, admin, globex_id);
                 ("user@globex.test", passwordHash, member, globex_id)]) ;;
       set_initialized true)
      (fun error => throw error).

(** [await c.req.json()] followed by the destructuring of its value. *)
Definition read_json (req : Request) : M (string -> JsValue) :=
  match json req with
  | Some b => ret b
  | None => throw SyntaxError
  end.

(** [await bcrypt.compare(password, hash)] *)
Definition compare_password (password : JsValue) (hash : string) : M bool :=
  match password with
  | VString s => ret (bcrypt_compare s hash)
  | _ => throw BcryptIllegalArguments
  end.

(** [app.post('/auth/login', ...)] *)
Definition login_handler (env : Env) (req : Request) : M Response :=
  initializeDatabase env ;;
  let! b := read_json req in
  let email := b "email" in
  let password := b "password" in
  if negb (truthy email) || negb (truthy password)
  then ret (c_json (JError "Email and password are required") 400)
  else
    try_catch
      (let! userResult := query (select_user_by_email (prepareValue email)) in
       match row0 userResult with
       | None => ret (c_json (JError "Invalid credentials") 401)
       | Some (user_email, user) =>
           let! isValidPassword := compare_password password (u_password_hash user) in
           if negb isValidPassword
           then ret (c_json (JError "Invalid credentials") 401)
           else
             let! tenantResult := query (select_tenant_by_id (u_tenant_id user)) in
             let! tenant := prop (row0 tenantResult) (fun t => t) in
             let token := signToken env
                            {| sub := u_id user; email := user_email; role := u_role user;
                               tenantId := fst tenant; tenantSlug := t_slug (snd tenant);
                               plan := t_plan (snd tenant) |} in
             ret (c_json_ok (JLogin token user_email (u_role user)
                               (t_slug (snd tenant)) (t_name (snd tenant))
                               (t_plan (snd tenant))))
       end)
      (fun _ => ret (c_json (JError "Internal server error") 500)).

(** The handler of [app.post('/tenants/:slug/upgrade', requireAuth('admin'), ...)] *)
Definition upgrade_handler (env : Env) (req : Request) (auth : JWTPayload) : M Response :=
  initializeDatabase env ;;
  let slug := param req in
  if negb (String.eqb slug (tenantSlug auth))
  then ret (c_json (JError "Forbidden: Cannot upgrade other tenants") 403)
  else
    try_catch
      (query (update_tenant_plan_pro (tenantId auth)) ;;
       ret (c_json_ok JUpgraded))
      (fun _ => ret (c_json (JError "Upgrade failed") 500)).

(** [['admin', 'member'].includes(role)] *)
Definition role_of_js (v : JsValue) : option Role :=
  match v with
  | VString s =>
      if String.eqb s "admin" then Some admin
      else if String.eqb s "member" then Some member
      else None
  | _ => None
  end.

(** The handler of [app.post('/tenants/:slug/invite', requireAuth('admin'), ...)] *)
Definition invite_handler (env : Env) (req : Request) (auth : JWTPayload) : M Response :=
  initializeDatabase env ;;
  let slug := param req in
  if negb (String.eqb slug (tenantSlug auth))
  then ret (c_json (JError "Forbidden: Cannot invite to other tenants") 403)
  else
    let! b := read_json req in
    let email := b "email" in
    match (if truthy email then role_of_js (b "role") else None) with
    | None => ret (c_json (JError "Email and valid role are required") 400)
    | Some role =>
        try_catch
          (let passwordHash := bcrypt_hash "password" 10 (salt env) in
           query (insert_user (prepareValue email) passwordHash role (tenantId auth)) ;;
           ret (c_json_ok JSuccess))
          (fun error =>
             if includes "duplicate" (message error)
             then ret (c_json (JError "User already exists") 409)
             else ret (c_json (JError "Failed to invite user") 500))
    end.

(** The handler of [app.get('/notes/:id', requireAuth(), ...)] *)
Definition getNote_handler (env : Env) (req : Request) (auth : JWTPayload) : M Response :=
  initializeDatabase env ;;
  let id := param req in
  try_catch
    (let! result := query (select_note id (tenantId auth)) in
     match row0 result with
     | None => ret (c_json (JError "Note not found") 404)
     | Some note => ret (c_json_ok (JNote (Some note)))
     end)
    (fun _ => ret (c_json (JError "Failed to fetch note") 500)).

(** The handler of [app.post('/notes', requireAuth(), ...)] *)
Definition createNote_handler (env : Env) (req : Request) (auth : JWTPayload) : M Response :=
  initializeDatabase env ;;
  let! b := read_json req in
  let title := b "title" in
  let content := b "content" in
  if negb (truthy title) || negb (truthy content)
  then ret (c_json (JError "Title and content are required") 400)
  else
    try_catch
      (let! tenantResult := query (select_plan (tenantId auth)) in
       let tenant := row0 tenantResult in
       let! tenant_plan := prop tenant (fun p => p) in
       let insert :=
         (let! result := query (insert_note (tenantId auth) (sub auth)
                                  (prepareValue title) (prepareValue content) (pg_now env)) in
          ret (c_json (JNote (row0 result)) 201)) in
       if bool_decide (tenant_plan = free)
       then
         let! noteCount := query (count_notes (tenantId auth)) in
         if Z.leb 3 noteCount
         then ret (c_json (JErrorMessage "note_limit_reached"
                     "Free plan is limited to 3 notes. Upgrade to Pro for unlimited notes.") 402)
         else insert
       else insert)
      (fun _ => ret (c_json (JError "Failed to create note") 500)).

(** The handler of [app.put('/notes/:id', requireAuth(), ...)] *)
Definition updateNote_handler (env : Env) (req : Request) (auth : JWTPayload) : M Response :=
  initializeDatabase env ;;
  let id := param req in
  let! b := read_json req in
  let title := b "title" in
  let content := b "content" in
  try_catch
    (let! noteResult := query (select_note_user_id id (tenantId auth)) in
     match row0 noteResult with
     | None => ret (c_json (JError "Note not found") 404)
     | Some note_user_id =>
         if bool_decide (role auth = member) && negb (Z.eqb note_user_id (sub auth))
         then ret (c_json (JError "Forbidden: You can only edit your own notes") 403)
         else
           let! result := query (update_note (prepareValue title) (prepareValue content)
                                   id (pg_now env)) in
           ret (c_json_ok (JNote (row0 result)))
     end)
    (fun _ => ret (c_json (JError "Failed to update note") 500)).

(** The handler of [app.delete('/notes/:id', requireAuth(), ...)] *)
Definition deleteNote_handler (env : Env) (req : Request) (auth : JWTPayload) : M Response :=
  initializeDatabase env ;;
  let id := param req in
  try_catch
    (let! noteResult := query (select_note_user_id id (tenantId auth)) in
     match row0 noteResult with
     | None => ret (c_json (JError "Note not found") 404)
     | Some note_user_id =>
         if bool_decide (role auth = member) && negb (Z.eqb note_user_id (sub auth))
         then ret (c_json (JError "Forbidden: You can only delete your own notes") 403)
         else
           query (delete_note id) ;;
           ret (c_json_ok JSuccess)
     end)
    (fun _ => ret (c_json (JError "Failed to delete note") 500)).

(** The framework's answer to a request: the response the route
    produced, or its default error response when the route threw. *)
Definition respond (h : M Response) (w : World) : Response * World :=
  match h w with
  | (inr r, w') => (r, w')
  | (inl _, w') => (onError, w')
  end.

(** The routes, each with its middleware. *)
Definition POST_auth_login (env : Env) (req : Request) : World -> Response * World :=
  respond (login_handler env req).
Definition POST_tenants_upgrade (env : Env) (req : Request) : World -> Response * World :=
  respond (requireAuth (Some admin) env req (upgrade_handler env req)).
Definition POST_tenants_invite (env : Env) (req : Request) : World -> Response * World :=
  respond (requireAuth (Some admin) env req (invite_handler env req)).
Definition GET_notes_id (env : Env) (req : Request) : World -> Response * World :=
  respond (requireAuth None env req (getNote_handler env req)).
Definition POST_notes (env : Env) (req : Request) : World -> Response * World :=
  respond (requireAuth None env req (createNote_handler env req)).
Definition PUT_notes_id (env : Env) (req : Request) : World -> Response * World :=
  respond (requireAuth None env req (updateNote_handler env req)).
Definition DELETE_notes_id (env : Env) (req : Request) : World -> Response * World :=
  respond (requireAuth None env req (deleteNote_handler env req)).

(** The request carries a bearer token that [jwt.verify] accepts at the
    time of the request, with decoded payload [d]. *)
Definition verified (env : Env) (req : Request) (d : JwtClaims) : Prop :=
  exists authHeader,
    authorization req = Some authHeader /\
    String.prefix "Bearer " authHeader = true /\
    jwt_verify (slice 7 authHeader) JWT_SECRET (date_now env) = inr d.

End Server.

(** ** A reference instance of the third-party functions

    Executable stand-ins, used to run the server on concrete requests:
    the integer input function, a readable token format with fields
    separated by a bar, a keyed tag instead of a real HMAC and a
    transparent password hash. *)
Module Sample.

Definition show_Z (z : Z) : string := NilZero.string_of_int (Z.to_int z).

Definition read_Z (s : string) : option Z := Z.of_int <$> NilZero.int_of_string s.

(** The integer input function of PostgreSQL 16: white space around an
    optional sign and a decimal, hexadecimal ([0x]), octal ([0o]) or
    binary ([0b]) numeral whose digits may be separated by single
    underscores, within the range of [INTEGER]. *)
Definition is_space (a : ascii) : bool :=
  let n := nat_of_ascii a in
  Nat.eqb n 32 || (Nat.leb 9 n && Nat.leb n 13).

Fixpoint skip_spaces (s : string) : string :=
  match s with
  | String a rest => if is_space a then skip_spaces rest else s
  | EmptyString => s
  end.

Definition digit_value (base : Z) (a : ascii) : option Z :=
  let n := Z.of_nat (nat_of_ascii a) in
  let v := if Z.leb 48 n && Z.leb n 57 then Some (n - 48)
           else if Z.leb 97 n && Z.leb n 102 then Some (n - 87)
           else if Z.leb 65 n && Z.leb n 70 then Some (n - 55)
           else None in
  match v with
  | Some d => if Z.ltb d base then Some d else None
  | None => None
  end.

(** Digits and underscores from the head of [s]: the value read and the
    rest, or nothing when an underscore is not followed by a digit. *)
Fixpoint read_digits (base : Z) (s : string) (acc : Z) : option (Z * string) :=
  match s with
  | String a rest =>
      match digit_value base a with
      | Some v => read_digits base rest (acc * base + v)
      | None =>
          if Ascii.eqb a "_"
          then match rest with
               | String a' _ =>
                   match digit_value base a' with
                   | Some _ => read_digits base rest acc
                   | None => None
                   end
               | EmptyString => None
               end
          else Some (acc, s)
      end
  | EmptyString => Some (acc, s)
  end.

(** The numeral after the sign: at least one character must be read,
    and a decimal numeral may not start with an underscore. *)
Definition read_numeral (s : string) : option (Z * string) :=
  let prefixed (base : Z) (rest : string) :=
    match rest with
    | String a _ =>
        if Ascii.eqb a "_" || bool_decide (is_Some (digit_value base a))
        then read_digits base rest 0
        else None
    | EmptyString => None
    end in
  match s with
  | String "0" (String x rest) =>
      if Ascii.eqb x "x" || Ascii.eqb x "X" then prefixed 16 rest
      else if Ascii.eqb x "o" || Ascii.eqb x "O" then prefixed 8 rest
      else if Ascii.eqb x "b" || Ascii.eqb x "B" then prefixed 2 rest
      else read_digits 10 s 0
  | String a _ =>
      match digit_value 10 a with
      | Some _ => read_digits 10 s 0
      | None => None
      end
  | EmptyString => None
  end.

Definition int4in (s : string) : option Z :=
  let s := skip_spaces s in
  let '(negative, s) :=
    match s with
    | String "-" rest => (true, rest)
    | String "+" rest => (false, rest)
    | _ => (false, s)
    end in
  match read_numeral s with
  | Some (v, rest) =>
      match skip_spaces rest with
      | EmptyString =>
          let z := if negative then - v else v in
          if int4 z then Some z else None
      | String _ _ => None
      end
  | None => None
  end.

Definition show_Role (r : Role) : string :=
  match r with admin => "admin" | member => "member" end.
Definition show_Plan (p : Plan) : string :=
  match p with free => "free" | pro => "pro" end.
Definition show_Alg (a : Alg) : string :=
  match a with HS256 => "HS256" | HS384 => "HS384" | HS512 => "HS512" | AlgOther n => n end.
Definition show_exp (e : option Z) : string :=
  match e with Some z => show_Z z | None => "never" end.

Definition read_Role (s : string) : option Role :=
  if String.eqb s "admin" then Some admin
  else if String.eqb s "member" then Some member else None.
Definition read_Plan (s : string) : option Plan :=
  if String.eqb s "free" then Some free
  else if String.eqb s "pro" then Some pro else None.
Definition read_Alg (s : string) : Alg :=
  if String.eqb s "HS256" then HS256
  else if String.eqb s "HS384" then HS384
  else if String.eqb s "HS512" then HS512 else AlgOther s.
Definition read_exp (s : string) : option (option Z) :=
  if String.eqb s "never" then Some None else Some <$> read_Z s.

Definition fields (c : JwtClaims) : list string :=
  [show_Z (sub (payload c)); email (payload c); show_Role (role (payload c));
   show_Z (tenantId (payload c)); tenantSlug (payload c); show_Plan (plan (payload c));
   show_Z (iat c); show_exp (exp c)].

Fixpoint join (sep : string) (l : list string) : string :=
  match l with
  | [] => EmptyString
  | [x] => x
  | x :: rest => x +:+ sep +:+ join sep rest
  end.

Fixpoint split (sep : ascii) (s : string) : list string :=
  match s with
  | EmptyString => [EmptyString]
  | String a rest =>
      if Ascii.eqb a sep then EmptyString :: split sep rest
      else match split sep rest with
           | x :: l => String a x :: l
           | [] => [String a EmptyString]
           end
  end.

Definition hmac (a : Alg) (secret : string) (c : JwtClaims) : string :=
  "tag(" +:+ secret +:+ "," +:+ show_Alg a +:+ "," +:+ join "," (fields c) +:+ ")".

Definition jws_encode (t : Jws) : string :=
  join "|" (show_Alg (alg t) :: fields (claims t) ++ [signature t]).

Definition jws_decode (s : string) : option Jws :=
  match split "|" s with
  | [a; su; em; ro; ti; ts; pl; ia; ex; sg] =>
      su ← read_Z su; ro ← read_Role ro; ti ← read_Z ti; pl ← read_Plan pl;
      ia ← read_Z ia; ex ← read_exp ex;
      Some {| alg := read_Alg a;
              claims := {| payload := {| sub := su; email := em; role := ro;
                                         tenantId := ti; tenantSlug := ts; plan := pl |};
                           iat := ia; exp := ex |};
              signature := sg |}
  | _ => None
  end.

Definition bcrypt_hash (password : string) (rounds : Z) (salt : string) : string :=
  "$2a$" +:+ show_Z rounds +:+ "$" +:+ salt +:+ "$" +:+ password.

Definition bcrypt_compare (password hash : string) : bool :=
  match rev (split "$" hash) with
  | p :: _ => String.eqb p password
  | [] => false
  end.

Definition externals : Externals :=
  Build_Externals None int4in hmac jws_encode jws_decode bcrypt_hash bcrypt_compare.

(** A store with the two seeded tenants and their users, Acme already
    holding three notes and Globex one. *)
Definition hash0 : string := bcrypt_hash "password" 10 "s0".

Definition note (tid uid : Z) (title : string) : Note :=
  {| n_tenant_id := tid; n_user_id := uid; n_title := title; n_content := "text";
     n_created_at := 100; n_updated_at := 100 |}.

Definition store : DB :=
  {| tenants := <[1 := {| t_slug := "acme"; t_name := "Acme Corporation"; t_plan := free |}]>
                (<[2 := {| t_slug := "globex"; t_name := "Globex Corporation"; t_plan := free |}]> ∅);
     tenants_id_seq := 2;
     users := <["admin@acme.test" := {| u_id := 1; u_password_hash := hash0; u_role := admin; u_tenant_id := 1 |}]>
              (<["user@acme.test" := {| u_id := 2; u_password_hash := hash0; u_role := member; u_tenant_id := 1 |}]>
              (<["admin@globex.test" := {| u_id := 3; u_password_hash := hash0; u_role := admin; u_tenant_id := 2 |}]>
              (<["user@globex.test" := {| u_id := 4; u_password_hash := hash0; u_role := member; u_tenant_id := 2 |}]> ∅)));
     users_id_seq := 4;
     notes := <[1 := note 1 1 "a"]> (<[2 := note 1 2 "b"]> (<[3 := note 1 1 "c"]>
              (<[4 := note 2 3 "g"]> ∅)));
     notes_id_seq := 4 |}.

Definition world : World := {| initialized := true; db := store |}.

(** A process that has just started over that store. *)
Definition cold_world : World := {| initialized := false; db := store |}.

Definition empty_world : World :=
  {| initialized := false;
     db := {| tenants := ∅; tenants_id_seq := 0; users := ∅; users_id_seq := 0;
              notes := ∅; notes_id_seq := 0 |} |}.

Definition env : Env :=
  {| date_now := 1700000000123; pg_now := 200; init_salt := "s0"; salt := "s1" |}.

Definition acme_admin : JWTPayload :=
  {| sub := 1; email := "admin@acme.test"; role := admin; tenantId := 1;
     tenantSlug := "acme"; plan := free |}.
Definition acme_member : JWTPayload :=
  {| sub := 2; email := "user@acme.test"; role := member; tenantId := 1;
     tenantSlug := "acme"; plan := free |}.
Definition globex_admin : JWTPayload :=
  {| sub := 3; email := "admin@globex.test"; role := admin; tenantId := 2;
     tenantSlug := "globex"; plan := free |}.

(** The [Authorization] header carrying a token issued to [p] at [env]. *)
Definition bearer (p : JWTPayload) : string :=
  "Bearer " +:+ @signToken externals env p.

(** What [jwt.verify] returns for that token while it is valid. *)
Definition decoded (p : JWTPayload) : JwtClaims :=
  {| payload := p; iat := 1700000000; exp := Some 1700604800 |}.

Definition no_fields : string -> JsValue := fun _ => VUndefined.

Definition fields2 (k1 : string) (v1 : JsValue) (k2 : string) (v2 : JsValue)
    : string -> JsValue :=
  fun k => if String.eqb k k1 then v1 else if String.eqb k k2 then v2 else VUndefined.

Definition request (p : JWTPayload) (prm : string) (b : string -> JsValue) : Request :=
  {| authorization := Some (bearer p); param := prm; json := Some b |}.

End Sample.


(** ** Vocabulary of the statements *)

(** A text parameter the database accepts: SQL [NULL], or a text
    without the character with code 0. *)
Definition no_nul (p : option string) : bool :=
  match p with
  | Some s => negb (has_nul s)
  | None => true
  end.

(** The response to a rejected creation. *)
Definition note_limit_reached : Response :=
  c_json (JErrorMessage "note_limit_reached"
            "Free plan is limited to 3 notes. Upgrade to Pro for unlimited notes.") 402.

(** The response to a request for a note that is not there. *)
Definition note_not_found : Response := c_json (JError "Note not found") 404.

(** The note a successful creation stores. *)
Definition created_note (c : JWTPayload) (title content : string) (now : Z) : Note :=
  {| n_tenant_id := tenantId c; n_user_id := sub c; n_title := title;
     n_content := content; n_created_at := now; n_updated_at := now |}.

(** The store after [UPDATE notes ... WHERE id = k] wrote [n]. *)
Definition with_note (k : Z) (n : Note) (w : World) : World :=
  set_db (set_notes (<[k := n]> (notes (db w))) (notes_id_seq (db w)) (db w)) w.

(** The store after [DELETE FROM notes WHERE id = k]. *)
Definition without_note (k : Z) (w : World) : World :=
  set_db (set_notes (delete k (notes (db w))) (notes_id_seq (db w)) (db w)) w.

(** The denial of the role gate, and the denials of the slug checks. *)
Definition insufficient_role : Response := c_json (JError "Forbidden") 403.
Definition cross_tenant_upgrade : Response :=
  c_json (JError "Forbidden: Cannot upgrade other tenants") 403.
Definition cross_tenant_invite : Response :=
  c_json (JError "Forbidden: Cannot invite to other tenants") 403.

(** The store after [UPDATE tenants SET plan = 'pro' WHERE id = tid]. *)
Definition upgraded (tid : Z) (w : World) : World :=
  set_db (set_tenants (alter set_plan_pro tid (tenants (db w))) (tenants_id_seq (db w)) (db w)) w.

(** The answer of the login route to a failed credential check. *)
Definition invalid_credentials : Response := c_json (JError "Invalid credentials") 401.

(** The row [SELECT ... FROM users WHERE email = $1] finds for a parameter. *)
Definition user_by_email (p : option string) (d : DB) : option (string * User) :=
  match p with
  | Some e => pair e <$> users d !! e
  | None => None
  end.

(** ** The list and health routes

    Their bodies are a JSON array and an object with a timestamp, which
    [Json] does not have; [JsonX] adds them beside the bodies above. *)

Inductive JsonX :=
  | JX (j : Json)
  | JNotes (rows : list NoteRow)                  (* result.rows *)
  | JHealth (health : string) (timestamp : Z)     (* { status: 'ok', timestamp } *)
  | JHealthError (health error : string).         (* { status: 'error', error } *)

Record ResponseX := {
  statusX : Z;
  bodyX : JsonX
}.

Definition liftX (r : Response) : ResponseX :=
  {| statusX := status r; bodyX := JX (body r) |}.

(** Descending [created_at]. *)
Definition created_at_desc (a b : Z * Note) : Prop :=
  (n_created_at (snd b) <= n_created_at (snd a))%Z.

#[global] Instance created_at_desc_dec a b : Decision (created_at_desc a b).
Proof. unfold created_at_desc. apply _. Defined.

(** Rows of [notes] with [tenant_id = tid]. *)
Definition notes_where_tenant (tid : Z) (d : DB) : list (Z * Note) :=
  List.filter (fun kv => Z.eqb (n_tenant_id (snd kv)) tid) (map_to_list (notes d)).

(** [SELECT id, title, content, user_id, created_at, updated_at FROM notes
    WHERE tenant_id = $1 ORDER BY created_at DESC].  Among rows with the
    same [created_at] the database is free to choose the order; the
    model takes the order a stable sort of the stored rows gives. *)
Definition select_notes (tid : Z) : Statement (list NoteRow) :=
  with_params [PInteger tid]
    (fun d =>
       (inr (map (fun kv => note_row (fst kv) (snd kv))
               (merge_sort created_at_desc (notes_where_tenant tid d))), d)).

Section ServerX.
Context `{Externals}.

(** [requireAuth] at the response type of the two routes. *)
Definition requireAuthX (requiredRole : option Role) (env : Env) (req : Request)
    (next : JWTPayload -> M ResponseX) : M ResponseX :=
  match authorization req with
  | None => ret (liftX (c_json (JError "Unauthorized") 401))
  | Some authHeader =>
      if negb (String.prefix "Bearer " authHeader)
      then ret (liftX (c_json (JError "Unauthorized") 401))
      else
        let token := slice 7 authHeader in
        try_catch
          (match jwt_verify token JWT_SECRET (date_now env) with
           | inl e => throw (JwtThrown e)
           | inr decoded =>
               match requiredRole with
               | Some r =>
                   if negb (bool_decide (role (payload decoded) = r))
                   then ret (liftX (c_json (JError "Forbidden") 403))
                   else try_catch (next (payload decoded)) (fun _ => ret (liftX onError))
               | None => try_catch (next (payload decoded)) (fun _ => ret (liftX onError))
               end
           end)
          (fun _ => ret (liftX (c_json (JError "Invalid token") 401)))
  end.

(** [app.get('/health', ...)]; the timestamp is the clock, whose
    rendering as an ISO string is left out. *)
Definition health_handler (env : Env) : M ResponseX :=
  try_catch
    (initializeDatabase env ;;
     ret {| statusX := 200; bodyX := JHealth "ok" (date_now env) |})
    (fun _ => ret {| statusX := 500;
                     bodyX := JHealthError "error" "Database connection failed" |}).

(** The handler of [app.get('/notes', requireAuth(), ...)] *)
Definition listNotes_handler (env : Env) (req : Request) (auth : JWTPayload) : M ResponseX :=
  initializeDatabase env ;;
  try_catch
    (let! result := query (select_notes (tenantId auth)) in
     ret {| statusX := 200; bodyX := JNotes result |})
    (fun _ => ret (liftX (c_json (JError "Failed to fetch notes") 500))).

Definition respondX (h : M ResponseX) (w : World) : ResponseX * World :=
  match h w with
  | (inr r, w') => (r, w')
  | (inl _, w') => (liftX onError, w')
  end.

Definition GET_health (env : Env) : World -> ResponseX * World :=
  respondX (health_handler env).
Definition GET_notes (env : Env) (req : Request) : World -> ResponseX * World :=
  respondX (requireAuthX None env req (listNotes_handler env req)).

End ServerX.

(** ** Well-formed stores

    What the schema promises of a store that only the statements above
    wrote to: the serial ids were drawn from their sequences, the
    foreign keys resolve, and a tenant on the free plan holds at most
    three notes. *)

Definition ids_within_sequences (d : DB) : Prop :=
  (forall k, is_Some (tenants d !! k) -> (k <= tenants_id_seq d)%Z) /\
  (forall e u, users d !! e = Some u -> (u_id u <= users_id_seq d)%Z) /\
  (forall k, is_Some (notes d !! k) -> (k <= notes_id_seq d)%Z).

Definition references_resolve (d : DB) : Prop :=
  (forall e u, users d !! e = Some u -> is_Some (tenants d !! u_tenant_id u)) /\
  (forall k n, notes d !! k = Some n ->
     is_Some (tenants d !! n_tenant_id n) /\
     user_id_taken (n_user_id n) (users d) = true).

Definition within_quota (d : DB) : Prop :=
  forall tid t, tenants d !! tid = Some t -> t_plan t = free ->
    (note_count tid d <= 3)%Z.

(** The ids of the tenants table and the value of its sequence are in
    the range of their type, as [INTEGER] columns make them. *)
Definition integer_tenant_ids (d : DB) : Prop :=
  int4 (tenants_id_seq d) = true /\
  (forall k, is_Some (tenants d !! k) -> int4 k = true).

(** The sequences can still give out the ids initialization draws: two
    for the seed tenants and four for the seed users. *)
Definition room_for_seeds (d : DB) : Prop :=
  (tenants_id_seq d + 2 <= int4_max)%Z /\ (users_id_seq d + 4 <= int4_max)%Z.

(** The error answers of [POST /notes] that are JSON and are not the
    quota's. *)
Definition create_errors : list (string * Z) :=
  [("Unauthorized", 401%Z); ("Invalid token", 401%Z);
   ("Title and content are required", 400%Z); ("Failed to create note", 500%Z)].


Definition well_formed (d : DB) : Prop :=
  ids_within_sequences d /\ references_resolve d /\ within_quota d.



(** ** The client of these routes: src/src/api.ts

    [fetch] is the network: the functions are modelled from the
    response it resolves to.  A rejected [fetch] is not modelled. *)

(** An [Error] with the two properties [apiRequest] and [createNote]
    attach; a property that was not set is [undefined]. *)
Record JsError := {
  e_message : string;
  e_status : option Z;
  e_code : option string
}.

Inductive ClientThrown :=
  | JsonSyntaxError               (* thrown by [response.json()] *)
  | ErrorObject (e : JsError).

(** [a || b] where [a] is a string or undefined. *)
Definition or_else (a : option string) (b : string) : string :=
  match a with
  | Some EmptyString | None => b
  | Some s => s
  end.

(** [data.error] and [data.message] on the bodies the server writes. *)
Definition data_error (data : Json) : option string :=
  match data with
  | JError e | JErrorMessage e _ => Some e
  | _ => None
  end.

Definition data_message (data : Json) : option string :=
  match data with
  | JErrorMessage _ m => Some m
  | _ => None
  end.

(** [response.ok] *)
Definition response_ok (response : Response) : bool :=
  Z.leb 200 (status response) && Z.leb (status response) 299.

Section Client.

(** [JSON.parse] on a body written by [c.text]. *)
Variable JSON_parse : string -> option Json.

(** [await response.json()]: a body written by [c.json] parses back to
    what was written, [c.json(undefined)] writes no body at all. *)
Definition response_json (response : Response) : ClientThrown + Json :=
  match body response with
  | JText t =>
      match JSON_parse t with
      | Some data => inr data
      | None => inl JsonSyntaxError
      end
  | JNote None => inl JsonSyntaxError
  | data => inr data
  end.

(** [apiRequest] after [await fetch(...)] *)
Definition apiRequest (response : Response) : ClientThrown + Json :=
  match response_json response with
  | inl e => inl e
  | inr data =>
      if negb (response_ok response)
      then inl (ErrorObject
                  {| e_message :=
                       or_else (data_error data)
                         (or_else (data_message data)
                            ("HTTP " ++ string_of_Z (status response)));
                     e_status := Some (status response);
                     e_code := data_error data |})
      else inr data
  end.

(** [createNote]: [response] is what [fetch] resolved to for its
    [POST /notes]. *)
Definition createNote (response : Response) : ClientThrown + Json :=
  match apiRequest response with
  | inr data => inr data
  | inl JsonSyntaxError => inl JsonSyntaxError
  | inl (ErrorObject error) =>
      if bool_decide (e_status error = Some 402)
         || bool_decide (e_code error = Some "note_limit_reached")
      then inl (ErrorObject
                  {| e_message := or_else (Some (e_message error)) "Note limit reached";
                     e_status := None;
                     e_code := Some "NOTE_LIMIT" |})
      else inl (ErrorObject error)
  end.

End Client.

(** ** Proof automation

    Unfolds the monad in a handler and splits on each test the handler
    makes, in the order the tests are met. *)
Ltac run_handler :=
  cbv beta delta [respond bind try_catch query ret throw prop row0 read_json
                    c_json_ok c_json];
  repeat (simpl;
          first [ reflexivity
                | match goal with
                  | w : World |- context [set_db (db ?w') ?w'] => constr_eq w w'; destruct w
                  end
                | case_match; simplify_eq/= ]).

(** ** Properties *)

Lemma set_db_id (w : World) : set_db (db w) w = w.
Proof. destruct w; reflexivity. Qed.

Section Properties.
Context `{Externals}.
Implicit Types (env : Env) (req : Request) (w : World) (d : JwtClaims).

(** *** The monad and the middleware *)

Lemma respond_hono_next (h : M Response) w :
  respond (hono_next h) w = respond h w.
Proof.
  unfold respond, hono_next, try_catch, ret.
  destruct (h w) as [[e|r] w']; reflexivity.
Qed.

Lemma requireAuth_verified rr env req d next w :
  verified env req d ->
  requireAuth rr env req next w =
    match rr with
    | Some r =>
        if bool_decide (role (payload d) = r) then hono_next (next (payload d)) w
        else (inr (c_json (JError "Forbidden") 403), w)
    | None => hono_next (next (payload d)) w
    end.
Proof.
  intros (h & Hh & Hp & Hv). unfold requireAuth.
  rewrite Hh, Hp. simpl. unfold try_catch. rewrite Hv.
  destruct rr as [r|].
  - destruct (bool_decide (role (payload d) = r)); simpl.
    + unfold hono_next, try_catch, ret.
      destruct (next (payload d) w) as [[e|x] w']; reflexivity.
    + reflexivity.
  - unfold hono_next, try_catch, ret.
    destruct (next (payload d) w) as [[e|x] w']; reflexivity.
Qed.

Lemma respond_requireAuth env req d next w :
  verified env req d ->
  respond (requireAuth None env req next) w = respond (next (payload d)) w.
Proof.
  intros Hv. unfold respond at 1.
  rewrite (requireAuth_verified None env req d next w Hv).
  apply respond_hono_next.
Qed.

Lemma respond_requireAuth_admin env req d next w :
  verified env req d ->
  role (payload d) = admin ->
  respond (requireAuth (Some admin) env req next) w = respond (next (payload d)) w.
Proof.
  intros Hv Hr. unfold respond at 1.
  rewrite (requireAuth_verified (Some admin) env req d next w Hv).
  rewrite bool_decide_eq_true_2 by done.
  apply respond_hono_next.
Qed.

Lemma respond_requireAuth_member env req d next w :
  verified env req d ->
  role (payload d) <> admin ->
  respond (requireAuth (Some admin) env req next) w =
    (c_json (JError "Forbidden") 403, w).
Proof.
  intros Hv Hr. unfold respond.
  rewrite (requireAuth_verified (Some admin) env req d next w Hv).
  rewrite bool_decide_eq_false_2 by done. reflexivity.
Qed.

(** *** Initialization *)

Lemma initializeDatabase_done env w :
  initialized w = true -> initializeDatabase env w = (inr tt, w).
Proof.
  intros Hi. unfold initializeDatabase, bind, get_world. rewrite Hi. reflexivity.
Qed.

Lemma query_notes {A} (s : Statement A) :
  (forall st : DB, notes (s st).2 = notes st) ->
  forall w, notes (db (query s w).2) = notes (db w).
Proof.
  intros Hs w. unfold query. specialize (Hs (db w)).
  destruct (s (db w)) as [[e|a] d']; simpl in *; done.
Qed.

Lemma insert_tenants_notes rows (st : DB) :
  notes (insert_tenants_on_conflict_do_nothing rows st).2 = notes st.
Proof.
  unfold insert_tenants_on_conflict_do_nothing.
  destruct (insert_tenants_rows rows (tenants_id_seq st) (tenants st)) as [[e|t] s]; done.
Qed.

Lemma insert_users_notes rows (st : DB) :
  notes (insert_users_on_conflict_do_nothing rows st).2 = notes st.
Proof.
  unfold insert_users_on_conflict_do_nothing, with_params.
  destruct (bind_params _); [done|].
  destruct (insert_users_rows rows (users_id_seq st) (users st) []) as [[e|[u i]] s];
    [done|].
  destruct (forallb _ i); done.
Qed.

Lemma bind_notes {A B} (m : M A) (k : A -> M B) :
  (forall w, notes (db (m w).2) = notes (db w)) ->
  (forall a w, notes (db (k a w).2) = notes (db w)) ->
  forall w, notes (db (bind m k w).2) = notes (db w).
Proof.
  intros Hm Hk w. unfold bind. specialize (Hm w).
  destruct (m w) as [[e|a] w1]; simpl in *; [done|].
  rewrite Hk. done.
Qed.

Lemma initializeDatabase_notes env w :
  notes (db (initializeDatabase env w).2) = notes (db w).
Proof.
  unfold initializeDatabase. unfold bind at 1, get_world.
  destruct (initialized w); [done|].
  unfold try_catch.
  match goal with |- context [?m w] =>
    assert (Hm : notes (db (m w).2) = notes (db w)); [|destruct (m w) as [[e|a] w1]; done]
  end.
  revert w.
  repeat first
    [ apply bind_notes; [|intros ?]
    | apply query_notes; intros ?;
      first [apply insert_tenants_notes | apply insert_users_notes | done]
    | intros ?; unfold prop; case_match; done
    | intros ?; done ].
Qed.

(** *** What each note route computes *)

Lemma getNote_run env req (c : JWTPayload) w :
  respond (getNote_handler env req c) w =
    match initializeDatabase env w with
    | (inl _, w1) => (onError, w1)
    | (inr _, w1) =>
        match int4in (param req) with
        | None => (c_json (JError "Failed to fetch note") 500, w1)
        | Some k =>
            if negb (int4 (tenantId c))
            then (c_json (JError "Failed to fetch note") 500, w1)
            else
              match notes (db w1) !! k with
              | Some n =>
                  if Z.eqb (n_tenant_id n) (tenantId c)
                  then (c_json_ok (JNote (Some (note_row k n))), w1)
                  else (c_json (JError "Note not found") 404, w1)
              | None => (c_json (JError "Note not found") 404, w1)
              end
        end
    end.
Proof.
  unfold getNote_handler, select_note, notes_where_id_and_tenant, with_params,
    bind_params, bind_param.
  run_handler.
Qed.

Lemma updateNote_run env req (c : JWTPayload) w :
  respond (updateNote_handler env req c) w =
    match initializeDatabase env w with
    | (inl _, w1) => (onError, w1)
    | (inr _, w1) =>
        match json req with
        | None => (onError, w1)
        | Some b =>
            match int4in (param req) with
            | None => (c_json (JError "Failed to update note") 500, w1)
            | Some k =>
                if negb (int4 (tenantId c))
                then (c_json (JError "Failed to update note") 500, w1)
                else
                  match notes (db w1) !! k with
                  | Some n =>
                      if Z.eqb (n_tenant_id n) (tenantId c)
                      then
                        if bool_decide (role c = member) && negb (Z.eqb (n_user_id n) (sub c))
                        then (c_json (JError "Forbidden: You can only edit your own notes") 403,
                              w1)
                        else
                          if negb (no_nul (prepareValue (b "title")))
                             || negb (no_nul (prepareValue (b "content")))
                          then (c_json (JError "Failed to update note") 500, w1)
                          else
                            let n' := update_note_fields (prepareValue (b "title"))
                                        (prepareValue (b "content")) (pg_now env) n in
                            (c_json_ok (JNote (Some (note_row k n'))),
                             set_db (set_notes (<[k := n']> (notes (db w1)))
                                       (notes_id_seq (db w1)) (db w1)) w1)
                      else (c_json (JError "Note not found") 404, w1)
                  | None => (c_json (JError "Note not found") 404, w1)
                  end
            end
        end
    end.
Proof.
  unfold updateNote_handler, select_note_user_id, update_note, notes_where_id_and_tenant,
    with_params, bind_params, bind_param, no_nul.
  cbv beta delta [respond bind try_catch query ret throw prop row0 read_json
                    c_json_ok c_json].
  destruct (initializeDatabase env w) as [[e|u] w1]; [reflexivity|].
  destruct (json req) as [b|]; [|reflexivity]. simpl.
  destruct (int4in (param req)) as [k|]; [|simpl; rewrite set_db_id; reflexivity].
  destruct (int4 (tenantId c)); simpl; rewrite ?set_db_id; [|reflexivity].
  destruct (notes (db w1) !! k) as [n|] eqn:Hk; simpl; [|reflexivity].
  destruct (Z.eqb (n_tenant_id n) (tenantId c)); simpl; [|reflexivity].
  destruct (bool_decide (role c = member) && negb (Z.eqb (n_user_id n) (sub c)));
    simpl; [reflexivity|].
  destruct (prepareValue (b "title")) as [t|];
    destruct (prepareValue (b "content")) as [c'|]; simpl;
    repeat (destruct (has_nul _); simpl); rewrite ?Hk; simpl; rewrite ?set_db_id;
    reflexivity.
Qed.

Lemma deleteNote_run env req (c : JWTPayload) w :
  respond (deleteNote_handler env req c) w =
    match initializeDatabase env w with
    | (inl _, w1) => (onError, w1)
    | (inr _, w1) =>
        match int4in (param req) with
        | None => (c_json (JError "Failed to delete note") 500, w1)
        | Some k =>
            if negb (int4 (tenantId c))
            then (c_json (JError "Failed to delete note") 500, w1)
            else
              match notes (db w1) !! k with
              | Some n =>
                  if Z.eqb (n_tenant_id n) (tenantId c)
                  then
                    if bool_decide (role c = member) && negb (Z.eqb (n_user_id n) (sub c))
                    then (c_json (JError "Forbidden: You can only delete your own notes") 403,
                          w1)
                    else
                      (c_json_ok JSuccess,
                       set_db (set_notes (delete k (notes (db w1)))
                                 (notes_id_seq (db w1)) (db w1)) w1)
                  else (c_json (JError "Note not found") 404, w1)
              | None => (c_json (JError "Note not found") 404, w1)
              end
        end
    end.
Proof.
  unfold deleteNote_handler, select_note_user_id, delete_note, notes_where_id_and_tenant,
    with_params, bind_params, bind_param.
  run_handler.
Qed.

(** *** C1: tenant isolation *)

(** C1.  For every request whose token decodes to a claim [c] and every
    stored note [n] of another tenant, each of the routes that read,
    update and delete a note by id leaves [n] in place and unchanged and
    never returns it; when the request addresses [n] by its id, the
    answer is a refusal (404, or 500 when initialization failed).  The
    role of [c] plays no part. *)
Theorem tenant_isolation env req d w (k : Z) (n : Note) :
  verified env req d ->
  notes (db w) !! k = Some n ->
  n_tenant_id n <> tenantId (payload d) ->
  Forall (fun route : Env -> Request -> World -> Response * World =>
            notes (db (route env req w).2) !! k = Some n /\
            (forall row, body (route env req w).1 = JNote (Some row) -> r_id row <> k) /\
            (int4in (param req) = Some k ->
               status (route env req w).1 = 404 \/ status (route env req w).1 = 500))
         [GET_notes_id; PUT_notes_id; DELETE_notes_id].
Proof.
  intros Hv Hk Hne.
  assert (Hneb : Z.eqb (n_tenant_id n) (tenantId (payload d)) = false)
    by (apply Z.eqb_neq; done).
  pose proof (initializeDatabase_notes env w) as Hi.
  constructor; [|constructor; [|constructor; [|constructor]]].
  - unfold GET_notes_id. rewrite (respond_requireAuth _ _ d) by done.
    rewrite getNote_run.
    destruct (initializeDatabase env w) as [[e|u] w1]; simpl in Hi;
      rewrite <- Hi in Hk; [simpl; split_and!; [done|done|by right]|].
    destruct (int4in (param req)) as [k'|]; [|simpl; split_and!; [done|done|done]].
    destruct (int4 (tenantId (payload d))); simpl;
      [|split_and!; [done|done|by right]].
    destruct (notes (db w1) !! k') as [n'|] eqn:Hk'.
    + destruct (Z.eqb (n_tenant_id n') (tenantId (payload d))) eqn:Ht; simpl.
      * split_and!; [done| |].
        -- intros row [= <-]. simpl. intros ->. congruence.
        -- intros [= ->]. congruence.
      * split_and!; [done|done|by left].
    + simpl. split_and!; [done|done|by left].
  - unfold PUT_notes_id. rewrite (respond_requireAuth _ _ d) by done.
    rewrite updateNote_run.
    destruct (initializeDatabase env w) as [[e|u] w1]; simpl in Hi;
      rewrite <- Hi in Hk; [simpl; split_and!; [done|done|by right]|].
    destruct (json req) as [b|]; [|simpl; split_and!; [done|done|by right]].
    destruct (int4in (param req)) as [k'|]; [|simpl; split_and!; [done|done|done]].
    destruct (int4 (tenantId (payload d))); simpl;
      [|split_and!; [done|done|by right]].
    destruct (notes (db w1) !! k') as [n'|] eqn:Hk'.
    + destruct (Z.eqb (n_tenant_id n') (tenantId (payload d))) eqn:Ht; simpl.
      * assert (k' <> k) by (intros ->; congruence).
        destruct (bool_decide _ && _); simpl.
        -- split_and!; [done|done|]. intros [= ->]. done.
        -- destruct (negb _ || negb _); simpl.
           ++ split_and!; [done|done|by right].
           ++ split_and!.
              ** rewrite lookup_insert_ne; done.
              ** intros row [= <-]. simpl. done.
              ** intros [= ->]. done.
      * split_and!; [done|done|by left].
    + simpl. split_and!; [done|done|by left].
  - unfold DELETE_notes_id. rewrite (respond_requireAuth _ _ d) by done.
    rewrite deleteNote_run.
    destruct (initializeDatabase env w) as [[e|u] w1]; simpl in Hi;
      rewrite <- Hi in Hk; [simpl; split_and!; [done|done|by right]|].
    destruct (int4in (param req)) as [k'|]; [|simpl; split_and!; [done|done|done]].
    destruct (int4 (tenantId (payload d))); simpl;
      [|split_and!; [done|done|by right]].
    destruct (notes (db w1) !! k') as [n'|] eqn:Hk'.
    + destruct (Z.eqb (n_tenant_id n') (tenantId (payload d))) eqn:Ht; simpl.
      * assert (k' <> k) by (intros ->; congruence).
        destruct (bool_decide _ && _); simpl.
        -- split_and!; [done|done|]. intros [= ->]. done.
        -- split_and!.
           ++ rewrite lookup_delete_ne; done.
           ++ done.
           ++ intros [= ->]. done.
      * split_and!; [done|done|by left].
    + simpl. split_and!; [done|done|by left].
Qed.

End Properties.

Lemma sample_verified (p : JWTPayload) prm b :
  @jwt_verify Sample.externals (slice 7 (Sample.bearer p))
     (@JWT_SECRET Sample.externals) (date_now Sample.env) = inr (Sample.decoded p) ->
  @verified Sample.externals Sample.env (Sample.request p prm b) (Sample.decoded p).
Proof.
  intros Hv. exists (Sample.bearer p). split; [reflexivity|]. split; [reflexivity|].
  exact Hv.
Defined.

Lemma tenant_isolation_witness :
  Forall (fun route : Env -> Request -> World -> Response * World =>
            let req := Sample.request Sample.acme_admin "4" Sample.no_fields in
            notes (db (route Sample.env req Sample.world).2) !! 4 = Some (Sample.note 2 3 "g") /\
            (forall row, body (route Sample.env req Sample.world).1 = JNote (Some row) ->
                         r_id row <> 4) /\
            (Sample.int4in "4" = Some 4 ->
               status (route Sample.env req Sample.world).1 = 404 \/
               status (route Sample.env req Sample.world).1 = 500))
         [@GET_notes_id Sample.externals; @PUT_notes_id Sample.externals;
          @DELETE_notes_id Sample.externals].
Proof.
  apply (@tenant_isolation Sample.externals Sample.env
           (Sample.request Sample.acme_admin "4" Sample.no_fields)
           (Sample.decoded Sample.acme_admin) Sample.world 4 (Sample.note 2 3 "g")).
  - apply sample_verified. vm_compute. reflexivity.
  - vm_compute. reflexivity.
  - vm_compute. discriminate.
Defined.

(** *** The first request and the steady state

    Initialization runs once per process: when it succeeds the flag is
    set, a handler run in the state the request found behaves as if run
    in the state initialization left, and no route ever clears the
    flag. *)

Section Steady.
Context `{Externals}.
Implicit Types (env : Env) (req : Request) (w : World) (d : JwtClaims).

Lemma query_initialized {A} (s : Statement A) w :
  initialized (query s w).2 = initialized w.
Proof. unfold query. destruct (s (db w)) as [[e|a] st]; reflexivity. Qed.

Lemma initializeDatabase_ok env w w1 :
  initializeDatabase env w = (inr tt, w1) -> initialized w1 = true.
Proof.
  unfold initializeDatabase. unfold bind at 1, get_world.
  destruct (initialized w) eqn:Hi; [intros [= <-]; done|].
  unfold try_catch, bind, prop, set_initialized, throw, ret.
  intros Hr.
  repeat (case_match; simplify_eq/=); done.
Qed.

Lemma after_initialization {A} env (k : unit -> M A) w w1 :
  initializeDatabase env w = (inr tt, w1) ->
  bind (initializeDatabase env) k w = bind (initializeDatabase env) k w1.
Proof.
  intros Hi. unfold bind. rewrite Hi.
  rewrite (initializeDatabase_done env w1) by (eapply initializeDatabase_ok; done).
  reflexivity.
Qed.

Lemma first_request env req (c : JWTPayload) w w1 :
  initializeDatabase env w = (inr tt, w1) ->
  Forall (fun h : M Response => h w = h w1)
    [login_handler env req; upgrade_handler env req c; invite_handler env req c;
     getNote_handler env req c; createNote_handler env req c;
     updateNote_handler env req c; deleteNote_handler env req c].
Proof.
  intros Hi. repeat constructor; apply after_initialization; exact Hi.
Qed.

Lemma bind_initialized {A B} (m : M A) (k : A -> M B) :
  (forall w, initialized w = true -> initialized (m w).2 = true) ->
  (forall a w, initialized w = true -> initialized (k a w).2 = true) ->
  forall w, initialized w = true -> initialized (bind m k w).2 = true.
Proof.
  intros Hm Hk w Hw. unfold bind. specialize (Hm w Hw).
  destruct (m w) as [[e|a] w1]; simpl in *; [done|]. apply Hk. done.
Qed.

Lemma try_catch_initialized {A} (m : M A) (h : Thrown -> M A) :
  (forall w, initialized w = true -> initialized (m w).2 = true) ->
  (forall e w, initialized w = true -> initialized (h e w).2 = true) ->
  forall w, initialized w = true -> initialized (try_catch m h w).2 = true.
Proof.
  intros Hm Hh w Hw. unfold try_catch. specialize (Hm w Hw).
  destruct (m w) as [[e|a] w1]; simpl in *; [|done]. apply Hh. done.
Qed.

Lemma query_keeps_initialized {A} (s : Statement A) w :
  initialized w = true -> initialized (query s w).2 = true.
Proof. rewrite query_initialized. done. Qed.

Lemma initializeDatabase_keeps env w :
  initialized w = true -> initialized (initializeDatabase env w).2 = true.
Proof. intros Hw. rewrite initializeDatabase_done; done. Qed.

Lemma handlers_keep_initialized env req (c : JWTPayload) :
  Forall (fun h : M Response => forall w, initialized w = true -> initialized (h w).2 = true)
    [login_handler env req; upgrade_handler env req c; invite_handler env req c;
     getNote_handler env req c; createNote_handler env req c;
     updateNote_handler env req c; deleteNote_handler env req c].
Proof.
  repeat constructor.
  all: unfold login_handler, upgrade_handler, invite_handler, getNote_handler,
         createNote_handler, updateNote_handler, deleteNote_handler.
  all: apply bind_initialized; [apply initializeDatabase_keeps|].
  all: repeat first
         [ progress intros
         | assumption
         | apply query_keeps_initialized
         | apply bind_initialized
         | apply try_catch_initialized
         | progress (unfold ret, throw, prop, read_json, compare_password; simpl)
         | case_match ].
Qed.

Lemma requireAuth_keeps_initialized rr env req (next : JWTPayload -> M Response) :
  (forall c w, initialized w = true -> initialized (next c w).2 = true) ->
  forall w, initialized w = true ->
    initialized (respond (requireAuth rr env req next) w).2 = true.
Proof.
  intros Hn w Hw.
  assert (Hr : initialized (requireAuth rr env req next w).2 = true).
  { revert w Hw. unfold requireAuth.
    repeat first
      [ progress intros
      | assumption
      | apply Hn
      | apply try_catch_initialized
      | progress (unfold ret, throw, hono_next; simpl)
      | case_match ]. }
  unfold respond. destruct (requireAuth rr env req next w) as [[e|r] w1]; exact Hr.
Qed.

Lemma routes_keep_initialized env req w :
  initialized w = true ->
  Forall (fun route : Env -> Request -> World -> Response * World =>
            initialized (route env req w).2 = true)
    [POST_auth_login; POST_tenants_upgrade; POST_tenants_invite; GET_notes_id;
     POST_notes; PUT_notes_id; DELETE_notes_id].
Proof.
  intros Hw.
  pose proof (fun c => handlers_keep_initialized env req c) as Hh.
  assert (Hlogin := Hh {| sub := 0; email := EmptyString; role := member; tenantId := 0;
                          tenantSlug := EmptyString; plan := free |}).
  apply Forall_cons_1 in Hlogin as [Hlogin _].
  repeat constructor.
  1: { unfold POST_auth_login, respond. specialize (Hlogin w Hw).
       destruct (login_handler env req w) as [[e|r] w1]; exact Hlogin. }
  all: apply requireAuth_keeps_initialized; [|done]; intros c.
  all: specialize (Hh c); rewrite !Forall_cons in Hh; tauto.
Qed.

End Steady.

(** *** C2: the free-plan quota

    From here on [w] is the state a request finds and [w1] the state
    initialization leaves, which is [w] itself once the process is
    initialized ([initializeDatabase_done]). *)

Lemma elem_of_notes_where_tenant (tid : Z) (st : DB) (k : Z) (n : Note) :
  (k, n) ∈ notes_where_tenant tid st <-> notes st !! k = Some n /\ n_tenant_id n = tid.
Proof.
  unfold notes_where_tenant. rewrite list_elem_of_In, filter_In, <- list_elem_of_In.
  rewrite elem_of_map_to_list. simpl. rewrite Z.eqb_eq. reflexivity.
Qed.

Lemma NoDup_filter_fst {A B} (f : A * B -> bool) (l : list (A * B)) :
  NoDup (map fst l) -> NoDup (map fst (List.filter f l)).
Proof.
  induction l as [|x l IH]; simpl; [done|].
  intros Hnd. apply NoDup_cons in Hnd as [Hx Hl].
  destruct (f x); simpl; [|auto].
  apply NoDup_cons. split; [|auto].
  intros Hin. apply Hx.
  apply list_elem_of_In, in_map_iff in Hin as (y & Hy & Hin).
  apply filter_In in Hin as [Hin _].
  apply list_elem_of_In, in_map_iff. eauto.
Qed.

(** What [COUNT( * )] returns is the number of stored notes of the
    tenant: the length of any list that names each of them once. *)
Lemma note_count_listed (tid : Z) (st : DB) (ks : list Z) :
  NoDup ks ->
  (forall k, k ∈ ks <-> exists n, notes st !! k = Some n /\ n_tenant_id n = tid) ->
  note_count tid st = Z.of_nat (List.length ks).
Proof.
  intros Hnd Hks. unfold note_count. fold (notes_where_tenant tid st).
  rewrite <- (length_fmap fst (notes_where_tenant tid st)).
  f_equal. apply Permutation_length. apply NoDup_Permutation.
  - unfold notes_where_tenant. apply (NoDup_filter_fst _ (map_to_list (notes st))).
    apply NoDup_fst_map_to_list.
  - exact Hnd.
  - intros k. rewrite Hks, list_elem_of_fmap. split.
    + intros ([k' n] & -> & Hin). apply elem_of_notes_where_tenant in Hin. eauto.
    + intros (n & Hn). exists (k, n). split; [reflexivity|].
      apply elem_of_notes_where_tenant. exact Hn.
Qed.

Section Quota.
Context `{Externals}.
Implicit Types (env : Env) (req : Request) (w : World) (d : JwtClaims).

Lemma truthy_prepareValue (v : JsValue) :
  truthy v = true -> exists s, prepareValue v = Some s.
Proof. destruct v; simpl; try done; eauto. Qed.

Lemma createNote_run env req (c : JWTPayload) w :
  respond (createNote_handler env req c) w =
    match initializeDatabase env w with
    | (inl _, w1) => (onError, w1)
    | (inr _, w1) =>
        match json req with
        | None => (onError, w1)
        | Some b =>
            if negb (truthy (b "title")) || negb (truthy (b "content"))
            then (c_json (JError "Title and content are required") 400, w1)
            else
              if negb (int4 (tenantId c))
              then (c_json (JError "Failed to create note") 500, w1)
              else
                match tenants (db w1) !! tenantId c with
                | None => (c_json (JError "Failed to create note") 500, w1)
                | Some t =>
                    if bool_decide (t_plan t = free)
                       && Z.leb 3 (note_count (tenantId c) (db w1))
                    then (note_limit_reached, w1)
                    else
                      match insert_note (tenantId c) (sub c) (prepareValue (b "title"))
                              (prepareValue (b "content")) (pg_now env) (db w1) with
                      | (inr rows, st) => (c_json (JNote (row0 rows)) 201, set_db st w1)
                      | (inl _, st) =>
                          (c_json (JError "Failed to create note") 500, set_db st w1)
                      end
                end
        end
    end.
Proof.
  unfold createNote_handler, select_plan, count_notes, note_limit_reached.
  unfold with_params at 1 2. unfold bind_params, bind_param.
  cbv beta delta [respond bind try_catch query ret throw prop row0 read_json
                    c_json_ok c_json].
  destruct (initializeDatabase env w) as [[e|u] w1]; [reflexivity|].
  destruct (json req) as [b|]; [|reflexivity]. simpl.
  destruct (negb (truthy (b "title")) || negb (truthy (b "content"))); [reflexivity|].
  simpl. destruct (int4 (tenantId c)); simpl; rewrite set_db_id; [|reflexivity].
  destruct (tenants (db w1) !! tenantId c) as [t|]; simpl; [|reflexivity].
  destruct (bool_decide (t_plan t = free)); simpl.
  - rewrite set_db_id. destruct (Z.leb 3 _); simpl; [reflexivity|].
    destruct (insert_note _ _ _ _ _ _) as [[e|rows] st]; reflexivity.
  - destruct (insert_note _ _ _ _ _ _) as [[e|rows] st]; reflexivity.
Qed.

(** The statement that stores a note succeeds on parameters the
    database accepts, below the end of the sequence, for a stored
    tenant and user and a fresh id. *)
Lemma insert_note_stores (tid uid : Z) (title content : string) (now : Z) (st : DB) :
  int4 tid = true -> int4 uid = true ->
  has_nul title = false -> has_nul content = false ->
  (notes_id_seq st < int4_max)%Z ->
  notes st !! (notes_id_seq st + 1)%Z = None ->
  is_Some (tenants st !! tid) ->
  user_id_taken uid (users st) = true ->
  let n := {| n_tenant_id := tid; n_user_id := uid; n_title := title;
              n_content := content; n_created_at := now; n_updated_at := now |} in
  insert_note tid uid (Some title) (Some content) now st =
    (inr [note_row (notes_id_seq st + 1) n],
     set_notes (<[(notes_id_seq st + 1)%Z := n]> (notes st)) (notes_id_seq st + 1) st).
Proof.
  intros Ht Hu Hti Hco Hseq Hfresh [t Hten] Huser n.
  unfold insert_note, with_params, bind_params, bind_param, nextval.
  rewrite Ht, Hu, Hti, Hco.
  apply Z.ltb_lt in Hseq. rewrite Hseq, Hfresh.
  unfold tenant_exists. rewrite Hten, Huser. reflexivity.
Qed.

(** C2.  Take a creation request with a valid token and a truthy title
    and content that the database accepts as text, for a tenant and a
    user that are stored, the note sequence not being exhausted and its
    next id being free.  Let [ks] list the ids of the stored notes of
    the claim's tenant, each once.  When the stored plan of the tenant
    is free, the request is answered 201 exactly when [ks] has fewer
    than 3 entries, and otherwise 402 with the error code
    note_limit_reached and nothing stored.  When the plan is pro it is
    answered 201 however many entries [ks] has.  A 201 returns and
    stores the note under the next id, with the claim's tenant and
    user. *)
Theorem quota_gating env req d w w1 (b : string -> JsValue) (t : Tenant)
    (title content : string) (ks : list Z) :
  initializeDatabase env w = (inr tt, w1) ->
  verified env req d ->
  json req = Some b ->
  truthy (b "title") = true -> prepareValue (b "title") = Some title ->
  truthy (b "content") = true -> prepareValue (b "content") = Some content ->
  has_nul title = false -> has_nul content = false ->
  int4 (tenantId (payload d)) = true -> int4 (sub (payload d)) = true ->
  tenants (db w1) !! tenantId (payload d) = Some t ->
  user_id_taken (sub (payload d)) (users (db w1)) = true ->
  (notes_id_seq (db w1) < int4_max)%Z ->
  notes (db w1) !! (notes_id_seq (db w1) + 1)%Z = None ->
  NoDup ks ->
  (forall k, k ∈ ks <->
     exists n, notes (db w1) !! k = Some n /\ n_tenant_id n = tenantId (payload d)) ->
  let r := (POST_notes env req w).1 in
  let w' := (POST_notes env req w).2 in
  let id := (notes_id_seq (db w1) + 1)%Z in
  (t_plan t = free ->
     (status r = 201 <-> (List.length ks < 3)%nat) /\
     ((3 <= List.length ks)%nat -> r = note_limit_reached /\ w' = w1)) /\
  (t_plan t = pro -> status r = 201) /\
  (status r = 201 ->
     r = c_json (JNote (Some {| r_id := id; r_title := title; r_content := content;
                                r_user_id := sub (payload d);
                                r_created_at := pg_now env;
                                r_updated_at := pg_now env |})) 201 /\
     notes (db w') = <[id := created_note (payload d) title content (pg_now env)]>
                       (notes (db w1)) /\
     notes_id_seq (db w') = id).
Proof.
  intros Hi Hv Hb Ht Ht' Hc Hc' Hnt Hnc Htid Hsub Hten Hu Hseq Hfresh Hnd Hks r w' id.
  subst r w' id. unfold POST_notes.
  rewrite (respond_requireAuth _ _ d) by done.
  rewrite createNote_run, Hi, Hb, Ht, Hc, Htid, Hten.
  simpl negb. simpl orb. cbv iota.
  rewrite Ht', Hc'.
  rewrite (insert_note_stores _ _ title content (pg_now env) (db w1)) by eauto.
  rewrite (note_count_listed _ _ ks Hnd Hks).
  destruct (Z.leb_spec 3 (Z.of_nat (List.length ks))) as [Hle|Hlt].
  - split_and!.
    + intros Hfree. rewrite bool_decide_eq_true_2 by done. simpl.
      split; [split; [discriminate|lia]|done].
    + intros Hpro. rewrite bool_decide_eq_false_2 by congruence. reflexivity.
    + destruct (bool_decide (t_plan t = free)); simpl; [discriminate|done].
  - rewrite andb_false_r. simpl. split_and!; [|done|done].
    intros _. split; [split; [intros _; lia|done]|lia].
Qed.

End Quota.

(** The notes of the two tenants in the sample store. *)
Lemma sample_notes_of (tid : Z) (ks : list Z) :
  (tid = 1%Z /\ ks = [1; 2; 3]%Z) \/ (tid = 2%Z /\ ks = [4]%Z) ->
  forall k, k ∈ ks <->
    exists n, notes Sample.store !! k = Some n /\ n_tenant_id n = tid.
Proof.
  intros Hcase k. split.
  - intros Hin. destruct Hcase as [[-> ->]|[-> ->]].
    + apply list_elem_of_In in Hin.
      destruct Hin as [<-|[<-|[<-|[]]]]; eexists; split; vm_compute; reflexivity.
    + apply list_elem_of_In in Hin.
      destruct Hin as [<-|[]]; eexists; split; vm_compute; reflexivity.
  - intros (n & Hn & Ht). unfold Sample.store in Hn. simpl in Hn.
    repeat (apply lookup_insert_Some in Hn as [[<- <-]|[? Hn]];
            [destruct Hcase as [[-> ->]|[-> ->]]; simpl in Ht;
               first [discriminate Ht | set_solver]|]).
    rewrite lookup_empty in Hn. discriminate Hn.
Defined.

Lemma quota_gating_witness :
  let body := Sample.fields2 "title" (VString "t") "content" (VOther true "5") in
  let full := Sample.request Sample.acme_admin EmptyString body in
  let room := Sample.request Sample.globex_admin EmptyString body in
  let r := (@POST_notes Sample.externals Sample.env full Sample.world).1 in
  let w' := (@POST_notes Sample.externals Sample.env full Sample.world).2 in
  let r2 := (@POST_notes Sample.externals Sample.env room Sample.world).1 in
  let w2' := (@POST_notes Sample.externals Sample.env room Sample.world).2 in
  ((free = free ->
      (status r = 201 <-> (3 < 3)%nat) /\
      ((3 <= 3)%nat -> r = note_limit_reached /\ w' = Sample.world)) /\
   (free = pro -> status r = 201) /\
   (status r = 201 ->
      r = c_json (JNote (Some {| r_id := 5; r_title := "t"; r_content := "5";
                                 r_user_id := 1; r_created_at := 200;
                                 r_updated_at := 200 |})) 201 /\
      notes (db w') =
        <[5%Z := created_note Sample.acme_admin "t" "5" 200]> (notes Sample.store) /\
      notes_id_seq (db w') = 5%Z)) /\
  ((free = free ->
      (status r2 = 201 <-> (1 < 3)%nat) /\
      ((3 <= 1)%nat -> r2 = note_limit_reached /\ w2' = Sample.world)) /\
   (free = pro -> status r2 = 201) /\
   (status r2 = 201 ->
      r2 = c_json (JNote (Some {| r_id := 5; r_title := "t"; r_content := "5";
                                  r_user_id := 3; r_created_at := 200;
                                  r_updated_at := 200 |})) 201 /\
      notes (db w2') =
        <[5%Z := created_note Sample.globex_admin "t" "5" 200]> (notes Sample.store) /\
      notes_id_seq (db w2') = 5%Z)).
Proof.
  split.
  - apply (@quota_gating Sample.externals Sample.env
             (Sample.request Sample.acme_admin EmptyString
                (Sample.fields2 "title" (VString "t") "content" (VOther true "5")))
             (Sample.decoded Sample.acme_admin) Sample.world Sample.world
             (Sample.fields2 "title" (VString "t") "content" (VOther true "5"))
             {| t_slug := "acme"; t_name := "Acme Corporation"; t_plan := free |} "t" "5"
             [1; 2; 3]%Z).
    + reflexivity.
    + apply sample_verified. vm_compute. reflexivity.
    + reflexivity.
    + reflexivity.
    + reflexivity.
    + reflexivity.
    + reflexivity.
    + reflexivity.
    + reflexivity.
    + reflexivity.
    + reflexivity.
    + vm_compute. reflexivity.
    + vm_compute. reflexivity.
    + vm_compute. reflexivity.
    + vm_compute. reflexivity.
    + apply (bool_decide_unpack _). vm_compute. exact I.
    + apply sample_notes_of. left. split; reflexivity.
  - apply (@quota_gating Sample.externals Sample.env
             (Sample.request Sample.globex_admin EmptyString
                (Sample.fields2 "title" (VString "t") "content" (VOther true "5")))
             (Sample.decoded Sample.globex_admin) Sample.world Sample.world
             (Sample.fields2 "title" (VString "t") "content" (VOther true "5"))
             {| t_slug := "globex"; t_name := "Globex Corporation"; t_plan := free |}
             "t" "5" [4]%Z).
    + reflexivity.
    + apply sample_verified. vm_compute. reflexivity.
    + reflexivity.
    + reflexivity.
    + reflexivity.
    + reflexivity.
    + reflexivity.
    + reflexivity.
    + reflexivity.
    + reflexivity.
    + reflexivity.
    + vm_compute. reflexivity.
    + vm_compute. reflexivity.
    + vm_compute. reflexivity.
    + vm_compute. reflexivity.
    + apply (bool_decide_unpack _). vm_compute. exact I.
    + apply sample_notes_of. right. split; reflexivity.
Defined.

(** *** C3: ownership of notes *)

Section Ownership.
Context `{Externals}.
Implicit Types (env : Env) (req : Request) (w : World) (d : JwtClaims).

(** C3.  For a stored note [n] of the claim's own tenant that another
    user created, addressed by a request whose claim carries a tenant id
    in the range of the column: a member's update and delete are
    answered 403 and store nothing.  An admin's delete is answered 200
    and removes the note; an admin's update whose title and content the
    database accepts as text is answered 200 with the rewritten row, and
    the stored note then carries the title and content of the body
    where the body has them and its own otherwise. *)
Theorem ownership_gating env req d w w1 (k : Z) (n : Note) :
  initializeDatabase env w = (inr tt, w1) ->
  verified env req d ->
  int4in (param req) = Some k ->
  int4 (tenantId (payload d)) = true ->
  notes (db w1) !! k = Some n ->
  n_tenant_id n = tenantId (payload d) ->
  n_user_id n <> sub (payload d) ->
  (role (payload d) = member ->
     (forall b, json req = Some b ->
        PUT_notes_id env req w =
          (c_json (JError "Forbidden: You can only edit your own notes") 403, w1)) /\
     DELETE_notes_id env req w =
       (c_json (JError "Forbidden: You can only delete your own notes") 403, w1)) /\
  (role (payload d) = admin ->
     (forall b, json req = Some b ->
        no_nul (prepareValue (b "title")) = true ->
        no_nul (prepareValue (b "content")) = true ->
        let title := match prepareValue (b "title") with
                     | Some s => s | None => n_title n end in
        let content := match prepareValue (b "content") with
                       | Some s => s | None => n_content n end in
        let n' := {| n_tenant_id := n_tenant_id n; n_user_id := n_user_id n;
                     n_title := title; n_content := content;
                     n_created_at := n_created_at n; n_updated_at := pg_now env |} in
        PUT_notes_id env req w =
          (c_json_ok (JNote (Some {| r_id := k; r_title := title; r_content := content;
                                     r_user_id := n_user_id n;
                                     r_created_at := n_created_at n;
                                     r_updated_at := pg_now env |})),
           with_note k n' w1) /\
        notes (db (PUT_notes_id env req w).2) !! k = Some n') /\
     DELETE_notes_id env req w = (c_json_ok JSuccess, without_note k w1) /\
     notes (db (DELETE_notes_id env req w).2) !! k = None).
Proof.
  intros Hi Hv Hid Hrange Hk Hten Hown.
  assert (Heq : Z.eqb (n_tenant_id n) (tenantId (payload d)) = true) by (apply Z.eqb_eq; done).
  assert (Hneq : Z.eqb (n_user_id n) (sub (payload d)) = false) by (apply Z.eqb_neq; done).
  unfold PUT_notes_id, DELETE_notes_id.
  rewrite !(respond_requireAuth _ _ d) by done.
  rewrite updateNote_run, !deleteNote_run, Hi, Hid, Hrange, Hk, Heq, Hneq.
  split; intros Hr; rewrite Hr; simpl.
  - split; [|reflexivity]. intros b ->. reflexivity.
  - split; [|split; [reflexivity|apply lookup_delete_eq]].
    intros b Hb Htitle Hcontent. rewrite Hb, Htitle, Hcontent. simpl.
    unfold update_note_fields, COALESCE.
    split; [reflexivity|apply lookup_insert_eq].
Qed.

End Ownership.

Lemma ownership_gating_witness :
  let denied := Sample.request Sample.acme_member "1" Sample.no_fields in
  let b := Sample.fields2 "title" (VString "new") "content" VNull in
  let allowed := Sample.request Sample.acme_admin "2" b in
  @DELETE_notes_id Sample.externals Sample.env denied Sample.world =
    (c_json (JError "Forbidden: You can only delete your own notes") 403, Sample.world) /\
  (json allowed = Some b ->
   no_nul (prepareValue (b "title")) = true ->
   no_nul (prepareValue (b "content")) = true ->
   let n' := {| n_tenant_id := 1; n_user_id := 2; n_title := "new"; n_content := "text";
                n_created_at := 100; n_updated_at := 200 |} in
   @PUT_notes_id Sample.externals Sample.env allowed Sample.world =
     (c_json_ok (JNote (Some {| r_id := 2; r_title := "new"; r_content := "text";
                                r_user_id := 2; r_created_at := 100;
                                r_updated_at := 200 |})),
      with_note 2 n' Sample.world) /\
   notes (db (@PUT_notes_id Sample.externals Sample.env allowed Sample.world).2) !! 2%Z
     = Some n') /\
  @DELETE_notes_id Sample.externals Sample.env allowed Sample.world =
    (c_json_ok JSuccess, without_note 2 Sample.world).
Proof.
  assert (Hm := @ownership_gating Sample.externals Sample.env
                  (Sample.request Sample.acme_member "1" Sample.no_fields)
                  (Sample.decoded Sample.acme_member) Sample.world Sample.world
                  1 (Sample.note 1 1 "a")).
  assert (Ha := @ownership_gating Sample.externals Sample.env
                  (Sample.request Sample.acme_admin "2"
                     (Sample.fields2 "title" (VString "new") "content" VNull))
                  (Sample.decoded Sample.acme_admin) Sample.world Sample.world
                  2 (Sample.note 1 2 "b")).
  split_and!.
  - apply Hm.
    + reflexivity.
    + apply sample_verified. vm_compute. reflexivity.
    + vm_compute. reflexivity.
    + reflexivity.
    + vm_compute. reflexivity.
    + reflexivity.
    + vm_compute. discriminate.
    + reflexivity.
  - apply Ha.
    + reflexivity.
    + apply sample_verified. vm_compute. reflexivity.
    + vm_compute. reflexivity.
    + reflexivity.
    + vm_compute. reflexivity.
    + reflexivity.
    + vm_compute. discriminate.
    + reflexivity.
  - apply Ha.
    + reflexivity.
    + apply sample_verified. vm_compute. reflexivity.
    + vm_compute. reflexivity.
    + reflexivity.
    + vm_compute. reflexivity.
    + reflexivity.
    + vm_compute. discriminate.
    + reflexivity.
Defined.

(** *** C4: notes of other tenants look absent *)

Section Leak.
Context `{Externals}.
Implicit Types (env : Env) (req : Request) (w : World) (d : JwtClaims).

(** C4.  A request with a valid token that addresses a stored note of
    another tenant gets, from each of the read, update and delete
    routes, the very response it gets in a state where no note has that
    id, and never 403.  When the tenant id of the claim is in the range
    of the column, as it is in every token the login route issues, that
    response is 404 "Note not found" (for the update route, whose body
    is read first, when the body parses). *)
Theorem leak_avoidance env req d w w1 w0 w01 (k : Z) (n : Note) :
  initializeDatabase env w = (inr tt, w1) ->
  initializeDatabase env w0 = (inr tt, w01) ->
  verified env req d ->
  int4in (param req) = Some k ->
  notes (db w1) !! k = Some n ->
  n_tenant_id n <> tenantId (payload d) ->
  notes (db w01) !! k = None ->
  ((GET_notes_id env req w).1 = (GET_notes_id env req w0).1 /\
   (DELETE_notes_id env req w).1 = (DELETE_notes_id env req w0).1 /\
   (PUT_notes_id env req w).1 = (PUT_notes_id env req w0).1) /\
  (status (GET_notes_id env req w).1 <> 403 /\
   status (DELETE_notes_id env req w).1 <> 403 /\
   status (PUT_notes_id env req w).1 <> 403) /\
  (int4 (tenantId (payload d)) = true ->
     ((GET_notes_id env req w).1 = note_not_found /\
      (GET_notes_id env req w0).1 = note_not_found) /\
     ((DELETE_notes_id env req w).1 = note_not_found /\
      (DELETE_notes_id env req w0).1 = note_not_found) /\
     (is_Some (json req) ->
        (PUT_notes_id env req w).1 = note_not_found /\
        (PUT_notes_id env req w0).1 = note_not_found)).
Proof.
  intros Hi Hi0 Hv Hid Hk Hten Hk0.
  assert (Hneq : Z.eqb (n_tenant_id n) (tenantId (payload d)) = false) by (apply Z.eqb_neq; done).
  unfold GET_notes_id, PUT_notes_id, DELETE_notes_id.
  rewrite !(respond_requireAuth _ _ d) by done.
  rewrite !getNote_run, !updateNote_run, !deleteNote_run.
  rewrite Hi, Hi0, !Hid, Hk, Hk0, Hneq.
  split_and!.
  - destruct (int4 (tenantId (payload d))); reflexivity.
  - destruct (int4 (tenantId (payload d))); reflexivity.
  - destruct (json req); [|reflexivity].
    destruct (int4 (tenantId (payload d))); reflexivity.
  - destruct (int4 (tenantId (payload d))); simpl; discriminate.
  - destruct (int4 (tenantId (payload d))); simpl; discriminate.
  - destruct (json req); [|simpl; discriminate].
    destruct (int4 (tenantId (payload d))); simpl; discriminate.
  - intros ->. simpl. split_and!; try reflexivity.
    intros [b ->]. split; reflexivity.
Qed.

End Leak.

Lemma leak_avoidance_witness :
  let req := Sample.request Sample.acme_admin "4" Sample.no_fields in
  let w := Sample.world in
  let w0 := without_note 4 Sample.world in
  ((@GET_notes_id Sample.externals Sample.env req w).1 =
     (@GET_notes_id Sample.externals Sample.env req w0).1 /\
   (@DELETE_notes_id Sample.externals Sample.env req w).1 =
     (@DELETE_notes_id Sample.externals Sample.env req w0).1 /\
   (@PUT_notes_id Sample.externals Sample.env req w).1 =
     (@PUT_notes_id Sample.externals Sample.env req w0).1) /\
  (status (@GET_notes_id Sample.externals Sample.env req w).1 <> 403 /\
   status (@DELETE_notes_id Sample.externals Sample.env req w).1 <> 403 /\
   status (@PUT_notes_id Sample.externals Sample.env req w).1 <> 403) /\
  (int4 1 = true ->
     ((@GET_notes_id Sample.externals Sample.env req w).1 = note_not_found /\
      (@GET_notes_id Sample.externals Sample.env req w0).1 = note_not_found) /\
     ((@DELETE_notes_id Sample.externals Sample.env req w).1 = note_not_found /\
      (@DELETE_notes_id Sample.externals Sample.env req w0).1 = note_not_found) /\
     (is_Some (json req) ->
        (@PUT_notes_id Sample.externals Sample.env req w).1 = note_not_found /\
        (@PUT_notes_id Sample.externals Sample.env req w0).1 = note_not_found)).
Proof.
  apply (@leak_avoidance Sample.externals Sample.env
           (Sample.request Sample.acme_admin "4" Sample.no_fields)
           (Sample.decoded Sample.acme_admin) Sample.world Sample.world
           (without_note 4 Sample.world) (without_note 4 Sample.world)
           4 (Sample.note 2 3 "g")).
  - reflexivity.
  - reflexivity.
  - apply sample_verified. vm_compute. reflexivity.
  - vm_compute. reflexivity.
  - vm_compute. reflexivity.
  - vm_compute. discriminate.
  - vm_compute. reflexivity.
Defined.

(** *** C5 and C6: the admin-only tenant routes *)

Section TenantRoutes.
Context `{Externals}.
Implicit Types (env : Env) (req : Request) (w : World) (d : JwtClaims).

Lemma upgrade_run env req (c : JWTPayload) w :
  respond (upgrade_handler env req c) w =
    match initializeDatabase env w with
    | (inl _, w1) => (onError, w1)
    | (inr _, w1) =>
        if negb (String.eqb (param req) (tenantSlug c))
        then (cross_tenant_upgrade, w1)
        else if negb (int4 (tenantId c))
        then (c_json (JError "Upgrade failed") 500, w1)
        else (c_json_ok JUpgraded, upgraded (tenantId c) w1)
    end.
Proof.
  unfold upgrade_handler, update_tenant_plan_pro, cross_tenant_upgrade, upgraded,
    with_params, bind_params, bind_param.
  cbv beta delta [respond bind try_catch query ret throw prop row0 read_json
                    c_json_ok c_json].
  destruct (initializeDatabase env w) as [[e|u] w1]; [reflexivity|].
  destruct (negb (String.eqb (param req) (tenantSlug c))); [reflexivity|].
  destruct (int4 (tenantId c)); simpl; rewrite ?set_db_id; reflexivity.
Qed.

Lemma invite_run env req (c : JWTPayload) w :
  respond (invite_handler env req c) w =
    match initializeDatabase env w with
    | (inl _, w1) => (onError, w1)
    | (inr _, w1) =>
        if negb (String.eqb (param req) (tenantSlug c))
        then (cross_tenant_invite, w1)
        else
          match json req with
          | None => (onError, w1)
          | Some b =>
              match (if truthy (b "email") then role_of_js (b "role") else None) with
              | None => (c_json (JError "Email and valid role are required") 400, w1)
              | Some r =>
                  match insert_user (prepareValue (b "email"))
                          (bcrypt_hash "password" 10 (salt env)) r (tenantId c) (db w1) with
                  | (inr _, st) => (c_json_ok JSuccess, set_db st w1)
                  | (inl e, st) =>
                      (if includes "duplicate" (pg_message e)
                       then c_json (JError "User already exists") 409
                       else c_json (JError "Failed to invite user") 500, set_db st w1)
                  end
              end
          end
    end.
Proof.
  unfold invite_handler, cross_tenant_invite.
  cbv beta delta [respond bind try_catch query ret throw prop row0 read_json
                    c_json_ok c_json].
  destruct (initializeDatabase env w) as [[e|u] w1]; [reflexivity|].
  destruct (negb (String.eqb (param req) (tenantSlug c))); [reflexivity|].
  destruct (json req) as [b|]; [|reflexivity]. simpl.
  destruct (if truthy (b "email") then role_of_js (b "role") else None) as [r|];
    [|reflexivity].
  destruct (insert_user _ _ _ _ _) as [[e|u'] st]; simpl; [|reflexivity].
  destruct (includes "duplicate" (pg_message e)); reflexivity.
Qed.

(** C5.  A request whose claim is not an admin's is answered 403 by both
    tenant routes, and the process state is exactly what it was: the
    middleware answers before the handler, and with it initialization
    and every statement, runs.  An admin's upgrade of the admin's own
    tenant, the tenant id of the claim being in the range of the
    column, is answered 200 and leaves the plan of the tenant with the
    claim's tenant id at pro, its slug and name as they were. *)
Theorem role_gating env req d w :
  verified env req d ->
  (role (payload d) <> admin ->
     POST_tenants_upgrade env req w = (insufficient_role, w) /\
     POST_tenants_invite env req w = (insufficient_role, w)) /\
  (role (payload d) = admin ->
   forall w1,
   initializeDatabase env w = (inr tt, w1) ->
   param req = tenantSlug (payload d) ->
   int4 (tenantId (payload d)) = true ->
     POST_tenants_upgrade env req w = (c_json_ok JUpgraded, upgraded (tenantId (payload d)) w1) /\
     forall t, tenants (db w1) !! tenantId (payload d) = Some t ->
       tenants (db (POST_tenants_upgrade env req w).2) !! tenantId (payload d) =
         Some {| t_slug := t_slug t; t_name := t_name t; t_plan := pro |}).
Proof.
  intros Hv. split.
  - intros Hr. unfold POST_tenants_upgrade, POST_tenants_invite.
    rewrite !(respond_requireAuth_member _ _ d) by done. done.
  - intros Hr w1 Hi Hs Hrange. unfold POST_tenants_upgrade.
    rewrite (respond_requireAuth_admin _ _ d) by done.
    rewrite upgrade_run, Hi, Hs, String.eqb_refl, Hrange.
    simpl. split; [reflexivity|].
    intros t Ht. rewrite lookup_alter_eq, Ht. reflexivity.
Qed.

(** C6, as the code has it.  For a tenant route whose path slug is not
    the claim's: the role gate of the middleware comes first, so a claim
    that is not an admin's gets the role denial, the same answer it gets
    when the slug matches, and the process state is what it was; an
    admin's claim reaches the slug check and gets the cross-tenant
    denial of the route, and only initialization has touched the
    state. *)
Theorem rule_order env req d w :
  verified env req d ->
  param req <> tenantSlug (payload d) ->
  (role (payload d) <> admin ->
     POST_tenants_upgrade env req w = (insufficient_role, w) /\
     POST_tenants_invite env req w = (insufficient_role, w)) /\
  (role (payload d) = admin ->
   forall w1,
   initializeDatabase env w = (inr tt, w1) ->
     POST_tenants_upgrade env req w = (cross_tenant_upgrade, w1) /\
     POST_tenants_invite env req w = (cross_tenant_invite, w1)).
Proof.
  intros Hv Hs. split.
  - intros Hr. unfold POST_tenants_upgrade, POST_tenants_invite.
    rewrite !(respond_requireAuth_member _ _ d) by done. done.
  - intros Hr w1 Hi. unfold POST_tenants_upgrade, POST_tenants_invite.
    rewrite !(respond_requireAuth_admin _ _ d) by done.
    rewrite upgrade_run, invite_run, Hi.
    apply String.eqb_neq in Hs. rewrite Hs. done.
Qed.

End TenantRoutes.

Lemma role_gating_witness :
  let denied := Sample.request Sample.acme_member "acme" Sample.no_fields in
  let allowed := Sample.request Sample.acme_admin "acme" Sample.no_fields in
  (@POST_tenants_upgrade Sample.externals Sample.env denied Sample.world =
     (insufficient_role, Sample.world) /\
   @POST_tenants_invite Sample.externals Sample.env denied Sample.world =
     (insufficient_role, Sample.world)) /\
  (@POST_tenants_upgrade Sample.externals Sample.env allowed Sample.world =
     (c_json_ok JUpgraded, upgraded 1 Sample.world) /\
   forall t, tenants (db Sample.world) !! 1%Z = Some t ->
     tenants (db (@POST_tenants_upgrade Sample.externals Sample.env allowed Sample.world).2)
       !! 1%Z = Some {| t_slug := t_slug t; t_name := t_name t; t_plan := pro |}).
Proof.
  split.
  - apply (@role_gating Sample.externals Sample.env
             (Sample.request Sample.acme_member "acme" Sample.no_fields)
             (Sample.decoded Sample.acme_member) Sample.world).
    + apply sample_verified. vm_compute. reflexivity.
    + vm_compute. discriminate.
  - apply (@role_gating Sample.externals Sample.env
             (Sample.request Sample.acme_admin "acme" Sample.no_fields)
             (Sample.decoded Sample.acme_admin) Sample.world).
    + apply sample_verified. vm_compute. reflexivity.
    + reflexivity.
    + reflexivity.
    + reflexivity.
    + reflexivity.
Defined.

(** C6, as the specification states it, fails: a member of Acme who
    names Globex in the path is answered with the denial of the role
    gate, not with the cross-tenant denial of the route. *)
Lemma rule_order_counterexample :
  let req := Sample.request Sample.acme_member "globex" Sample.no_fields in
  @verified Sample.externals Sample.env req (Sample.decoded Sample.acme_member) /\
  param req <> tenantSlug (payload (Sample.decoded Sample.acme_member)) /\
  (@POST_tenants_upgrade Sample.externals Sample.env req Sample.world).1 = insufficient_role /\
  (@POST_tenants_upgrade Sample.externals Sample.env req Sample.world).1 <> cross_tenant_upgrade /\
  (@POST_tenants_invite Sample.externals Sample.env req Sample.world).1 = insufficient_role /\
  (@POST_tenants_invite Sample.externals Sample.env req Sample.world).1 <> cross_tenant_invite.
Proof.
  split_and!.
  - apply sample_verified. vm_compute. reflexivity.
  - vm_compute. discriminate.
  - vm_compute. reflexivity.
  - vm_compute. discriminate.
  - vm_compute. reflexivity.
  - vm_compute. discriminate.
Qed.

Lemma rule_order_witness :
  let req := Sample.request Sample.acme_admin "globex" Sample.no_fields in
  (admin <> admin ->
     @POST_tenants_upgrade Sample.externals Sample.env req Sample.world =
       (insufficient_role, Sample.world) /\
     @POST_tenants_invite Sample.externals Sample.env req Sample.world =
       (insufficient_role, Sample.world)) /\
  (admin = admin ->
   forall w1,
   @initializeDatabase Sample.externals Sample.env Sample.world = (inr tt, w1) ->
     @POST_tenants_upgrade Sample.externals Sample.env req Sample.world =
       (cross_tenant_upgrade, w1) /\
     @POST_tenants_invite Sample.externals Sample.env req Sample.world =
       (cross_tenant_invite, w1)).
Proof.
  apply (@rule_order Sample.externals Sample.env
           (Sample.request Sample.acme_admin "globex" Sample.no_fields)
           (Sample.decoded Sample.acme_admin) Sample.world).
  - apply sample_verified. vm_compute. reflexivity.
  - vm_compute. discriminate.
Defined.

(** *** C7: issuing and verifying tokens *)

Lemma substring_all (s : string) : substring 0 (String.length s) s = s.
Proof. induction s as [|a s IH]; simpl; [reflexivity|]. rewrite IH. reflexivity. Qed.

Lemma slice_bearer (token : string) : slice 7 ("Bearer " +:+ token) = token.
Proof.
  unfold slice. simpl. rewrite Nat.sub_0_r. apply substring_all.
Qed.

Lemma prefix_bearer (token : string) : String.prefix "Bearer " ("Bearer " +:+ token) = true.
Proof. simpl. destruct token; reflexivity. Qed.

Section Tokens.
Context `{Externals}.
Implicit Types (env : Env) (req : Request) (w : World) (d : JwtClaims).

(** A token that parses, is signed under the secret with an allowed
    algorithm and has reached its expiry is rejected as expired. *)
Lemma jwt_verify_expired (token secret : string) (now_ms : Z) (t : Jws) (e : Z) :
  jws_decode token = Some t ->
  hs_algorithm (alg t) = true ->
  signature t = hmac (alg t) secret (claims t) ->
  exp (claims t) = Some e ->
  (e <= now_ms / 1000)%Z ->
  jwt_verify token secret now_ms = inl TokenExpiredError.
Proof.
  intros Hd Ha Hs He Hle. unfold jwt_verify.
  rewrite Hd, Ha, Hs, String.eqb_refl, He. simpl.
  apply Z.leb_le in Hle. rewrite Hle. reflexivity.
Qed.

(** Every failure of [jwt.verify] is answered 401 by the middleware,
    which does not run the handler. *)
Lemma requireAuth_rejected rr env req next w (token : string) (e : JwtError) :
  authorization req = Some ("Bearer " +:+ token) ->
  jwt_verify token JWT_SECRET (date_now env) = inl e ->
  requireAuth rr env req next w = (inr (c_json (JError "Invalid token") 401), w).
Proof.
  intros Ha Hv. unfold requireAuth. rewrite Ha.
  change (String.prefix "Bearer " ("Bearer " +:+ token)) with (String.prefix EmptyString token).
  rewrite slice_bearer, Hv.
  destruct token; reflexivity.
Qed.

(** C7, as the code has it.  Let a token be issued for claim [p] at one
    time and verified at another, over a wire format that parses what
    it printed for this token.  The token's clock runs in whole
    seconds: while fewer than seven days separate the second of
    issuance and the second of verification, and so whenever at most
    seven days less one second have elapsed, verification returns a
    payload whose claim is [p], and the middleware hands that claim to
    the handler of a request that carries the token.  Once the embedded
    expiry is reached, verification fails with the expired error, and
    the middleware answers such a request with 401 without running the
    handler. *)
Theorem token_round_trip (issued now : Env) (p : JWTPayload) :
  let c := {| payload := p; iat := date_now issued / 1000;
              exp := Some (date_now issued / 1000 + seven_days) |} in
  let t := {| alg := HS256; claims := c; signature := hmac HS256 JWT_SECRET c |} in
  jws_decode (jws_encode t) = Some t ->
  ((date_now now / 1000 - date_now issued / 1000 < seven_days)%Z ->
     jwt_verify (signToken issued p) JWT_SECRET (date_now now) = inr c /\
     payload c = p /\
     forall req,
       authorization req = Some ("Bearer " +:+ signToken issued p) ->
       verified now req c) /\
  ((date_now now - date_now issued <= (seven_days - 1) * 1000)%Z ->
     jwt_verify (signToken issued p) JWT_SECRET (date_now now) = inr c) /\
  ((seven_days <= date_now now / 1000 - date_now issued / 1000)%Z ->
     jwt_verify (signToken issued p) JWT_SECRET (date_now now) = inl TokenExpiredError /\
     forall rr req next w,
       authorization req = Some ("Bearer " +:+ signToken issued p) ->
       requireAuth rr now req next w = (inr (c_json (JError "Invalid token") 401), w)).
Proof.
  intros c t Hcodec.
  assert (Hvalid : (date_now now / 1000 - date_now issued / 1000 < seven_days)%Z ->
            jwt_verify (signToken issued p) JWT_SECRET (date_now now) = inr c).
  { intros Hlt. unfold signToken, jwt_sign, jwt_verify. fold c. fold t. rewrite Hcodec.
    simpl. rewrite String.eqb_refl. simpl.
    destruct (Z.leb_spec (date_now issued / 1000 + seven_days) (date_now now / 1000));
      [lia|reflexivity]. }
  split_and!.
  - intros Hlt. pose proof (Hvalid Hlt) as Hv.
    split; [exact Hv|]. split; [reflexivity|].
    intros req Ha. exists ("Bearer " +:+ signToken issued p).
    split; [exact Ha|]. split; [apply prefix_bearer|].
    rewrite slice_bearer. exact Hv.
  - intros Hms. apply Hvalid. unfold seven_days in *.
    pose proof (Z.div_le_mono (date_now now) (date_now issued + 604799 * 1000) 1000) as Hd.
    rewrite Z.div_add in Hd by lia. lia.
  - intros Hge.
    assert (Hv : jwt_verify (signToken issued p) JWT_SECRET (date_now now)
                 = inl TokenExpiredError).
    { apply (jwt_verify_expired _ _ _ t (date_now issued / 1000 + seven_days));
        [exact Hcodec|reflexivity|reflexivity|reflexivity|lia]. }
    split; [exact Hv|].
    intros rr req next w Ha. eapply requireAuth_rejected; eauto.
Qed.

End Tokens.

(** C7, as the specification states it, fails: a token verified
    604799001 milliseconds after it was issued, one millisecond inside
    its seven days, is refused as expired, because both clock readings
    are cut to whole seconds. *)
Lemma token_round_trip_counterexample :
  let issued := {| date_now := 1999; pg_now := 0; init_salt := "a"; salt := "b" |} in
  let now := {| date_now := 604801000; pg_now := 0; init_salt := "a"; salt := "b" |} in
  (0 <= date_now now - date_now issued < 7 * 24 * 60 * 60 * 1000)%Z /\
  @jwt_verify Sample.externals (@signToken Sample.externals issued Sample.acme_member)
     (@JWT_SECRET Sample.externals) (date_now now) = inl TokenExpiredError /\
  (@GET_notes_id Sample.externals now
     {| authorization :=
          Some ("Bearer " +:+ @signToken Sample.externals issued Sample.acme_member);
        param := "1"; json := None |} Sample.world).1 =
    c_json (JError "Invalid token") 401.
Proof.
  intros issued now. split; [simpl; lia|].
  split; vm_compute; reflexivity.
Qed.

Lemma token_round_trip_witness :
  let issued := Sample.env in
  let last := {| date_now := 1700604799999; pg_now := 0; init_salt := "a"; salt := "b" |} in
  let late := {| date_now := 1700604800000; pg_now := 0; init_salt := "a"; salt := "b" |} in
  let p := Sample.acme_member in
  let c := Sample.decoded p in
  (@jwt_verify Sample.externals (@signToken Sample.externals issued p)
      (@JWT_SECRET Sample.externals) (date_now last) = inr c /\
   payload c = p /\
   forall req,
     authorization req = Some ("Bearer " +:+ @signToken Sample.externals issued p) ->
     @verified Sample.externals last req c) /\
  (@jwt_verify Sample.externals (@signToken Sample.externals issued p)
      (@JWT_SECRET Sample.externals) (date_now late) = inl TokenExpiredError /\
   forall rr req next w,
     authorization req = Some ("Bearer " +:+ @signToken Sample.externals issued p) ->
     @requireAuth Sample.externals rr late req next w =
       (inr (c_json (JError "Invalid token") 401), w)).
Proof.
  split.
  - apply (@token_round_trip Sample.externals Sample.env
             {| date_now := 1700604799999; pg_now := 0; init_salt := "a"; salt := "b" |}
             Sample.acme_member).
    + vm_compute. reflexivity.
    + vm_compute. reflexivity.
  - apply (@token_round_trip Sample.externals Sample.env
             {| date_now := 1700604800000; pg_now := 0; init_salt := "a"; salt := "b" |}
             Sample.acme_member).
    + vm_compute. reflexivity.
    + vm_compute. discriminate.
Defined.

(** *** C8 and C9: logging in *)

Section Login.
Context `{Externals}.
Implicit Types (env : Env) (req : Request) (w : World) (d : JwtClaims).

Lemma login_run env req w :
  POST_auth_login env req w =
    match initializeDatabase env w with
    | (inl _, w1) => (onError, w1)
    | (inr _, w1) =>
        match json req with
        | None => (onError, w1)
        | Some b =>
            if negb (truthy (b "email")) || negb (truthy (b "password"))
            then (c_json (JError "Email and password are required") 400, w1)
            else
              if negb (no_nul (prepareValue (b "email")))
              then (c_json (JError "Internal server error") 500, w1)
              else
                match user_by_email (prepareValue (b "email")) (db w1) with
                | None => (invalid_credentials, w1)
                | Some (e, u) =>
                    match b "password" with
                    | VString pw =>
                        if bcrypt_compare pw (u_password_hash u)
                        then
                          if negb (int4 (u_tenant_id u))
                          then (c_json (JError "Internal server error") 500, w1)
                          else
                            match tenants (db w1) !! u_tenant_id u with
                            | Some t =>
                                (c_json_ok
                                   (JLogin (signToken env
                                              {| sub := u_id u; email := e; role := u_role u;
                                                 tenantId := u_tenant_id u;
                                                 tenantSlug := t_slug t;
                                                 plan := t_plan t |})
                                      e (u_role u) (t_slug t) (t_name t) (t_plan t)), w1)
                            | None => (c_json (JError "Internal server error") 500, w1)
                            end
                        else (invalid_credentials, w1)
                    | _ => (c_json (JError "Internal server error") 500, w1)
                    end
                end
        end
    end.
Proof.
  unfold POST_auth_login, login_handler, select_user_by_email, select_tenant_by_id,
    compare_password, user_by_email, invalid_credentials, with_params, bind_params,
    bind_param, no_nul.
  cbv beta delta [respond bind try_catch query ret throw prop row0 read_json
                    c_json_ok c_json].
  destruct (initializeDatabase env w) as [[e|u] w1]; [reflexivity|].
  destruct (json req) as [b|]; [|reflexivity]. simpl.
  destruct (negb (truthy (b "email")) || negb (truthy (b "password"))); [reflexivity|].
  destruct (prepareValue (b "email")) as [e|]; simpl; rewrite ?set_db_id; [|reflexivity].
  destruct (has_nul e); simpl; rewrite ?set_db_id; [reflexivity|].
  destruct (users (db w1) !! e) as [u'|]; simpl; [|reflexivity].
  destruct (b "password") as [| |pw|]; simpl; try reflexivity.
  destruct (bcrypt_compare pw (u_password_hash u')); simpl; [|reflexivity].
  destruct (int4 (u_tenant_id u')); simpl; rewrite set_db_id; [|reflexivity].
  destruct (tenants (db w1) !! u_tenant_id u') as [t|]; reflexivity.
Qed.

(** X21.  Where the password is a string and the e-mails are text the
    database accepts, a login whose e-mail no user has and a login
    whose e-mail a user has but whose password bcrypt rejects are
    answered alike: 401 "Invalid credentials", nothing stored. *)
Theorem credential_failures_on_strings
    env1 req1 w1 w1' (b1 : string -> JsValue)
    env2 req2 w2 w2' (b2 : string -> JsValue) (e2 : string) (u : User) (pw : string) :
  initializeDatabase env1 w1 = (inr tt, w1') ->
  json req1 = Some b1 ->
  truthy (b1 "email") = true -> truthy (b1 "password") = true ->
  no_nul (prepareValue (b1 "email")) = true ->
  user_by_email (prepareValue (b1 "email")) (db w1') = None ->
  initializeDatabase env2 w2 = (inr tt, w2') ->
  json req2 = Some b2 ->
  truthy (b2 "email") = true ->
  no_nul (prepareValue (b2 "email")) = true ->
  user_by_email (prepareValue (b2 "email")) (db w2') = Some (e2, u) ->
  b2 "password" = VString pw -> pw <> EmptyString ->
  bcrypt_compare pw (u_password_hash u) = false ->
  POST_auth_login env1 req1 w1 = (invalid_credentials, w1') /\
  POST_auth_login env2 req2 w2 = (invalid_credentials, w2').
Proof.
  intros Hi1 Hb1 He1 Hp1 Hn1 Hu1 Hi2 Hb2 He2 Hn2 Hu2 Hp2 Hne Hcmp. split.
  - rewrite login_run, Hi1, Hb1, He1, Hp1, Hn1, Hu1. reflexivity.
  - rewrite login_run, Hi2, Hb2, He2, Hn2, Hu2, Hp2, Hcmp.
    destruct pw; [done|reflexivity].
Qed.

(** A password that is not a string makes [bcrypt.compare] throw once a
    user is found: the answer is then 500, where an unknown e-mail with
    the same password is answered 401. *)
Lemma login_password_not_a_string env req w w1 (b : string -> JsValue) (text : string) :
  initializeDatabase env w = (inr tt, w1) ->
  json req = Some b ->
  truthy (b "email") = true ->
  no_nul (prepareValue (b "email")) = true ->
  b "password" = VOther true text ->
  POST_auth_login env req w =
    match user_by_email (prepareValue (b "email")) (db w1) with
    | Some _ => (c_json (JError "Internal server error") 500, w1)
    | None => (invalid_credentials, w1)
    end.
Proof.
  intros Hi Hb He Hn Hp.
  rewrite login_run, Hi, Hb, He, Hn, Hp. simpl.
  destruct (user_by_email _ _) as [[e u]|]; reflexivity.
Qed.

End Login.

(** C8 fails on the code.  Two login requests with the same password, a
    JSON number: the one whose e-mail no user has is answered 401
    "Invalid credentials", the one whose e-mail a user has is answered
    500 "Internal server error", so the answer tells whether the e-mail
    is registered. *)
Lemma credential_failures_distinguishable :
  let login (e : string) : Request :=
    {| authorization := None; param := EmptyString;
       json := Some (Sample.fields2 "email" (VString e) "password" (VOther true "12345")) |} in
  @POST_auth_login Sample.externals Sample.env (login "nobody@acme.test") Sample.world =
    (c_json (JError "Invalid credentials") 401, Sample.world) /\
  @POST_auth_login Sample.externals Sample.env (login "user@acme.test") Sample.world =
    (c_json (JError "Internal server error") 500, Sample.world).
Proof. intros login. split; vm_compute; reflexivity. Qed.

Lemma credential_failures_on_strings_witness :
  let req1 := Sample.request Sample.acme_admin EmptyString
                (Sample.fields2 "email" (VString "nobody@acme.test") "password" (VString "x")) in
  let req2 := Sample.request Sample.acme_admin EmptyString
                (Sample.fields2 "email" (VString "user@acme.test") "password" (VString "x")) in
  @POST_auth_login Sample.externals Sample.env req1 Sample.world =
    (invalid_credentials, Sample.world) /\
  @POST_auth_login Sample.externals Sample.env req2 Sample.world =
    (invalid_credentials, Sample.world).
Proof.
  apply (@credential_failures_on_strings Sample.externals
           Sample.env _ Sample.world Sample.world
           (Sample.fields2 "email" (VString "nobody@acme.test") "password" (VString "x"))
           Sample.env _ Sample.world Sample.world
           (Sample.fields2 "email" (VString "user@acme.test") "password" (VString "x"))
           "user@acme.test"
           {| u_id := 2; u_password_hash := Sample.hash0; u_role := member; u_tenant_id := 1 |}
           "x").
  - reflexivity.
  - reflexivity.
  - reflexivity.
  - reflexivity.
  - reflexivity.
  - vm_compute. reflexivity.
  - reflexivity.
  - reflexivity.
  - reflexivity.
  - reflexivity.
  - vm_compute. reflexivity.
  - reflexivity.
  - discriminate.
  - vm_compute. reflexivity.
Defined.

Section Invite.
Context `{Externals}.
Implicit Types (env : Env) (req : Request) (w : World) (d : JwtClaims).

(** C9.  Whenever the invite route answers a request with success, its
    body named an e-mail no user had, and the route stored one new user
    under it whose password hash is bcrypt's hash, at cost 10, of the
    fixed string "password"; no field of the body enters the hash.
    Provided bcrypt accepts "password" against that hash, a login with
    the same e-mail and the password "password" then succeeds with a
    token. *)
Theorem invited_user_password env req d w w1 :
  initializeDatabase env w = (inr tt, w1) ->
  verified env req d ->
  (POST_tenants_invite env req w).1 = c_json_ok JSuccess ->
  let w' := (POST_tenants_invite env req w).2 in
  exists (b : string -> JsValue) (e : string) (u : User),
    json req = Some b /\
    prepareValue (b "email") = Some e /\
    users (db w1) !! e = None /\
    users (db w') = <[e := u]> (users (db w1)) /\
    u_password_hash u = bcrypt_hash "password" 10 (salt env) /\
    u_tenant_id u = tenantId (payload d) /\
    role_of_js (b "role") = Some (u_role u) /\
    (bcrypt_compare "password" (bcrypt_hash "password" 10 (salt env)) = true ->
     forall env' req' (b' : string -> JsValue),
       json req' = Some b' ->
       b' "email" = b "email" ->
       b' "password" = VString "password" ->
       exists token t,
         POST_auth_login env' req' w' =
           (c_json_ok (JLogin token e (u_role u) (t_slug t) (t_name t) (t_plan t)), w')).
Proof.
  intros Hi Hv. unfold POST_tenants_invite.
  pose proof (initializeDatabase_ok _ _ _ Hi) as Hflag.
  destruct (decide (role (payload d) = admin)) as [Hr|Hr];
    [|rewrite (respond_requireAuth_member _ _ d) by done; discriminate].
  rewrite (respond_requireAuth_admin _ _ d) by done.
  rewrite invite_run, Hi.
  destruct (negb (String.eqb (param req) (tenantSlug (payload d)))); [discriminate|].
  destruct (json req) as [b|]; [|discriminate].
  destruct (truthy (b "email")) eqn:Hem; [|discriminate].
  destruct (role_of_js (b "role")) as [r|] eqn:Hrole; [|discriminate].
  destruct (truthy_prepareValue _ Hem) as [e He]. rewrite He.
  unfold insert_user, with_params, bind_params, bind_param, nextval.
  destruct (has_nul e) eqn:Hnul;
    [simpl; intros Hx; discriminate Hx|].
  destruct (has_nul (bcrypt_hash "password" 10 (salt env)));
    [simpl; intros Hx; discriminate Hx|].
  destruct (int4 (tenantId (payload d))) eqn:Hrange;
    [|simpl; destruct (includes _ _); intros Hx; discriminate Hx].
  destruct (Z.ltb (users_id_seq (db w1)) int4_max);
    [|simpl; intros Hx; discriminate Hx].
  destruct (user_id_taken _ _); [simpl; intros Hx; discriminate Hx|].
  destruct (users (db w1) !! e) eqn:Hnew; [simpl; intros Hx; discriminate Hx|].
  unfold tenant_exists.
  destruct (tenants (db w1) !! tenantId (payload d)) as [t|] eqn:Ht;
    [|simpl; intros Hx; discriminate Hx].
  simpl. intros _.
  eexists b, e, _. split_and!; try reflexivity; try done.
  intros Hcmp env' req' b' Hb' Hemail Hpw.
  rewrite login_run, initializeDatabase_done, Hb', Hemail, Hem, Hpw by done.
  simpl. rewrite He. unfold user_by_email, no_nul. simpl.
  rewrite Hnul. simpl.
  rewrite lookup_insert_eq. simpl. rewrite Hcmp, Hrange, Ht. simpl. eauto.
Qed.

End Invite.

Lemma invited_user_password_witness :
  let req := Sample.request Sample.acme_admin "acme"
               (Sample.fields2 "email" (VString "new@acme.test") "role" (VString "member")) in
  let w1 := (@initializeDatabase Sample.externals Sample.env Sample.cold_world).2 in
  let w' := (@POST_tenants_invite Sample.externals Sample.env req Sample.cold_world).2 in
  exists (b : string -> JsValue) (e : string) (u : User),
    json req = Some b /\
    prepareValue (b "email") = Some e /\
    users (db w1) !! e = None /\
    users (db w') = <[e := u]> (users (db w1)) /\
    u_password_hash u = Sample.bcrypt_hash "password" 10 "s1" /\
    u_tenant_id u = 1%Z /\
    role_of_js (b "role") = Some (u_role u) /\
    (Sample.bcrypt_compare "password" (Sample.bcrypt_hash "password" 10 "s1") = true ->
     forall env' req' (b' : string -> JsValue),
       json req' = Some b' ->
       b' "email" = b "email" ->
       b' "password" = VString "password" ->
       exists token t,
         @POST_auth_login Sample.externals env' req' w' =
           (c_json_ok (JLogin token e (u_role u) (t_slug t) (t_name t) (t_plan t)), w')).
Proof.
  apply (@invited_user_password Sample.externals Sample.env
           (Sample.request Sample.acme_admin "acme"
              (Sample.fields2 "email" (VString "new@acme.test") "role" (VString "member")))
           (Sample.decoded Sample.acme_admin) Sample.cold_world
           (@initializeDatabase Sample.externals Sample.env Sample.cold_world).2).
  - vm_compute. reflexivity.
  - apply sample_verified. vm_compute. reflexivity.
  - vm_compute. reflexivity.
Defined.

(** *** C10: what an update writes *)

Section Update.
Context `{Externals}.
Implicit Types (env : Env) (req : Request) (w : World) (d : JwtClaims).

(** C10.  An update of a stored note of the claim's tenant by an admin
    or by the note's creator is answered 200 for every body that
    parses and whose title and content, where it has them, the database
    accepts as text; the route checks nothing else about the body.  The
    stored note takes the title and the content from the body where the
    field is neither absent nor null and keeps its own otherwise, takes
    the statement's time as its update time, and keeps its id, tenant,
    creator and creation time.  Every other note and both other tables
    are as initialization left them. *)
Theorem update_frame env req d w w1 (b : string -> JsValue) (k : Z) (n : Note) :
  initializeDatabase env w = (inr tt, w1) ->
  verified env req d ->
  json req = Some b ->
  int4in (param req) = Some k ->
  int4 (tenantId (payload d)) = true ->
  no_nul (prepareValue (b "title")) = true ->
  no_nul (prepareValue (b "content")) = true ->
  notes (db w1) !! k = Some n ->
  n_tenant_id n = tenantId (payload d) ->
  role (payload d) = admin \/ n_user_id n = sub (payload d) ->
  let r := (PUT_notes_id env req w).1 in
  let w' := (PUT_notes_id env req w).2 in
  exists n' : Note,
    r = c_json_ok (JNote (Some (note_row k n'))) /\
    notes (db w') !! k = Some n' /\
    n_title n' = COALESCE (prepareValue (b "title")) (n_title n) /\
    n_content n' = COALESCE (prepareValue (b "content")) (n_content n) /\
    (b "title" = VUndefined \/ b "title" = VNull -> n_title n' = n_title n) /\
    (b "content" = VUndefined \/ b "content" = VNull -> n_content n' = n_content n) /\
    (forall s, prepareValue (b "title") = Some s -> n_title n' = s) /\
    (forall s, prepareValue (b "content") = Some s -> n_content n' = s) /\
    n_updated_at n' = pg_now env /\
    n_tenant_id n' = n_tenant_id n /\
    n_user_id n' = n_user_id n /\
    n_created_at n' = n_created_at n /\
    (forall j : Z, j <> k -> notes (db w') !! j = notes (db w) !! j) /\
    notes_id_seq (db w') = notes_id_seq (db w1) /\
    tenants (db w') = tenants (db w1) /\
    users (db w') = users (db w1).
Proof.
  intros Hi Hv Hb Hid Hrange Htitle Hcontent Hk Hten Hauth r w'. subst r w'.
  assert (Heq : Z.eqb (n_tenant_id n) (tenantId (payload d)) = true) by (apply Z.eqb_eq; done).
  assert (Hgate : bool_decide (role (payload d) = member)
                  && negb (Z.eqb (n_user_id n) (sub (payload d))) = false).
  { destruct Hauth as [Hr|Ho].
    - rewrite Hr. reflexivity.
    - rewrite Ho, Z.eqb_refl. apply andb_false_r. }
  pose proof (initializeDatabase_notes env w) as Hnotes. rewrite Hi in Hnotes.
  unfold PUT_notes_id. rewrite (respond_requireAuth _ _ d) by done.
  rewrite updateNote_run, Hi, Hb, Hid, Hrange, Hk, Heq, Hgate, Htitle, Hcontent.
  eexists. simpl. split_and!; try reflexivity.
  - apply lookup_insert_eq.
  - intros [-> | ->]; reflexivity.
  - intros [-> | ->]; reflexivity.
  - intros s ->. reflexivity.
  - intros s ->. reflexivity.
  - intros j Hj. rewrite lookup_insert_ne by done. simpl in Hnotes. rewrite Hnotes. done.
Qed.

End Update.

Lemma update_frame_witness :
  let b := Sample.fields2 "title" VNull "content" (VString "new text") in
  let req := Sample.request Sample.acme_member "2" b in
  let n := Sample.note 1 2 "b" in
  let w1 := (@initializeDatabase Sample.externals Sample.env Sample.cold_world).2 in
  let r := (@PUT_notes_id Sample.externals Sample.env req Sample.cold_world).1 in
  let w' := (@PUT_notes_id Sample.externals Sample.env req Sample.cold_world).2 in
  exists n' : Note,
    r = c_json_ok (JNote (Some (note_row 2 n'))) /\
    notes (db w') !! 2%Z = Some n' /\
    n_title n' = COALESCE (prepareValue (b "title")) (n_title n) /\
    n_content n' = COALESCE (prepareValue (b "content")) (n_content n) /\
    (b "title" = VUndefined \/ b "title" = VNull -> n_title n' = n_title n) /\
    (b "content" = VUndefined \/ b "content" = VNull -> n_content n' = n_content n) /\
    (forall s, prepareValue (b "title") = Some s -> n_title n' = s) /\
    (forall s, prepareValue (b "content") = Some s -> n_content n' = s) /\
    n_updated_at n' = 200%Z /\
    n_tenant_id n' = n_tenant_id n /\
    n_user_id n' = n_user_id n /\
    n_created_at n' = n_created_at n /\
    (forall j : Z, j <> 2%Z -> notes (db w') !! j = notes Sample.store !! j) /\
    notes_id_seq (db w') = notes_id_seq (db w1) /\
    tenants (db w') = tenants (db w1) /\
    users (db w') = users (db w1).
Proof.
  apply (@update_frame Sample.externals Sample.env
           (Sample.request Sample.acme_member "2"
              (Sample.fields2 "title" VNull "content" (VString "new text")))
           (Sample.decoded Sample.acme_member) Sample.cold_world
           (@initializeDatabase Sample.externals Sample.env Sample.cold_world).2
           (Sample.fields2 "title" VNull "content" (VString "new text"))
           2 (Sample.note 1 2 "b")).
  - vm_compute. reflexivity.
  - apply sample_verified. vm_compute. reflexivity.
  - reflexivity.
  - vm_compute. reflexivity.
  - reflexivity.
  - reflexivity.
  - reflexivity.
  - vm_compute. reflexivity.
  - reflexivity.
  - right. reflexivity.
Defined.

(** *** Scenarios run on the reference instance *)

(** A fourth note under the free plan is refused; after the upgrade the
    same request is accepted. *)
Example scenario_quota_then_upgrade :
  let create := Sample.request Sample.acme_admin EmptyString
                  (Sample.fields2 "title" (VString "t") "content" (VString "c")) in
  let upgrade := Sample.request Sample.acme_admin "acme" Sample.no_fields in
  let w1 := (@POST_tenants_upgrade Sample.externals Sample.env upgrade Sample.world).2 in
  status (@POST_notes Sample.externals Sample.env create Sample.world).1 = 402 /\
  status (@POST_notes Sample.externals Sample.env create w1).1 = 201.
Proof. vm_compute. split; reflexivity. Qed.

(** The first request to a process over an empty store seeds the
    tenants and users, after which the seeded admin can log in. *)
Example scenario_first_login :
  let login := {| authorization := None; param := EmptyString;
                  json := Some (Sample.fields2 "email" (VString "admin@globex.test")
                                  "password" (VString "password")) |} in
  status (@POST_auth_login Sample.externals Sample.env login Sample.empty_world).1 = 200 /\
  initialized (@POST_auth_login Sample.externals Sample.env login Sample.empty_world).2 = true.
Proof. vm_compute. split; reflexivity. Qed.

(** A process that starts over a seeded store inserts nothing, but its
    seed statements still draw from the sequences. *)
Example scenario_cold_start :
  let w1 := (@initializeDatabase Sample.externals Sample.env Sample.cold_world).2 in
  tenants (db w1) = tenants Sample.store /\
  users (db w1) = users Sample.store /\
  tenants_id_seq (db w1) = 4%Z /\ users_id_seq (db w1) = 8%Z.
Proof. vm_compute. repeat split; reflexivity. Qed.

(** A token is refused once its seven days are over. *)
Example scenario_expired_token :
  let late := {| date_now := 1700604800000; pg_now := 0; init_salt := "a"; salt := "b" |} in
  (@GET_notes_id Sample.externals late
     (Sample.request Sample.acme_admin "1" Sample.no_fields) Sample.world).1 =
  c_json (JError "Invalid token") 401.
Proof. vm_compute. reflexivity. Qed.

(** ** Further properties of the server *)

(** *** The middleware on requests without a valid token *)

Section Gate.
Context `{Externals}.
Implicit Types (env : Env) (req : Request) (w : World) (d : JwtClaims).

(** The header is absent or does not start with the bearer prefix. *)
Lemma requireAuth_no_bearer rr env req next w :
  authorization req = None \/
  (exists h, authorization req = Some h /\ String.prefix "Bearer " h = false) ->
  requireAuth rr env req next w = (inr (c_json (JError "Unauthorized") 401), w).
Proof.
  unfold requireAuth. intros [-> | (h & -> & ->)]; reflexivity.
Qed.

Lemma requireAuthX_no_bearer rr env req next w :
  authorization req = None \/
  (exists h, authorization req = Some h /\ String.prefix "Bearer " h = false) ->
  requireAuthX rr env req next w = (inr (liftX (c_json (JError "Unauthorized") 401)), w).
Proof.
  unfold requireAuthX. intros [-> | (h & -> & ->)]; reflexivity.
Qed.

Lemma requireAuthX_rejected rr env req next w (token : string) (e : JwtError) :
  authorization req = Some ("Bearer " +:+ token) ->
  jwt_verify token JWT_SECRET (date_now env) = inl e ->
  requireAuthX rr env req next w = (inr (liftX (c_json (JError "Invalid token") 401)), w).
Proof.
  intros Ha Hv. unfold requireAuthX. rewrite Ha, prefix_bearer, slice_bearer. simpl.
  unfold try_catch. rewrite Hv. reflexivity.
Qed.

Lemma requireAuthX_verified rr env req d next w :
  verified env req d ->
  requireAuthX rr env req next w =
    match rr with
    | Some r =>
        if bool_decide (role (payload d) = r)
        then try_catch (next (payload d)) (fun _ => ret (liftX onError)) w
        else (inr (liftX (c_json (JError "Forbidden") 403)), w)
    | None => try_catch (next (payload d)) (fun _ => ret (liftX onError)) w
    end.
Proof.
  intros (h & Hh & Hp & Hv). unfold requireAuthX.
  rewrite Hh, Hp. simpl. unfold try_catch at 1. rewrite Hv.
  destruct rr as [r|].
  - destruct (bool_decide (role (payload d) = r)); simpl.
    + unfold try_catch, ret.
      destruct (next (payload d) w) as [[e|x] w']; reflexivity.
    + reflexivity.
  - unfold try_catch, ret.
    destruct (next (payload d) w) as [[e|x] w']; reflexivity.
Qed.

Lemma respondX_requireAuthX env req d next w :
  verified env req d ->
  respondX (requireAuthX None env req next) w = respondX (next (payload d)) w.
Proof.
  intros Hv. unfold respondX at 1.
  rewrite (requireAuthX_verified None env req d next w Hv).
  unfold respondX, try_catch, ret.
  destruct (next (payload d) w) as [[e|r] w']; reflexivity.
Qed.

(** X1.  A request without an [Authorization] header, or with one that
    does not start with "Bearer ", is answered 401 "Unauthorized" by
    every route behind the middleware; neither initialization nor any
    handler runs, so the process state is what it was. *)
Theorem unauthenticated_requests env req w :
  authorization req = None \/
  (exists h, authorization req = Some h /\ String.prefix "Bearer " h = false) ->
  Forall (fun route : Env -> Request -> World -> Response * World =>
            route env req w = (c_json (JError "Unauthorized") 401, w))
    [POST_tenants_upgrade; POST_tenants_invite; GET_notes_id; POST_notes;
     PUT_notes_id; DELETE_notes_id] /\
  GET_notes env req w = (liftX (c_json (JError "Unauthorized") 401), w).
Proof.
  intros Hh. split.
  - repeat constructor.
    all: unfold POST_tenants_upgrade, POST_tenants_invite, GET_notes_id, POST_notes,
           PUT_notes_id, DELETE_notes_id, respond.
    all: rewrite requireAuth_no_bearer by exact Hh; reflexivity.
  - unfold GET_notes, respondX. rewrite requireAuthX_no_bearer by exact Hh. reflexivity.
Qed.

(** X2.  A bearer token that [jwt.verify] refuses, for whichever of its
    reasons, is answered with one and the same 401 "Invalid token" by
    every route behind the middleware, and the process state is what it
    was. *)
Theorem rejected_tokens env req w (token : string) (e : JwtError) :
  authorization req = Some ("Bearer " +:+ token) ->
  jwt_verify token JWT_SECRET (date_now env) = inl e ->
  Forall (fun route : Env -> Request -> World -> Response * World =>
            route env req w = (c_json (JError "Invalid token") 401, w))
    [POST_tenants_upgrade; POST_tenants_invite; GET_notes_id; POST_notes;
     PUT_notes_id; DELETE_notes_id] /\
  GET_notes env req w = (liftX (c_json (JError "Invalid token") 401), w).
Proof.
  intros Ha Hv. split.
  - repeat constructor.
    all: unfold POST_tenants_upgrade, POST_tenants_invite, GET_notes_id, POST_notes,
           PUT_notes_id, DELETE_notes_id, respond.
    all: rewrite (requireAuth_rejected _ _ _ _ _ token e) by assumption; reflexivity.
  - unfold GET_notes, respondX.
    rewrite (requireAuthX_rejected _ _ _ _ _ token e) by assumption. reflexivity.
Qed.

(** [requireAuth] without its exception handlers. *)
Lemma requireAuth_unfold rr env req (next : JWTPayload -> M Response) w :
  requireAuth rr env req next w =
    match authorization req with
    | None => (inr (c_json (JError "Unauthorized") 401), w)
    | Some h =>
        if String.prefix "Bearer " h
        then match jwt_verify (slice 7 h) JWT_SECRET (date_now env) with
             | inl _ => (inr (c_json (JError "Invalid token") 401), w)
             | inr d =>
                 match rr with
                 | Some r =>
                     if bool_decide (role (payload d) = r)
                     then hono_next (next (payload d)) w
                     else (inr (c_json (JError "Forbidden") 403), w)
                 | None => hono_next (next (payload d)) w
                 end
             end
        else (inr (c_json (JError "Unauthorized") 401), w)
    end.
Proof.
  unfold requireAuth.
  destruct (authorization req) as [h|]; [|reflexivity].
  destruct (String.prefix "Bearer " h); simpl; [|reflexivity].
  unfold try_catch at 1.
  destruct (jwt_verify _ _ _) as [e|d]; [reflexivity|].
  destruct rr as [r|].
  - destruct (bool_decide (role (payload d) = r)); simpl; [|reflexivity].
    unfold hono_next, try_catch, ret. destruct (next (payload d) w) as [[e|x] w']; reflexivity.
  - unfold hono_next, try_catch, ret. destruct (next (payload d) w) as [[e|x] w']; reflexivity.
Qed.

(** What [jwt.verify] has checked when it returns. *)
Lemma jwt_verify_returns (token secret : string) (now_ms : Z) (d : JwtClaims) :
  jwt_verify token secret now_ms = inr d ->
  exists t : Jws,
    jws_decode token = Some t /\
    hs_algorithm (alg t) = true /\
    signature t = hmac (alg t) secret (claims t) /\
    claims t = d /\
    (forall e, exp d = Some e -> (now_ms / 1000 < e)%Z).
Proof.
  unfold jwt_verify. intros Hv.
  destruct (jws_decode token) as [t|] eqn:Hd; [|discriminate].
  destruct (hs_algorithm (alg t)) eqn:Ha; [|discriminate]. simpl in Hv.
  destruct (String.eqb (signature t) (hmac (alg t) secret (claims t))) eqn:Hs;
    [|discriminate]. simpl in Hv.
  apply String.eqb_eq in Hs.
  exists t. split_and!; try done.
  - destruct (exp (claims t)) as [e|]; [|congruence].
    destruct (Z.leb e (now_ms / 1000)); [discriminate|congruence].
  - intros e He.
    destruct (exp (claims t)) as [e'|] eqn:He'.
    + destruct (Z.leb_spec e' (now_ms / 1000)); [discriminate|].
      injection Hv as <-. rewrite He' in He. injection He as <-. done.
    + injection Hv as <-. congruence.
Qed.

(** X3.  What the middleware accepts.  For every request, either the
    middleware answers by itself, with one of its three refusals, the
    same whatever handler stands behind it and with the state as it
    was; or the header is "Bearer " followed by a token that parses,
    names an HMAC algorithm, carries as signature the MAC of its own
    header and payload under the server's secret, has not reached its
    expiry and has the required role if one is required, and then the
    middleware runs the handler on the payload of that very token. *)
Theorem requireAuth_accepts rr env req w :
  (exists r,
     In r [c_json (JError "Unauthorized") 401; c_json (JError "Invalid token") 401;
           c_json (JError "Forbidden") 403] /\
     forall next, requireAuth rr env req next w = (inr r, w)) \/
  (exists (h : string) (t : Jws),
     authorization req = Some h /\
     String.prefix "Bearer " h = true /\
     jws_decode (slice 7 h) = Some t /\
     hs_algorithm (alg t) = true /\
     signature t = hmac (alg t) JWT_SECRET (claims t) /\
     (forall e, exp (claims t) = Some e -> (date_now env / 1000 < e)%Z) /\
     (forall r, rr = Some r -> role (payload (claims t)) = r) /\
     forall next, requireAuth rr env req next w = hono_next (next (payload (claims t))) w).
Proof.
  destruct (authorization req) as [h|] eqn:Hh.
  2: { left. eexists. split; [left; reflexivity|].
       intros next. rewrite requireAuth_unfold, Hh. reflexivity. }
  destruct (String.prefix "Bearer " h) eqn:Hp.
  2: { left. eexists. split; [left; reflexivity|].
       intros next. rewrite requireAuth_unfold, Hh, Hp. reflexivity. }
  destruct (jwt_verify (slice 7 h) JWT_SECRET (date_now env)) as [e|d] eqn:Hv.
  { left. eexists. split; [right; left; reflexivity|].
    intros next. rewrite requireAuth_unfold, Hh, Hp, Hv. reflexivity. }
  destruct (jwt_verify_returns _ _ _ _ Hv) as (t & Hd & Ha & Hs & <- & Hexp).
  destruct rr as [r|].
  - destruct (bool_decide (role (payload (claims t)) = r)) eqn:Hr.
    + right. exists h, t. split_and!; try done.
      * intros r' [= <-]. apply bool_decide_eq_true_1 in Hr. exact Hr.
      * intros next. rewrite requireAuth_unfold, Hh, Hp, Hv, Hr. reflexivity.
    + left. eexists. split; [right; right; left; reflexivity|].
      intros next. rewrite requireAuth_unfold, Hh, Hp, Hv, Hr. reflexivity.
  - right. exists h, t. split_and!; try done.
    intros next. rewrite requireAuth_unfold, Hh, Hp, Hv. reflexivity.
Qed.

End Gate.

Lemma unauthenticated_requests_witness :
  let req := {| authorization := Some "Basic abc"; param := "1"; json := None |} in
  Forall (fun route : Env -> Request -> World -> Response * World =>
            route Sample.env req Sample.world = (c_json (JError "Unauthorized") 401, Sample.world))
    [@POST_tenants_upgrade Sample.externals; @POST_tenants_invite Sample.externals;
     @GET_notes_id Sample.externals; @POST_notes Sample.externals;
     @PUT_notes_id Sample.externals; @DELETE_notes_id Sample.externals] /\
  @GET_notes Sample.externals Sample.env req Sample.world =
    (liftX (c_json (JError "Unauthorized") 401), Sample.world).
Proof.
  apply (@unauthenticated_requests Sample.externals Sample.env
           {| authorization := Some "Basic abc"; param := "1"; json := None |} Sample.world).
  right. exists "Basic abc". split; reflexivity.
Defined.

Lemma rejected_tokens_witness :
  let token := "HS256|1|admin@acme.test|admin|2|globex|free|1700000000|never|forged" in
  let req := {| authorization := Some ("Bearer " +:+ token); param := "4"; json := None |} in
  Forall (fun route : Env -> Request -> World -> Response * World =>
            route Sample.env req Sample.world = (c_json (JError "Invalid token") 401, Sample.world))
    [@POST_tenants_upgrade Sample.externals; @POST_tenants_invite Sample.externals;
     @GET_notes_id Sample.externals; @POST_notes Sample.externals;
     @PUT_notes_id Sample.externals; @DELETE_notes_id Sample.externals] /\
  @GET_notes Sample.externals Sample.env req Sample.world =
    (liftX (c_json (JError "Invalid token") 401), Sample.world).
Proof.
  apply (@rejected_tokens Sample.externals Sample.env
           {| authorization :=
                Some ("Bearer " +:+
                      "HS256|1|admin@acme.test|admin|2|globex|free|1700000000|never|forged");
              param := "4"; json := None |}
           Sample.world
           "HS256|1|admin@acme.test|admin|2|globex|free|1700000000|never|forged"
           JwtInvalidSignature).
  - reflexivity.
  - vm_compute. reflexivity.
Defined.

(** *** The health and list routes *)

Section HealthAndList.
Context `{Externals}.
Implicit Types (env : Env) (req : Request) (w : World) (d : JwtClaims).

Lemma health_run env w :
  GET_health env w =
    (match (initializeDatabase env w).1 with
     | inr _ => {| statusX := 200; bodyX := JHealth "ok" (date_now env) |}
     | inl _ => {| statusX := 500;
                   bodyX := JHealthError "error" "Database connection failed" |}
     end, (initializeDatabase env w).2).
Proof.
  unfold GET_health, respondX, health_handler, try_catch, bind, ret.
  destruct (initializeDatabase env w) as [[e|u] w1]; reflexivity.
Qed.

(** X4.  The health route asks for no token.  It is answered 200 with
    status "ok" and the clock exactly when initialization succeeds,
    and 500 with "Database connection failed" when initialization
    throws; it never leaves the exception to the framework.  It is the
    state initialization left that it leaves, with the notes as they
    were. *)
Theorem health_route env w :
  GET_health env w =
    (match (initializeDatabase env w).1 with
     | inr _ => {| statusX := 200; bodyX := JHealth "ok" (date_now env) |}
     | inl _ => {| statusX := 500;
                   bodyX := JHealthError "error" "Database connection failed" |}
     end, (initializeDatabase env w).2) /\
  notes (db (GET_health env w).2) = notes (db w) /\
  (initialized w = true ->
     GET_health env w = ({| statusX := 200; bodyX := JHealth "ok" (date_now env) |}, w)).
Proof.
  split_and!.
  - apply health_run.
  - rewrite health_run. simpl. apply initializeDatabase_notes.
  - intros Hi. rewrite health_run, initializeDatabase_done by done. reflexivity.
Qed.

Lemma listNotes_run env req (c : JWTPayload) w :
  respondX (listNotes_handler env req c) w =
    match initializeDatabase env w with
    | (inl _, w1) => (liftX onError, w1)
    | (inr _, w1) =>
        if negb (int4 (tenantId c))
        then (liftX (c_json (JError "Failed to fetch notes") 500), w1)
        else
          ({| statusX := 200;
              bodyX := JNotes (map (fun kv => note_row (fst kv) (snd kv))
                                 (merge_sort created_at_desc
                                    (notes_where_tenant (tenantId c) (db w1)))) |}, w1)
    end.
Proof.
  unfold listNotes_handler, select_notes, respondX, bind, try_catch, query, ret,
    with_params, bind_params, bind_param.
  destruct (initializeDatabase env w) as [[e|u] w1]; [reflexivity|].
  destruct (int4 (tenantId c)); simpl; rewrite set_db_id; reflexivity.
Qed.

Lemma created_at_desc_total : Total created_at_desc.
Proof. intros a b. unfold created_at_desc. lia. Qed.

Lemma created_at_desc_trans : Transitive created_at_desc.
Proof. intros a b c. unfold created_at_desc. lia. Qed.

(** X5.  The list route answers a request with a valid token whose
    tenant id is in the range of the column, when initialization
    succeeds, with 200 and the notes of the claim's tenant: every row
    is a stored note whose tenant id is the claim's, every such note is
    a row, no id occurs twice, the rows are in descending order of
    creation time, and there are as many of them as the quota check of
    the creation route counts.  The route stores nothing. *)
Theorem list_notes env req d w w1 :
  initializeDatabase env w = (inr tt, w1) ->
  verified env req d ->
  int4 (tenantId (payload d)) = true ->
  exists rows : list NoteRow,
    GET_notes env req w = ({| statusX := 200; bodyX := JNotes rows |}, w1) /\
    (forall row, row ∈ rows <->
       exists k n, notes (db w1) !! k = Some n /\
                   n_tenant_id n = tenantId (payload d) /\ row = note_row k n) /\
    NoDup (map r_id rows) /\
    StronglySorted (fun a b => (r_created_at b <= r_created_at a)%Z) rows /\
    Z.of_nat (List.length rows) = note_count (tenantId (payload d)) (db w1).
Proof.
  intros Hi Hv Hrange. eexists. split.
  { unfold GET_notes. rewrite (respondX_requireAuthX _ _ d) by done.
    rewrite listNotes_run, Hi, Hrange. reflexivity. }
  set (tid := tenantId (payload d)).
  pose proof (merge_sort_Permutation created_at_desc (notes_where_tenant tid (db w1))) as Hperm.
  split_and!.
  - intros row. rewrite list_elem_of_In, in_map_iff. split.
    + intros ([k n] & <- & Hin). apply list_elem_of_In in Hin.
      rewrite Hperm in Hin. apply elem_of_notes_where_tenant in Hin as [Hk Ht].
      exists k, n. done.
    + intros (k & n & Hk & Ht & ->). exists (k, n). split; [reflexivity|].
      apply list_elem_of_In. rewrite Hperm. apply elem_of_notes_where_tenant. done.
  - rewrite map_map. simpl.
    change (map (fun kv : Z * Note => kv.1)
              (merge_sort created_at_desc (notes_where_tenant tid (db w1))))
      with ((merge_sort created_at_desc (notes_where_tenant tid (db w1))).*1).
    rewrite Hperm. unfold notes_where_tenant.
    apply (NoDup_filter_fst _ (map_to_list (notes (db w1)))).
    apply NoDup_fst_map_to_list.
  - change (map (fun kv : Z * Note => note_row kv.1 kv.2)
              (merge_sort created_at_desc (notes_where_tenant tid (db w1))))
      with ((fun kv : Z * Note => note_row kv.1 kv.2) <$>
              merge_sort created_at_desc (notes_where_tenant tid (db w1))).
    apply (StronglySorted_fmap _ created_at_desc).
    + intros a b Hab. exact Hab.
    + apply (@StronglySorted_merge_sort _ _ _ created_at_desc_trans created_at_desc_total).
  - rewrite length_map. unfold note_count.
    fold (notes_where_tenant tid (db w1)). rewrite Hperm. reflexivity.
Qed.

End HealthAndList.

Lemma list_notes_witness :
  let req := Sample.request Sample.acme_member EmptyString Sample.no_fields in
  let d := Sample.decoded Sample.acme_member in
  exists rows : list NoteRow,
    @GET_notes Sample.externals Sample.env req Sample.world =
      ({| statusX := 200; bodyX := JNotes rows |}, Sample.world) /\
    (forall row, row ∈ rows <->
       exists k n, notes Sample.store !! k = Some n /\
                   n_tenant_id n = 1%Z /\ row = note_row k n) /\
    NoDup (map r_id rows) /\
    StronglySorted (fun a b => (r_created_at b <= r_created_at a)%Z) rows /\
    Z.of_nat (List.length rows) = note_count 1 Sample.store.
Proof.
  apply (@list_notes Sample.externals Sample.env
           (Sample.request Sample.acme_member EmptyString Sample.no_fields)
           (Sample.decoded Sample.acme_member) Sample.world Sample.world).
  - reflexivity.
  - apply sample_verified. vm_compute. reflexivity.
  - reflexivity.
Defined.

(** *** Routes that only read, and requests that are malformed *)

Section Edges.
Context `{Externals}.
Implicit Types (env : Env) (req : Request) (w : World) (d : JwtClaims).

(** The middleware either answers itself, leaving the state alone, or
    hands some claim to the handler. *)
Lemma requireAuth_cases rr env req (next : JWTPayload -> M Response) w :
  (exists r, requireAuth rr env req next w = (inr r, w)) \/
  (exists c, requireAuth rr env req next w = hono_next (next c) w).
Proof.
  unfold requireAuth.
  destruct (authorization req) as [h|]; [|left; eexists; reflexivity].
  destruct (negb (String.prefix "Bearer " h)); [left; eexists; reflexivity|].
  unfold try_catch at 1.
  destruct (jwt_verify _ _ _) as [e|dd]; [left; eexists; reflexivity|].
  destruct rr as [r|].
  - destruct (negb (bool_decide _)); [left; eexists; reflexivity|].
    right. exists (payload dd). unfold hono_next, try_catch, ret.
    destruct (next (payload dd) w) as [[e|x] w']; reflexivity.
  - right. exists (payload dd). unfold hono_next, try_catch, ret.
    destruct (next (payload dd) w) as [[e|x] w']; reflexivity.
Qed.

Lemma respond_requireAuth_state rr env req (next : JWTPayload -> M Response) w :
  (respond (requireAuth rr env req next) w).2 = w \/
  (exists c, (respond (requireAuth rr env req next) w).2 = (respond (next c) w).2).
Proof.
  unfold respond at 1 2.
  destruct (requireAuth_cases rr env req next w) as [[r ->] | [c ->]]; [left; reflexivity|].
  right. exists c. unfold hono_next, try_catch, ret, respond.
  destruct (next c w) as [[e|x] w']; reflexivity.
Qed.

Lemma respondX_requireAuthX_state rr env req (next : JWTPayload -> M ResponseX) w :
  (respondX (requireAuthX rr env req next) w).2 = w \/
  (exists c, (respondX (requireAuthX rr env req next) w).2 = (respondX (next c) w).2).
Proof.
  unfold respondX at 1 2, requireAuthX.
  destruct (authorization req) as [h|]; [|left; reflexivity].
  destruct (negb (String.prefix "Bearer " h)); [left; reflexivity|].
  unfold try_catch at 1.
  destruct (jwt_verify _ _ _) as [e|dd]; [left; reflexivity|].
  destruct rr as [r|].
  - destruct (negb (bool_decide _)); [left; reflexivity|].
    right. exists (payload dd). unfold try_catch, ret, respondX.
    destruct (next (payload dd) w) as [[e|x] w']; reflexivity.
  - right. exists (payload dd). unfold try_catch, ret, respondX.
    destruct (next (payload dd) w) as [[e|x] w']; reflexivity.
Qed.

(** X6.  The health, login, list and read routes store nothing of
    their own: for every request whatever, the state they leave is the
    state they found or the state initialization made of it, and in an
    initialized process it is the state they found. *)
Theorem reading_routes_store_nothing env req w :
  Forall (fun effect : World -> World =>
            (effect w = w \/ effect w = (initializeDatabase env w).2) /\
            (initialized w = true -> effect w = w))
    [ fun w => (GET_health env w).2;
      fun w => (POST_auth_login env req w).2;
      fun w => (GET_notes env req w).2;
      fun w => (GET_notes_id env req w).2 ].
Proof.
  assert (Hgen : forall s : World,
            (s = w \/ s = (initializeDatabase env w).2) ->
            (s = w \/ s = (initializeDatabase env w).2) /\
            (initialized w = true -> s = w)).
  { intros s Hc. split; [exact Hc|]. intros Hi.
    rewrite initializeDatabase_done in Hc by done. simpl in Hc. tauto. }
  repeat apply Forall_cons_2; [..|apply Forall_nil_2]; apply Hgen.
  - right. rewrite health_run. reflexivity.
  - right. rewrite login_run.
    destruct (initializeDatabase env w) as [[e|u] w1]; [reflexivity|]. simpl.
    repeat case_match; reflexivity.
  - unfold GET_notes.
    destruct (respondX_requireAuthX_state None env req (listNotes_handler env req) w)
      as [-> | [c ->]]; [left; reflexivity|].
    right. rewrite listNotes_run.
    destruct (initializeDatabase env w) as [[e|u] w1]; [reflexivity|].
    destruct (negb (int4 (tenantId c))); reflexivity.
  - unfold GET_notes_id.
    destruct (respond_requireAuth_state None env req (getNote_handler env req) w)
      as [-> | [c ->]]; [left; reflexivity|].
    right. rewrite getNote_run.
    destruct (initializeDatabase env w) as [[e|u] w1]; [reflexivity|]. simpl.
    repeat case_match; reflexivity.
Qed.

(** X7.  An id in the path that PostgreSQL does not read as an integer
    makes the read, update and delete routes answer 500 with their own
    failure message, not 404 and not 400, and store nothing. *)
Theorem id_not_an_integer env req d w w1 :
  initializeDatabase env w = (inr tt, w1) ->
  verified env req d ->
  int4in (param req) = None ->
  GET_notes_id env req w = (c_json (JError "Failed to fetch note") 500, w1) /\
  (is_Some (json req) ->
     PUT_notes_id env req w = (c_json (JError "Failed to update note") 500, w1)) /\
  DELETE_notes_id env req w = (c_json (JError "Failed to delete note") 500, w1).
Proof.
  intros Hi Hv Hid.
  unfold GET_notes_id, PUT_notes_id, DELETE_notes_id.
  rewrite !(respond_requireAuth _ _ d) by done.
  rewrite getNote_run, updateNote_run, deleteNote_run, Hi, Hid.
  split_and!; try reflexivity. intros [b ->]. reflexivity.
Qed.

(** X8.  Bodies that are refused before any statement runs.  A creation
    without a truthy title and content, a login without a truthy e-mail
    and password, and an admin's invite to the admin's own tenant
    without a truthy e-mail and a role that is "admin" or "member" are
    each answered 400; a body that does not parse makes each of these
    routes, and the update route, answer with the framework's plain-text
    500.  In every case the store is as initialization left it. *)
Theorem refused_bodies env req w w1 :
  initializeDatabase env w = (inr tt, w1) ->
  (forall d b, verified env req d -> json req = Some b ->
     truthy (b "title") = false \/ truthy (b "content") = false ->
     POST_notes env req w = (c_json (JError "Title and content are required") 400, w1)) /\
  (forall b, json req = Some b ->
     truthy (b "email") = false \/ truthy (b "password") = false ->
     POST_auth_login env req w = (c_json (JError "Email and password are required") 400, w1)) /\
  (forall d b, verified env req d -> role (payload d) = admin ->
     param req = tenantSlug (payload d) -> json req = Some b ->
     truthy (b "email") = false \/ role_of_js (b "role") = None ->
     POST_tenants_invite env req w =
       (c_json (JError "Email and valid role are required") 400, w1)) /\
  (json req = None ->
     POST_auth_login env req w = (onError, w1) /\
     forall d, verified env req d ->
       POST_notes env req w = (onError, w1) /\
       PUT_notes_id env req w = (onError, w1) /\
       (role (payload d) = admin -> param req = tenantSlug (payload d) ->
          POST_tenants_invite env req w = (onError, w1))).
Proof.
  intros Hi. split_and!.
  - intros d b Hv Hb Hf. unfold POST_notes.
    rewrite (respond_requireAuth _ _ d) by done.
    rewrite createNote_run, Hi, Hb.
    destruct Hf as [-> | ->]; [reflexivity|]. rewrite orb_true_r. reflexivity.
  - intros b Hb Hf. rewrite login_run, Hi, Hb.
    destruct Hf as [-> | ->]; [reflexivity|]. rewrite orb_true_r. reflexivity.
  - intros d b Hv Hr Hs Hb Hf. unfold POST_tenants_invite.
    rewrite (respond_requireAuth_admin _ _ d) by done.
    rewrite invite_run, Hi, Hs, String.eqb_refl, Hb. simpl.
    destruct Hf as [-> | ->]; [reflexivity|]. destruct (truthy (b "email")); reflexivity.
  - intros Hb. split.
    + rewrite login_run, Hi, Hb. reflexivity.
    + intros d Hv. unfold POST_notes, PUT_notes_id, POST_tenants_invite. split_and!.
      * rewrite (respond_requireAuth _ _ d) by done.
        rewrite createNote_run, Hi, Hb. reflexivity.
      * rewrite (respond_requireAuth _ _ d) by done.
        rewrite updateNote_run, Hi, Hb. reflexivity.
      * intros Hr Hs. rewrite (respond_requireAuth_admin _ _ d) by done.
        rewrite invite_run, Hi, Hs, String.eqb_refl, Hb. reflexivity.
Qed.

End Edges.

Lemma id_not_an_integer_witness :
  let req := Sample.request Sample.acme_admin "abc" Sample.no_fields in
  @GET_notes_id Sample.externals Sample.env req Sample.world =
    (c_json (JError "Failed to fetch note") 500, Sample.world) /\
  (is_Some (json req) ->
     @PUT_notes_id Sample.externals Sample.env req Sample.world =
       (c_json (JError "Failed to update note") 500, Sample.world)) /\
  @DELETE_notes_id Sample.externals Sample.env req Sample.world =
    (c_json (JError "Failed to delete note") 500, Sample.world).
Proof.
  apply (@id_not_an_integer Sample.externals Sample.env
           (Sample.request Sample.acme_admin "abc" Sample.no_fields)
           (Sample.decoded Sample.acme_admin) Sample.world Sample.world).
  - reflexivity.
  - apply sample_verified. vm_compute. reflexivity.
  - vm_compute. reflexivity.
Defined.

Lemma refused_bodies_witness :
  let req := Sample.request Sample.acme_admin "acme"
               (Sample.fields2 "title" (VString EmptyString) "email" VNull) in
  let w := Sample.cold_world in
  let w1 := (@initializeDatabase Sample.externals Sample.env Sample.cold_world).2 in
  (forall d b, @verified Sample.externals Sample.env req d -> json req = Some b ->
     truthy (b "title") = false \/ truthy (b "content") = false ->
     @POST_notes Sample.externals Sample.env req w =
       (c_json (JError "Title and content are required") 400, w1)) /\
  (forall b, json req = Some b ->
     truthy (b "email") = false \/ truthy (b "password") = false ->
     @POST_auth_login Sample.externals Sample.env req w =
       (c_json (JError "Email and password are required") 400, w1)) /\
  (forall d b, @verified Sample.externals Sample.env req d -> role (payload d) = admin ->
     param req = tenantSlug (payload d) -> json req = Some b ->
     truthy (b "email") = false \/ role_of_js (b "role") = None ->
     @POST_tenants_invite Sample.externals Sample.env req w =
       (c_json (JError "Email and valid role are required") 400, w1)) /\
  (json req = None ->
     @POST_auth_login Sample.externals Sample.env req w = (@onError, w1) /\
     forall d, @verified Sample.externals Sample.env req d ->
       @POST_notes Sample.externals Sample.env req w = (@onError, w1) /\
       @PUT_notes_id Sample.externals Sample.env req w = (@onError, w1) /\
       (role (payload d) = admin -> param req = tenantSlug (payload d) ->
          @POST_tenants_invite Sample.externals Sample.env req w = (@onError, w1))).
Proof.
  apply (@refused_bodies Sample.externals Sample.env
           (Sample.request Sample.acme_admin "acme"
              (Sample.fields2 "title" (VString EmptyString) "email" VNull))
           Sample.cold_world
           (@initializeDatabase Sample.externals Sample.env Sample.cold_world).2).
  vm_compute. reflexivity.
Defined.

(** *** Reading back what was written *)

Section ReadBack.
Context `{Externals}.
Implicit Types (env : Env) (req : Request) (w : World) (d : JwtClaims).

(** What an answered creation did. *)
Lemma createNote_created env req (c : JWTPayload) w (row : NoteRow) w' :
  respond (createNote_handler env req c) w = (c_json (JNote (Some row)) 201, w') ->
  exists w1 (n : Note),
    initializeDatabase env w = (inr tt, w1) /\
    notes (db w1) !! r_id row = None /\
    n_tenant_id n = tenantId c /\ n_user_id n = sub c /\
    row = note_row (r_id row) n /\
    int4 (tenantId c) = true /\
    w' = set_db (set_notes (<[r_id row := n]> (notes (db w1))) (r_id row) (db w1)) w1.
Proof.
  rewrite createNote_run.
  destruct (initializeDatabase env w) as [[e|[]] w1]; [discriminate|].
  destruct (json req) as [b|]; [|discriminate].
  destruct (negb (truthy (b "title")) || negb (truthy (b "content"))); [discriminate|].
  destruct (int4 (tenantId c)) eqn:Hrange; [|discriminate]. simpl.
  destruct (tenants (db w1) !! tenantId c) as [t|] eqn:Ht; [|discriminate].
  destruct (bool_decide (t_plan t = free) && _); [discriminate|].
  unfold insert_note, with_params, bind_params, bind_param, nextval.
  rewrite Hrange.
  destruct (int4 (sub c)); [|discriminate].
  destruct (prepareValue (b "title")) as [ti|];
    [destruct (has_nul ti); [discriminate|]|];
    (destruct (prepareValue (b "content")) as [co|];
       [destruct (has_nul co); [discriminate|]|]);
    (destruct (Z.ltb (notes_id_seq (db w1)) int4_max); [|discriminate]);
    try discriminate.
  destruct (notes (db w1) !! (notes_id_seq (db w1) + 1)%Z) eqn:Hfresh; [discriminate|].
  destruct (negb (tenant_exists (tenantId c) (db w1))); [discriminate|].
  destruct (negb (user_id_taken (sub c) (users (db w1)))); [discriminate|].
  simpl. intros [= <- <-]. simpl.
  exists w1, {| n_tenant_id := tenantId c; n_user_id := sub c; n_title := ti;
                n_content := co; n_created_at := pg_now env; n_updated_at := pg_now env |}.
  split_and!; try reflexivity. exact Hfresh.
Qed.

(** What an answered update did. *)
Lemma updateNote_updated env req (c : JWTPayload) w (row : NoteRow) w' :
  respond (updateNote_handler env req c) w = (c_json_ok (JNote (Some row)), w') ->
  exists w1 (n n' : Note),
    initializeDatabase env w = (inr tt, w1) /\
    int4in (param req) = Some (r_id row) /\
    notes (db w1) !! r_id row = Some n /\
    n_tenant_id n = tenantId c /\
    (role c = admin \/ n_user_id n = sub c) /\
    n_tenant_id n' = n_tenant_id n /\
    row = note_row (r_id row) n' /\
    int4 (tenantId c) = true /\
    w' = with_note (r_id row) n' w1.
Proof.
  rewrite updateNote_run.
  destruct (initializeDatabase env w) as [[e|[]] w1]; [discriminate|].
  destruct (json req) as [b|]; [|discriminate].
  destruct (int4in (param req)) as [k|]; [|discriminate].
  destruct (int4 (tenantId c)) eqn:Hrange; [|discriminate]. simpl.
  destruct (notes (db w1) !! k) as [n|] eqn:Hk; [|discriminate].
  destruct (Z.eqb (n_tenant_id n) (tenantId c)) eqn:Ht; [|discriminate].
  destruct (bool_decide (role c = member) && negb (Z.eqb (n_user_id n) (sub c))) eqn:Hg;
    [discriminate|].
  destruct (negb (no_nul _) || negb (no_nul _)); [discriminate|].
  simpl. intros [= <- <-]. simpl.
  exists w1, n, (update_note_fields (prepareValue (b "title"))
                   (prepareValue (b "content")) (pg_now env) n).
  split_and!; try reflexivity; try done.
  - apply Z.eqb_eq. done.
  - apply andb_false_iff in Hg as [Hg | Hg].
    + left. apply bool_decide_eq_false in Hg. destruct (role c); done.
    + right. apply negb_false_iff, Z.eqb_eq in Hg. done.
Qed.

(** What an answered deletion did. *)
Lemma deleteNote_deleted env req (c : JWTPayload) w w' :
  respond (deleteNote_handler env req c) w = (c_json_ok JSuccess, w') ->
  exists w1 (k : Z) (n : Note),
    initializeDatabase env w = (inr tt, w1) /\
    int4in (param req) = Some k /\
    notes (db w1) !! k = Some n /\
    n_tenant_id n = tenantId c /\
    (role c = admin \/ n_user_id n = sub c) /\
    int4 (tenantId c) = true /\
    w' = without_note k w1.
Proof.
  rewrite deleteNote_run.
  destruct (initializeDatabase env w) as [[e|[]] w1]; [discriminate|].
  destruct (int4in (param req)) as [k|]; [|discriminate].
  destruct (int4 (tenantId c)) eqn:Hrange; [|discriminate]. simpl.
  destruct (notes (db w1) !! k) as [n|] eqn:Hk; [|discriminate].
  destruct (Z.eqb (n_tenant_id n) (tenantId c)) eqn:Ht; [|discriminate].
  destruct (bool_decide (role c = member) && negb (Z.eqb (n_user_id n) (sub c))) eqn:Hg;
    [discriminate|].
  simpl. intros [= <-].
  eexists w1, k, n. split_and!; try reflexivity; try done.
  - apply Z.eqb_eq. done.
  - apply andb_false_iff in Hg as [Hg | Hg].
    + left. apply bool_decide_eq_false in Hg. destruct (role c); done.
    + right. apply negb_false_iff, Z.eqb_eq in Hg. done.
Qed.

(** X9.  Read your writes.  The row a creation answers with 201, and
    the row an update answers with 200, is the row the read route then
    returns, at any later time, to any valid token of the same tenant
    that asks for that id. *)
Theorem read_your_writes env req d w env' req' d' (row : NoteRow) w' :
  verified env req d ->
  verified env' req' d' ->
  tenantId (payload d') = tenantId (payload d) ->
  int4in (param req') = Some (r_id row) ->
  POST_notes env req w = (c_json (JNote (Some row)) 201, w') \/
  PUT_notes_id env req w = (c_json_ok (JNote (Some row)), w') ->
  GET_notes_id env' req' w' = (c_json_ok (JNote (Some row)), w').
Proof.
  intros Hv Hv' Hten Hid Hwrite.
  unfold GET_notes_id. rewrite (respond_requireAuth _ _ d') by done.
  rewrite getNote_run, Hid, Hten.
  destruct Hwrite as [Hc | Hu].
  - unfold POST_notes in Hc. rewrite (respond_requireAuth _ _ d) in Hc by done.
    apply createNote_created in Hc as (w1 & n & Hi & Hfresh & Ht & Hu & Hrow & Hrange & ->).
    rewrite initializeDatabase_done
      by (apply (initializeDatabase_ok _ _ _ Hi)).
    rewrite Hrange.
    simpl. rewrite lookup_insert_eq, Ht, Z.eqb_refl, <- Hrow. reflexivity.
  - unfold PUT_notes_id in Hu. rewrite (respond_requireAuth _ _ d) in Hu by done.
    apply updateNote_updated
      in Hu as (w1 & n & n' & Hi & Hk & Hn & Ht & Hauth & Ht' & Hrow & Hrange & ->).
    rewrite initializeDatabase_done
      by (apply (initializeDatabase_ok _ _ _ Hi)).
    rewrite Hrange.
    simpl. rewrite lookup_insert_eq, Ht', Ht, Z.eqb_refl, <- Hrow. reflexivity.
Qed.

(** X10.  Updates and deletions happen only with authority.  Whenever
    the update route answers with a row, or the delete route with
    success, the addressed note was stored under the claim's tenant and
    the claim is an admin's or the note creator's. *)
Theorem mutations_are_authorized env req d w :
  verified env req d ->
  (exists row, (PUT_notes_id env req w).1 = c_json_ok (JNote (Some row))) \/
  (DELETE_notes_id env req w).1 = c_json_ok JSuccess ->
  exists w1 (k : Z) (n : Note),
    initializeDatabase env w = (inr tt, w1) /\
    int4in (param req) = Some k /\
    notes (db w1) !! k = Some n /\
    n_tenant_id n = tenantId (payload d) /\
    (role (payload d) = admin \/ n_user_id n = sub (payload d)).
Proof.
  intros Hv [[row Hu] | Hd].
  - unfold PUT_notes_id in Hu. rewrite (respond_requireAuth _ _ d) in Hu by done.
    destruct (respond (updateNote_handler env req (payload d)) w) as [r w'] eqn:Hr.
    simpl in Hu. subst r.
    apply updateNote_updated in Hr as (w1 & n & n' & ? & ? & ? & ? & ? & _).
    exists w1, (r_id row), n. done.
  - unfold DELETE_notes_id in Hd. rewrite (respond_requireAuth _ _ d) in Hd by done.
    destruct (respond (deleteNote_handler env req (payload d)) w) as [r w'] eqn:Hr.
    simpl in Hd. subst r.
    apply deleteNote_deleted in Hr as (w1 & k & n & ? & ? & ? & ? & ? & _).
    exists w1, k, n. done.
Qed.

(** X11.  A deletion that is answered with success removed the
    addressed note and nothing else: every other note, the tenants and
    the users are as initialization left them, and from then on the
    read route answers with 404 any valid token that asks for that id
    and whose tenant id is in the range of the column. *)
Theorem delete_frame env req d w w' env' req' d' :
  verified env req d ->
  DELETE_notes_id env req w = (c_json_ok JSuccess, w') ->
  exists w1 (k : Z),
    initializeDatabase env w = (inr tt, w1) /\
    int4in (param req) = Some k /\
    notes (db w') !! k = None /\
    (forall j, j <> k -> notes (db w') !! j = notes (db w) !! j) /\
    tenants (db w') = tenants (db w1) /\
    users (db w') = users (db w1) /\
    (verified env' req' d' -> int4in (param req') = Some k ->
     int4 (tenantId (payload d')) = true ->
       GET_notes_id env' req' w' = (note_not_found, w')).
Proof.
  intros Hv Hd.
  unfold DELETE_notes_id in Hd. rewrite (respond_requireAuth _ _ d) in Hd by done.
  apply deleteNote_deleted in Hd as (w1 & k & n & Hi & Hid & Hk & Ht & Hauth & _ & ->).
  pose proof (initializeDatabase_notes env w) as Hnotes. rewrite Hi in Hnotes.
  exists w1, k. split_and!; try done.
  - simpl. apply lookup_delete_eq.
  - intros j Hj. simpl. rewrite lookup_delete_ne by done. simpl in Hnotes.
    rewrite Hnotes. done.
  - intros Hv' Hid' Hrange'. unfold GET_notes_id.
    rewrite (respond_requireAuth _ _ d') by done.
    rewrite getNote_run, Hid', Hrange'.
    rewrite initializeDatabase_done
      by (apply (initializeDatabase_ok _ _ _ Hi)).
    simpl. rewrite lookup_delete_eq. reflexivity.
Qed.

End ReadBack.

Lemma read_your_writes_witness :
  let req := Sample.request Sample.globex_admin EmptyString
               (Sample.fields2 "title" (VString "t") "content" (VString "c")) in
  let req' := Sample.request Sample.globex_admin "5" Sample.no_fields in
  let row := {| r_id := 5; r_title := "t"; r_content := "c"; r_user_id := 3;
                r_created_at := 200; r_updated_at := 200 |} in
  let w' := (@POST_notes Sample.externals Sample.env req Sample.world).2 in
  @GET_notes_id Sample.externals Sample.env req' w' = (c_json_ok (JNote (Some row)), w').
Proof.
  apply (@read_your_writes Sample.externals Sample.env
           (Sample.request Sample.globex_admin EmptyString
              (Sample.fields2 "title" (VString "t") "content" (VString "c")))
           (Sample.decoded Sample.globex_admin) Sample.world Sample.env
           (Sample.request Sample.globex_admin "5" Sample.no_fields)
           (Sample.decoded Sample.globex_admin)).
  - apply sample_verified. vm_compute. reflexivity.
  - apply sample_verified. vm_compute. reflexivity.
  - reflexivity.
  - vm_compute. reflexivity.
  - left. vm_compute. reflexivity.
Defined.

Lemma mutations_are_authorized_witness :
  let req := Sample.request Sample.acme_member "2" Sample.no_fields in
  exists w1 (k : Z) (n : Note),
    @initializeDatabase Sample.externals Sample.env Sample.world = (inr tt, w1) /\
    Sample.int4in (param req) = Some k /\
    notes (db w1) !! k = Some n /\
    n_tenant_id n = 1%Z /\
    (member = admin \/ n_user_id n = 2%Z).
Proof.
  apply (@mutations_are_authorized Sample.externals Sample.env
           (Sample.request Sample.acme_member "2" Sample.no_fields)
           (Sample.decoded Sample.acme_member) Sample.world).
  - apply sample_verified. vm_compute. reflexivity.
  - right. vm_compute. reflexivity.
Defined.

Lemma delete_frame_witness :
  let req := Sample.request Sample.acme_admin "2" Sample.no_fields in
  let w' := without_note 2 Sample.world in
  let req' := Sample.request Sample.acme_member "2" Sample.no_fields in
  let d' := Sample.decoded Sample.acme_member in
  exists w1 (k : Z),
    @initializeDatabase Sample.externals Sample.env Sample.world = (inr tt, w1) /\
    Sample.int4in (param req) = Some k /\
    notes (db w') !! k = None /\
    (forall j, j <> k -> notes (db w') !! j = notes Sample.store !! j) /\
    tenants (db w') = tenants (db w1) /\
    users (db w') = users (db w1) /\
    (@verified Sample.externals Sample.env req' d' -> Sample.int4in (param req') = Some k ->
     int4 (tenantId (payload d')) = true ->
       @GET_notes_id Sample.externals Sample.env req' w' = (note_not_found, w')).
Proof.
  apply (@delete_frame Sample.externals Sample.env
           (Sample.request Sample.acme_admin "2" Sample.no_fields)
           (Sample.decoded Sample.acme_admin) Sample.world
           (without_note 2 Sample.world) Sample.env
           (Sample.request Sample.acme_member "2" Sample.no_fields)
           (Sample.decoded Sample.acme_member)).
  - apply sample_verified. vm_compute. reflexivity.
  - vm_compute. reflexivity.
Defined.

(** *** Upgrading, inviting and logging in *)

Section Accounts.
Context `{Externals}.
Implicit Types (env : Env) (req : Request) (w : World) (d : JwtClaims).

Lemma alter_set_plan_pro_twice (tid : Z) (m : gmap Z Tenant) :
  alter set_plan_pro tid (alter set_plan_pro tid m) = alter set_plan_pro tid m.
Proof.
  apply map_eq. intros k. destruct (decide (k = tid)) as [->|Hne].
  - rewrite !lookup_alter_eq. destruct (m !! tid); reflexivity.
  - rewrite !lookup_alter_ne by done. reflexivity.
Qed.

(** X12.  An admin's upgrade of the admin's own tenant, the tenant id
    of the claim being in the range of the column, writes one column of
    one row: the slug and the name of that tenant, every other tenant,
    the users, the notes and the sequences are as initialization left
    them.  It is answered with success also when no tenant has the
    claim's tenant id, and then writes nothing.  A second upgrade
    changes nothing more. *)
Theorem upgrade_frame env req d w w1 env' req' d' :
  initializeDatabase env w = (inr tt, w1) ->
  verified env req d ->
  role (payload d) = admin ->
  param req = tenantSlug (payload d) ->
  int4 (tenantId (payload d)) = true ->
  let tid := tenantId (payload d) in
  let w' := (POST_tenants_upgrade env req w).2 in
  (POST_tenants_upgrade env req w).1 = c_json_ok JUpgraded /\
  (forall k, k <> tid -> tenants (db w') !! k = tenants (db w1) !! k) /\
  tenants (db w') !! tid = set_plan_pro <$> tenants (db w1) !! tid /\
  (tenants (db w1) !! tid = None -> w' = w1) /\
  users (db w') = users (db w1) /\
  notes (db w') = notes (db w1) /\
  (tenants_id_seq (db w'), users_id_seq (db w'), notes_id_seq (db w')) =
    (tenants_id_seq (db w1), users_id_seq (db w1), notes_id_seq (db w1)) /\
  (verified env' req' d' -> role (payload d') = admin ->
   param req' = tenantSlug (payload d') -> tenantId (payload d') = tid ->
     POST_tenants_upgrade env' req' w' = (c_json_ok JUpgraded, w')).
Proof.
  intros Hi Hv Hr Hs Hrange tid w'. subst w'. unfold POST_tenants_upgrade.
  rewrite (respond_requireAuth_admin _ _ d) by done.
  rewrite upgrade_run, Hi, Hs, String.eqb_refl, Hrange. simpl.
  split_and!; try reflexivity.
  - intros k Hk. apply lookup_alter_ne. done.
  - apply lookup_alter_eq.
  - intros Hnone. fold tid. unfold upgraded.
    rewrite (alter_id _ _ _) by (intros t Ht; fold tid in Hnone; congruence).
    destruct w1 as [i [? ? ? ? ? ?]]. reflexivity.
  - intros Hv' Hr' Hs' Ht'.
    rewrite (respond_requireAuth_admin _ _ d') by done.
    rewrite upgrade_run, Hs', String.eqb_refl, Ht'. fold tid in Hrange.
    rewrite Hrange. simpl.
    rewrite initializeDatabase_done by (apply (initializeDatabase_ok _ _ _ Hi)).
    f_equal. unfold upgraded, set_db, set_tenants. simpl.
    fold tid. rewrite alter_set_plan_pro_twice. reflexivity.
Qed.

(** X13.  After an upgrade the quota is lifted for every token of the
    tenant, also for one issued earlier whose plan field still says
    free: the creation route never answers 402 for that tenant again.
    It answers 201 to a request with a truthy title and content that
    the database accepts as text, from a stored user, when the ids of
    the claim are in the range of their columns, the note sequence is
    not exhausted and its next id is free. *)
Theorem upgrade_lifts_quota env req d w w1 env' req' d' :
  initializeDatabase env w = (inr tt, w1) ->
  verified env req d ->
  role (payload d) = admin ->
  param req = tenantSlug (payload d) ->
  is_Some (tenants (db w1) !! tenantId (payload d)) ->
  verified env' req' d' ->
  tenantId (payload d') = tenantId (payload d) ->
  let w' := (POST_tenants_upgrade env req w).2 in
  status (POST_notes env' req' w').1 <> 402 /\
  (forall b, json req' = Some b ->
     truthy (b "title") = true -> truthy (b "content") = true ->
     no_nul (prepareValue (b "title")) = true ->
     no_nul (prepareValue (b "content")) = true ->
     int4 (tenantId (payload d')) = true -> int4 (sub (payload d')) = true ->
     user_id_taken (sub (payload d')) (users (db w1)) = true ->
     (notes_id_seq (db w1) < int4_max)%Z ->
     notes (db w1) !! (notes_id_seq (db w1) + 1)%Z = None ->
     status (POST_notes env' req' w').1 = 201).
Proof.
  intros Hi Hv Hr Hs [t Ht] Hv' Hten w'. subst w'.
  pose proof (initializeDatabase_ok _ _ _ Hi) as Hflag.
  unfold POST_tenants_upgrade.
  rewrite (respond_requireAuth_admin _ _ d) by done.
  rewrite upgrade_run, Hi, Hs, String.eqb_refl. simpl.
  unfold POST_notes. rewrite (respond_requireAuth _ _ d') by done.
  rewrite createNote_run, Hten.
  destruct (int4 (tenantId (payload d))) eqn:Hrange; simpl.
  - rewrite initializeDatabase_done by exact Hflag.
    assert (Hpro : tenants (db (upgraded (tenantId (payload d)) w1)) !! tenantId (payload d)
                   = Some (set_plan_pro t)).
    { simpl. rewrite lookup_alter_eq, Ht. reflexivity. }
    rewrite Hpro. simpl bool_decide. simpl andb. cbv iota.
    split.
    + destruct (json req') as [b|]; [|simpl; lia].
      destruct (negb (truthy (b "title")) || negb (truthy (b "content"))); [simpl; lia|].
      destruct (insert_note _ _ _ _ _ _) as [[e|rows] st]; simpl; lia.
    + intros b Hb Hti Hco Hnt Hnc _ Hsub Hu Hseq Hfresh. rewrite Hb, Hti, Hco. simpl.
      destruct (truthy_prepareValue _ Hti) as [ti Hti'].
      destruct (truthy_prepareValue _ Hco) as [co Hco'].
      rewrite Hti', Hco' in *. simpl in Hnt, Hnc.
      apply negb_true_iff in Hnt, Hnc.
      rewrite <- Hten.
      rewrite (insert_note_stores _ _ ti co (pg_now env')
                 (set_tenants
                    (alter set_plan_pro (tenantId (payload d')) (tenants (db w1)))
                    (tenants_id_seq (db w1)) (db w1))); [reflexivity|..]; try done.
      * rewrite Hten. exact Hrange.
      * rewrite Hten. simpl. rewrite lookup_alter_eq, Ht. eexists. reflexivity.
  - rewrite initializeDatabase_done by exact Hflag.
    split.
    + destruct (json req') as [b|]; [|simpl; lia].
      destruct (negb (truthy (b "title")) || negb (truthy (b "content"))); simpl; lia.
    + intros b Hb Hti Hco Hnt Hnc Hr' _ _ _ _. discriminate Hr'.
Qed.

(** X14.  An invite that names an e-mail some user already has, of this
    tenant or of another, is answered 409 "User already exists" when
    the database accepts the parameters (the tenant id of the claim is
    in the range of the column, the hash is text without a NUL) and the
    user sequence is not exhausted; the stored user, and with it the
    users, tenants and notes tables, are as initialization left them. *)
Theorem invite_conflict env req d w w1 (b : string -> JsValue) (e : string) (u : User)
    (r : Role) :
  initializeDatabase env w = (inr tt, w1) ->
  verified env req d ->
  role (payload d) = admin ->
  param req = tenantSlug (payload d) ->
  json req = Some b ->
  truthy (b "email") = true ->
  prepareValue (b "email") = Some e ->
  role_of_js (b "role") = Some r ->
  users (db w1) !! e = Some u ->
  has_nul e = false ->
  has_nul (bcrypt_hash "password" 10 (salt env)) = false ->
  int4 (tenantId (payload d)) = true ->
  (users_id_seq (db w1) < int4_max)%Z ->
  let w' := (POST_tenants_invite env req w).2 in
  (POST_tenants_invite env req w).1 = c_json (JError "User already exists") 409 /\
  users (db w') = users (db w1) /\
  tenants (db w') = tenants (db w1) /\
  notes (db w') = notes (db w1).
Proof.
  intros Hi Hv Hr Hs Hb Hem He Hrole Hu Hne Hnh Hrange Hseq w'. subst w'.
  unfold POST_tenants_invite.
  rewrite (respond_requireAuth_admin _ _ d) by done.
  rewrite invite_run, Hi, Hs, String.eqb_refl, Hb, Hem, Hrole, He. simpl.
  unfold insert_user, with_params, bind_params, bind_param, nextval.
  apply Z.ltb_lt in Hseq. rewrite Hne, Hnh, Hrange, Hseq, Hu.
  destruct (user_id_taken _ _); simpl; done.
Qed.

(** A token the server issued verifies, while it has not expired, under
    a wire format that parses what it printed. *)
Lemma jwt_verify_issued (issued now : Env) (p : JWTPayload) :
  let c := {| payload := p; iat := date_now issued / 1000;
              exp := Some (date_now issued / 1000 + seven_days) |} in
  let t := {| alg := HS256; claims := c; signature := hmac HS256 JWT_SECRET c |} in
  jws_decode (jws_encode t) = Some t ->
  (date_now now / 1000 - date_now issued / 1000 < seven_days)%Z ->
  jwt_verify (signToken issued p) JWT_SECRET (date_now now) = inr c.
Proof.
  intros c t Hcodec Hlt.
  unfold signToken, jwt_sign, jwt_verify. fold c. fold t. rewrite Hcodec.
  simpl. rewrite String.eqb_refl. simpl.
  destruct (Z.leb_spec (date_now issued / 1000 + seven_days) (date_now now / 1000));
    [lia|reflexivity].
Qed.

(** X15.  A login with the e-mail of a stored user and a password
    bcrypt accepts is answered 200 with a token issued for exactly what
    is stored at that moment: the user's id, e-mail and role and the
    id, slug and plan of the user's tenant; nothing is stored.  Under a
    wire format that parses this token, the middleware accepts it and
    hands that claim to the handler on every request made while fewer
    than 604800 whole seconds separate the second of the login and the
    second of the request, and so on every request made at most seven
    days less one second after the login. *)
Theorem login_issues_stored_claim env req w w1 (b : string -> JsValue) (e : string)
    (u : User) (t : Tenant) (pw : string) :
  initializeDatabase env w = (inr tt, w1) ->
  json req = Some b ->
  truthy (b "email") = true ->
  user_by_email (prepareValue (b "email")) (db w1) = Some (e, u) ->
  has_nul e = false ->
  b "password" = VString pw -> pw <> EmptyString ->
  bcrypt_compare pw (u_password_hash u) = true ->
  int4 (u_tenant_id u) = true ->
  tenants (db w1) !! u_tenant_id u = Some t ->
  let c := {| sub := u_id u; email := e; role := u_role u; tenantId := u_tenant_id u;
              tenantSlug := t_slug t; plan := t_plan t |} in
  let issued := {| payload := c; iat := date_now env / 1000;
                   exp := Some (date_now env / 1000 + seven_days) |} in
  POST_auth_login env req w =
    (c_json_ok (JLogin (signToken env c) e (u_role u) (t_slug t) (t_name t) (t_plan t)), w1) /\
  (jws_decode (jws_encode {| alg := HS256; claims := issued;
                             signature := hmac HS256 JWT_SECRET issued |})
     = Some {| alg := HS256; claims := issued; signature := hmac HS256 JWT_SECRET issued |} ->
   forall env' req',
     authorization req' = Some ("Bearer " +:+ signToken env c) ->
     ((date_now env' / 1000 - date_now env / 1000 < seven_days)%Z \/
      (date_now env' - date_now env <= (seven_days - 1) * 1000)%Z) ->
     verified env' req' issued).
Proof.
  intros Hi Hb Hem Hu Hnul Hpw Hne Hcmp Hrange Ht c issued. split.
  - assert (Hp : prepareValue (b "email") = Some e).
    { unfold user_by_email in Hu. destruct (prepareValue (b "email")) as [e'|]; [|done].
      destruct (users (db w1) !! e'); simplify_eq/=. reflexivity. }
    rewrite login_run, Hi, Hb, Hem, Hu, Hpw, Hcmp, Hrange, Ht, Hp.
    unfold no_nul. rewrite Hnul.
    destruct pw; [done|reflexivity].
  - intros Hcodec env' req' Ha Hlt.
    exists ("Bearer " +:+ signToken env c).
    split; [exact Ha|]. split; [apply prefix_bearer|].
    rewrite slice_bearer. apply jwt_verify_issued; [done|].
    destruct Hlt as [Hlt|Hms]; [exact Hlt|].
    unfold seven_days in *.
    pose proof (Z.div_le_mono (date_now env') (date_now env + 604799 * 1000) 1000) as Hd.
    rewrite Z.div_add in Hd by lia. lia.
Qed.

(** X16.  No handler reads the e-mail or the plan of the claim: two
    claims that agree on [sub], [role], [tenantId] and [tenantSlug] get
    the same answer and the same effect from every handler, so a plan
    that went stale inside a token changes nothing. *)
Theorem claim_email_and_plan_unread env req (c c' : JWTPayload) :
  sub c = sub c' -> role c = role c' ->
  tenantId c = tenantId c' -> tenantSlug c = tenantSlug c' ->
  Forall (fun handler : Env -> Request -> JWTPayload -> M Response =>
            handler env req c = handler env req c')
    [upgrade_handler; invite_handler; getNote_handler; createNote_handler;
     updateNote_handler; deleteNote_handler] /\
  listNotes_handler env req c = listNotes_handler env req c'.
Proof.
  destruct c, c'. simpl. intros -> -> -> ->.
  split; [repeat apply Forall_cons_2; [..|apply Forall_nil_2]|]; reflexivity.
Qed.

End Accounts.

Lemma upgrade_frame_witness :
  let req := Sample.request Sample.acme_admin "acme" Sample.no_fields in
  let w1 := (@initializeDatabase Sample.externals Sample.env Sample.cold_world).2 in
  let w' := (@POST_tenants_upgrade Sample.externals Sample.env req Sample.cold_world).2 in
  (@POST_tenants_upgrade Sample.externals Sample.env req Sample.cold_world).1
    = c_json_ok JUpgraded /\
  (forall k, k <> 1%Z -> tenants (db w') !! k = tenants (db w1) !! k) /\
  tenants (db w') !! 1%Z = set_plan_pro <$> tenants (db w1) !! 1%Z /\
  (tenants (db w1) !! 1%Z = None -> w' = w1) /\
  users (db w') = users (db w1) /\
  notes (db w') = notes (db w1) /\
  (tenants_id_seq (db w'), users_id_seq (db w'), notes_id_seq (db w')) =
    (tenants_id_seq (db w1), users_id_seq (db w1), notes_id_seq (db w1)) /\
  (@verified Sample.externals Sample.env req (Sample.decoded Sample.acme_admin) ->
   admin = admin -> param req = "acme" -> 1%Z = 1%Z ->
     @POST_tenants_upgrade Sample.externals Sample.env req w' = (c_json_ok JUpgraded, w')).
Proof.
  apply (@upgrade_frame Sample.externals Sample.env
           (Sample.request Sample.acme_admin "acme" Sample.no_fields)
           (Sample.decoded Sample.acme_admin) Sample.cold_world
           (@initializeDatabase Sample.externals Sample.env Sample.cold_world).2
           Sample.env
           (Sample.request Sample.acme_admin "acme" Sample.no_fields)
           (Sample.decoded Sample.acme_admin)).
  - vm_compute. reflexivity.
  - apply sample_verified. vm_compute. reflexivity.
  - reflexivity.
  - reflexivity.
  - reflexivity.
Defined.

Lemma upgrade_lifts_quota_witness :
  let req := Sample.request Sample.acme_admin "acme" Sample.no_fields in
  let req' := Sample.request Sample.acme_member EmptyString
                (Sample.fields2 "title" (VString "t") "content" (VString "c")) in
  let w' := (@POST_tenants_upgrade Sample.externals Sample.env req Sample.world).2 in
  status (@POST_notes Sample.externals Sample.env req' w').1 <> 402 /\
  (forall b, json req' = Some b ->
     truthy (b "title") = true -> truthy (b "content") = true ->
     no_nul (prepareValue (b "title")) = true ->
     no_nul (prepareValue (b "content")) = true ->
     int4 1 = true -> int4 2 = true ->
     user_id_taken 2 (users Sample.store) = true ->
     (notes_id_seq Sample.store < int4_max)%Z ->
     notes Sample.store !! 5%Z = None ->
     status (@POST_notes Sample.externals Sample.env req' w').1 = 201).
Proof.
  apply (@upgrade_lifts_quota Sample.externals Sample.env
           (Sample.request Sample.acme_admin "acme" Sample.no_fields)
           (Sample.decoded Sample.acme_admin) Sample.world Sample.world Sample.env
           (Sample.request Sample.acme_member EmptyString
              (Sample.fields2 "title" (VString "t") "content" (VString "c")))
           (Sample.decoded Sample.acme_member)).
  - reflexivity.
  - apply sample_verified. vm_compute. reflexivity.
  - reflexivity.
  - reflexivity.
  - vm_compute. eexists. reflexivity.
  - apply sample_verified. vm_compute. reflexivity.
  - reflexivity.
Defined.

Lemma invite_conflict_witness :
  let req := Sample.request Sample.acme_admin "acme"
               (Sample.fields2 "email" (VString "user@globex.test") "role" (VString "admin")) in
  let w' := (@POST_tenants_invite Sample.externals Sample.env req Sample.world).2 in
  (@POST_tenants_invite Sample.externals Sample.env req Sample.world).1
    = c_json (JError "User already exists") 409 /\
  users (db w') = users Sample.store /\
  tenants (db w') = tenants Sample.store /\
  notes (db w') = notes Sample.store.
Proof.
  apply (@invite_conflict Sample.externals Sample.env
           (Sample.request Sample.acme_admin "acme"
              (Sample.fields2 "email" (VString "user@globex.test") "role" (VString "admin")))
           (Sample.decoded Sample.acme_admin) Sample.world Sample.world
           (Sample.fields2 "email" (VString "user@globex.test") "role" (VString "admin"))
           "user@globex.test"
           {| u_id := 4; u_password_hash := Sample.hash0; u_role := member; u_tenant_id := 2 |}
           admin).
  - reflexivity.
  - apply sample_verified. vm_compute. reflexivity.
  - reflexivity.
  - reflexivity.
  - reflexivity.
  - reflexivity.
  - reflexivity.
  - reflexivity.
  - vm_compute. reflexivity.
  - reflexivity.
  - reflexivity.
  - reflexivity.
  - reflexivity.
Defined.

Lemma login_issues_stored_claim_witness :
  let req := {| authorization := None; param := EmptyString;
                json := Some (Sample.fields2 "email" (VString "user@acme.test")
                                "password" (VString "password")) |} in
  let c := Sample.acme_member in
  let issued := Sample.decoded Sample.acme_member in
  @POST_auth_login Sample.externals Sample.env req Sample.world =
    (c_json_ok (JLogin (@signToken Sample.externals Sample.env c) "user@acme.test" member
                  "acme" "Acme Corporation" free), Sample.world) /\
  (Sample.jws_decode
     (Sample.jws_encode {| alg := HS256; claims := issued;
                           signature := Sample.hmac HS256 (@JWT_SECRET Sample.externals) issued |})
     = Some {| alg := HS256; claims := issued;
               signature := Sample.hmac HS256 (@JWT_SECRET Sample.externals) issued |} ->
   forall env' req',
     authorization req' = Some ("Bearer " +:+ @signToken Sample.externals Sample.env c) ->
     ((date_now env' / 1000 - date_now Sample.env / 1000 < @seven_days)%Z \/
      (date_now env' - date_now Sample.env <= (@seven_days - 1) * 1000)%Z) ->
     @verified Sample.externals env' req' issued).
Proof.
  apply (@login_issues_stored_claim Sample.externals Sample.env
           {| authorization := None; param := EmptyString;
              json := Some (Sample.fields2 "email" (VString "user@acme.test")
                              "password" (VString "password")) |}
           Sample.world Sample.world
           (Sample.fields2 "email" (VString "user@acme.test") "password" (VString "password"))
           "user@acme.test"
           {| u_id := 2; u_password_hash := Sample.hash0; u_role := member; u_tenant_id := 1 |}
           {| t_slug := "acme"; t_name := "Acme Corporation"; t_plan := free |}
           "password").
  - reflexivity.
  - reflexivity.
  - reflexivity.
  - vm_compute. reflexivity.
  - reflexivity.
  - reflexivity.
  - discriminate.
  - vm_compute. reflexivity.
  - reflexivity.
  - vm_compute. reflexivity.
Defined.

Lemma claim_email_and_plan_unread_witness :
  let c := Sample.acme_member in
  let c' := {| sub := 2; email := "renamed@acme.test"; role := member; tenantId := 1;
               tenantSlug := "acme"; plan := pro |} in
  let req := Sample.request c "1" Sample.no_fields in
  Forall (fun handler : Env -> Request -> JWTPayload -> M Response =>
            handler Sample.env req c = handler Sample.env req c')
    [@upgrade_handler Sample.externals; @invite_handler Sample.externals;
     @getNote_handler Sample.externals; @createNote_handler Sample.externals;
     @updateNote_handler Sample.externals; @deleteNote_handler Sample.externals] /\
  @listNotes_handler Sample.externals Sample.env req c =
    @listNotes_handler Sample.externals Sample.env req c'.
Proof.
  apply (@claim_email_and_plan_unread Sample.externals Sample.env
           (Sample.request Sample.acme_member "1" Sample.no_fields)
           Sample.acme_member
           {| sub := 2; email := "renamed@acme.test"; role := member; tenantId := 1;
              tenantSlug := "acme"; plan := pro |}); reflexivity.
Defined.

(** *** Counting notes *)







Lemma note_count_nonneg (tid : Z) (st : DB) : (0 <= note_count tid st)%Z.
Proof. unfold note_count. lia. Qed.

Lemma user_id_taken_spec (id : Z) (u : gmap string User) :
  user_id_taken id u = true <-> exists e x, u !! e = Some x /\ u_id x = id.
Proof.
  unfold user_id_taken. rewrite existsb_exists. split.
  - intros ([e x] & Hin & Hid). apply list_elem_of_In, elem_of_map_to_list in Hin.
    apply Z.eqb_eq in Hid. eauto.
  - intros (e & x & Hin & Hid). exists (e, x). split.
    + apply list_elem_of_In, elem_of_map_to_list. exact Hin.
    + apply Z.eqb_eq. exact Hid.
Qed.

Lemma slug_taken_spec (s : string) (t : gmap Z Tenant) :
  slug_taken s t = true <-> exists k x, t !! k = Some x /\ t_slug x = s.
Proof.
  unfold slug_taken. rewrite existsb_exists. split.
  - intros ([k x] & Hin & Hs). apply list_elem_of_In, elem_of_map_to_list in Hin.
    apply String.eqb_eq in Hs. eauto.
  - intros (k & x & Hin & Hs). exists (k, x). split.
    + apply list_elem_of_In, elem_of_map_to_list. exact Hin.
    + apply String.eqb_eq. exact Hs.
Qed.


(** *** The seed statements on a store whose ids are within the sequences *)

(** On such a store a seed row never meets a used id: the statement
    can only fail by exhausting the sequence. *)
Lemma insert_tenants_rows_spec (rows : list (string * string * Plan)) :
  forall (seq : Z) (t : gmap Z Tenant),
  (forall k, is_Some (t !! k) -> (k <= seq)%Z) ->
  match insert_tenants_rows rows seq t with
  | (inr t', seq') =>
      seq' = (seq + Z.of_nat (List.length rows))%Z /\
      (forall k, is_Some (t' !! k) -> (k <= seq')%Z) /\
      (forall k x, t !! k = Some x -> t' !! k = Some x) /\
      (forall k, is_Some (t' !! k) -> is_Some (t !! k) \/ (seq < k)%Z) /\
      (forall slug name p, In (slug, name, p) rows -> slug_taken slug t' = true)
  | (inl _, seq') =>
      (seq <= seq')%Z /\ (int4_max < seq + Z.of_nat (List.length rows))%Z
  end.
Proof.
  induction rows as [|[[slug name] p] rows IH]; intros seq t Hids.
  - simpl. rewrite Z.add_0_r. split_and!; try done.
    intros k Hk. left. done.
  - simpl insert_tenants_rows. unfold nextval.
    destruct (Z.ltb_spec seq int4_max) as [Hlt|Hge]; [|simpl List.length; split; lia].
    assert (Hfresh : t !! (seq + 1)%Z = None).
    { destruct (t !! (seq + 1)%Z) eqn:Hl; [|done].
      assert (seq + 1 <= seq)%Z by (apply Hids; eauto). lia. }
    destruct (slug_taken slug t) eqn:Hslug.
    + specialize (IH (seq + 1)%Z t).
      destruct (insert_tenants_rows rows (seq + 1) t) as [[e|t'] seq'].
      { destruct IH as [Hle Hmax]; [intros k Hk; apply Hids in Hk; lia|].
        simpl List.length. split; lia. }
      destruct IH as (Hr & Hk & Hp & Hn & Hs).
      { intros k Hk. apply Hids in Hk. lia. }
      split_and!.
      * simpl List.length. lia.
      * done.
      * done.
      * intros k Hk'. apply Hn in Hk' as [?|?]; [left; done|right; lia].
      * intros s n q [[= <- <- <-] | Hin]; [|eauto].
        apply slug_taken_spec. apply slug_taken_spec in Hslug as (k & x & Hx & Hsx).
        exists k, x. split; [apply Hp; done|done].
    + rewrite Hfresh.
      specialize (IH (seq + 1)%Z
                    (<[(seq + 1)%Z := {| t_slug := slug; t_name := name; t_plan := p |}]> t)).
      assert (Hids1 : forall k,
                is_Some (<[(seq + 1)%Z := {| t_slug := slug; t_name := name;
                                             t_plan := p |}]> t !! k) ->
                (k <= seq + 1)%Z).
      { intros k [x Hx]. destruct (decide (k = (seq + 1)%Z)) as [->|Hne]; [lia|].
        rewrite lookup_insert_ne in Hx by done.
        assert (k <= seq)%Z by (apply Hids; eauto). lia. }
      destruct (insert_tenants_rows rows (seq + 1) _) as [[e|t'] seq'].
      { destruct (IH Hids1) as [Hle Hmax]. simpl List.length. split; lia. }
      destruct (IH Hids1) as (Hr & Hk & Hp & Hn & Hs).
      split_and!.
      * simpl List.length. lia.
      * done.
      * intros k x Hx. apply Hp. rewrite lookup_insert_ne; [done|].
        intros <-. congruence.
      * intros k Hk'. apply Hn in Hk' as [[x Hx]|?]; [|right; lia].
        destruct (decide (k = (seq + 1)%Z)) as [->|Hne]; [right; lia|].
        rewrite lookup_insert_ne in Hx by done. left. eauto.
      * intros s n q [[= <- <- <-] | Hin]; [|eauto].
        apply slug_taken_spec.
        exists (seq + 1)%Z, {| t_slug := slug; t_name := name; t_plan := p |}.
        split; [|reflexivity]. apply Hp. apply lookup_insert_eq.
Qed.

Lemma insert_tenants_rows_ok (rows : list (string * string * Plan)) :
  forall (seq : Z) (t : gmap Z Tenant),
  (forall k, is_Some (t !! k) -> (k <= seq)%Z) ->
  (seq + Z.of_nat (List.length rows) <= int4_max)%Z ->
  exists t',
    insert_tenants_rows rows seq t = (inr t', (seq + Z.of_nat (List.length rows))%Z) /\
    (forall k, is_Some (t' !! k) -> (k <= seq + Z.of_nat (List.length rows))%Z) /\
    (forall k x, t !! k = Some x -> t' !! k = Some x) /\
    (forall k, is_Some (t' !! k) -> is_Some (t !! k) \/ (seq < k)%Z) /\
    (forall slug name p, In (slug, name, p) rows -> slug_taken slug t' = true).
Proof.
  intros seq t Hids Hmax.
  pose proof (insert_tenants_rows_spec rows seq t Hids) as Hspec.
  destruct (insert_tenants_rows rows seq t) as [[e|t'] seq']; [lia|].
  destruct Hspec as (-> & Hk & Hp & Hn & Hs).
  exists t'. split_and!; done.
Qed.

(** Rows that were inserted are listed among the inserted tenant ids. *)
Lemma insert_users_rows_inserted (rows : list (string * string * Role * Z)) :
  forall s m acc u2 i2 s2,
  insert_users_rows rows s m acc = (inr (u2, i2), s2) ->
  forall t, In t acc -> In t i2.
Proof.
  induction rows as [|[[[e h] r] t0] rows IH]; simpl; intros s m acc u2 i2 s2.
  - intros [= <- <- <-]. done.
  - destruct (nextval "users_id_seq" s) as [err|id]; [discriminate|].
    destruct (m !! e); [apply IH|].
    destruct (user_id_taken id m); [discriminate|].
    intros Hr t Ht. eapply IH; [exact Hr|]. right. done.
Qed.

Lemma insert_users_rows_spec (rows : list (string * string * Role * Z)) :
  forall (seq : Z) (u : gmap string User) (ins : list Z),
  (forall e x, u !! e = Some x -> (u_id x <= seq)%Z) ->
  match insert_users_rows rows seq u ins with
  | (inr (u', ins'), seq') =>
      seq' = (seq + Z.of_nat (List.length rows))%Z /\
      (forall e x, u' !! e = Some x -> (u_id x <= seq')%Z) /\
      (forall e x, u !! e = Some x -> u' !! e = Some x) /\
      (forall e x, u' !! e = Some x -> u !! e = Some x \/ In (u_tenant_id x) ins') /\
      (forall tid, In tid ins' ->
         In tid ins \/ exists e h r, In (e, h, r, tid) rows) /\
      (forall e h r tid, In (e, h, r, tid) rows -> is_Some (u' !! e))
  | (inl _, seq') =>
      (seq <= seq')%Z /\ (int4_max < seq + Z.of_nat (List.length rows))%Z
  end.
Proof.
  induction rows as [|[[[e h] r] tid] rows IH]; intros seq u ins Hids.
  - simpl. rewrite Z.add_0_r. split_and!; try done.
    + intros e x Hx. left. done.
    + intros t Ht. left. done.
  - simpl insert_users_rows. unfold nextval.
    destruct (Z.ltb_spec seq int4_max) as [Hlt|Hge]; [|simpl List.length; split; lia].
    assert (Hfresh : user_id_taken (seq + 1) u = false).
    { destruct (user_id_taken (seq + 1) u) eqn:Ht; [|done].
      apply user_id_taken_spec in Ht as (e' & x & Hx & Hid).
      apply Hids in Hx. lia. }
    destruct (u !! e) as [x0|] eqn:He.
    + specialize (IH (seq + 1)%Z u ins).
      destruct (insert_users_rows rows (seq + 1) u ins) as [[err|[u' ins']] seq'].
      { destruct IH as [Hle Hmax]; [intros e' x Hx; apply Hids in Hx; lia|].
        simpl List.length. split; lia. }
      destruct IH as (Hr & Hk & Hp & Hn & Hi & Hs).
      { intros e' x Hx. apply Hids in Hx. lia. }
      split_and!.
      * simpl List.length. lia.
      * done.
      * done.
      * done.
      * intros t Ht. apply Hi in Ht as [?|(e' & h' & r' & Hin)]; [left; done|].
        right. exists e', h', r'. right. done.
      * intros e' h' r' t' [[= <- <- <- <-] | Hin]; [|eauto].
        exists x0. apply Hp. done.
    + rewrite Hfresh.
      set (x1 := {| u_id := (seq + 1)%Z; u_password_hash := h; u_role := r;
                    u_tenant_id := tid |}).
      assert (Hids1 : forall e' x, <[e := x1]> u !! e' = Some x -> (u_id x <= seq + 1)%Z).
      { intros e' x Hx. destruct (decide (e' = e)) as [->|Hne].
        - rewrite lookup_insert_eq in Hx. injection Hx as <-. simpl. lia.
        - rewrite lookup_insert_ne in Hx by done. apply Hids in Hx. lia. }
      specialize (IH (seq + 1)%Z (<[e := x1]> u) (tid :: ins) Hids1).
      destruct (insert_users_rows rows (seq + 1) (<[e := x1]> u) (tid :: ins))
        as [[err|[u' ins']] seq'] eqn:Hrun.
      { destruct IH as [Hle Hmax]. simpl List.length. split; lia. }
      destruct IH as (Hr & Hk & Hp & Hn & Hi & Hs).
      split_and!.
      * simpl List.length. lia.
      * done.
      * intros e' x Hx. apply Hp. rewrite lookup_insert_ne; [done|]. intros <-. congruence.
      * intros e' x Hx. destruct (Hn _ _ Hx) as [Hold|Hin]; [|right; done].
        destruct (decide (e' = e)) as [->|Hne].
        -- rewrite lookup_insert_eq in Hold. injection Hold as <-. right.
           eapply insert_users_rows_inserted; [exact Hrun|]. left. reflexivity.
        -- rewrite lookup_insert_ne in Hold by done. left. done.
      * intros t Ht. apply Hi in Ht as [[<-|?]|(e' & h' & r' & Hin)].
        -- right. exists e, h, r. left. reflexivity.
        -- left. done.
        -- right. exists e', h', r'. right. done.
      * intros e' h' r' t' [[= <- <- <- <-] | Hin]; [|eauto].
        exists x1. apply Hp, lookup_insert_eq.
Qed.

Lemma insert_users_rows_ok (rows : list (string * string * Role * Z)) :
  forall (seq : Z) (u : gmap string User) (ins : list Z),
  (forall e x, u !! e = Some x -> (u_id x <= seq)%Z) ->
  (seq + Z.of_nat (List.length rows) <= int4_max)%Z ->
  exists u' ins',
    insert_users_rows rows seq u ins = (inr (u', ins'), (seq + Z.of_nat (List.length rows))%Z) /\
    (forall e x, u' !! e = Some x -> (u_id x <= seq + Z.of_nat (List.length rows))%Z) /\
    (forall e x, u !! e = Some x -> u' !! e = Some x) /\
    (forall e x, u' !! e = Some x -> u !! e = Some x \/ In (u_tenant_id x) ins') /\
    (forall tid, In tid ins' ->
       In tid ins \/ exists e h r, In (e, h, r, tid) rows) /\
    (forall e h r tid, In (e, h, r, tid) rows -> is_Some (u' !! e)).
Proof.
  intros seq u ins Hids Hmax.
  pose proof (insert_users_rows_spec rows seq u ins Hids) as Hspec.
  destruct (insert_users_rows rows seq u ins) as [[e|[u' ins']] seq']; [lia|].
  destruct Hspec as (-> & Hk & Hp & Hn & Hi & Hs).
  exists u', ins'. split_and!; done.
Qed.


(** *** Statements keep the store well formed *)













(** *** Every route keeps the store well formed *)

Section WellFormed.
Context `{Externals}.
Implicit Types (env : Env) (req : Request) (w : World) (d : JwtClaims).











Lemma respondX_state (h : M ResponseX) w : (respondX h w).2 = (h w).2.
Proof. unfold respondX. destruct (h w) as [[e|r] w']; reflexivity. Qed.


End WellFormed.


Lemma well_formed_empty :
  well_formed {| tenants := ∅; tenants_id_seq := 0; users := ∅; users_id_seq := 0;
                 notes := ∅; notes_id_seq := 0 |}.
Proof.
  unfold well_formed, ids_within_sequences, references_resolve, within_quota. simpl.
  split_and!.
  - intros k [x Hx]. rewrite lookup_empty in Hx. discriminate.
  - intros e u Hu. rewrite lookup_empty in Hu. discriminate.
  - intros k [x Hx]. rewrite lookup_empty in Hx. discriminate.
  - intros e u Hu. rewrite lookup_empty in Hu. discriminate.
  - intros k n Hn. rewrite lookup_empty in Hn. discriminate.
  - intros tid t Ht. rewrite lookup_empty in Ht. discriminate.
Defined.


(** *** Initialization cannot fail on ids drawn from the sequences *)

Lemma head_filter_existsb {A} (f : A -> bool) (l : list A) :
  existsb f l = true -> exists x, head (List.filter f l) = Some x /\ In x l /\ f x = true.
Proof.
  induction l as [|a l IH]; simpl; [discriminate|].
  destruct (f a) eqn:Hfa; simpl.
  - intros _. exists a. auto.
  - intros Hex. destruct (IH Hex) as (x & Hh & Hin & Hfx). exists x. auto.
Qed.

Lemma select_tenant_id_by_slug_found (slug : string) (st : DB) :
  slug_taken slug (tenants st) = true ->
  exists rows k x,
    select_tenant_id_by_slug slug st = (inr rows, st) /\
    row0 rows = Some k /\ tenants st !! k = Some x /\ t_slug x = slug.
Proof.
  intros Hs. unfold slug_taken in Hs.
  destruct (head_filter_existsb _ _ Hs) as ([k x] & Hh & Hin & Hf).
  eexists _, k, x. split; [reflexivity|]. split_and!.
  - unfold row0.
    destruct (List.filter _ (map_to_list (tenants st))) as [|y l]; [discriminate|].
    simpl in *. injection Hh as ->. reflexivity.
  - apply list_elem_of_In, elem_of_map_to_list in Hin. exact Hin.
  - apply String.eqb_eq in Hf. exact Hf.
Qed.

Lemma query_returns {A} (s : Statement A) (w : World) (a : A) (st : DB) :
  s (db w) = (inr a, st) -> query s w = (inr a, set_db st w).
Proof. intros Hs. unfold query. rewrite Hs. reflexivity. Qed.

(** A row whose e-mail is new, and listed once, is stored as written. *)
Lemma insert_users_rows_new (rows : list (string * string * Role * Z)) :
  forall (seq : Z) (u : gmap string User) (ins : list Z) u' ins' seq' e h r tid,
  (forall e x, u !! e = Some x -> (u_id x <= seq)%Z) ->
  insert_users_rows rows seq u ins = (inr (u', ins'), seq') ->
  NoDup (map (fun row => row.1.1.1) rows) ->
  In (e, h, r, tid) rows ->
  u !! e = None ->
  exists id, u' !! e = Some {| u_id := id; u_password_hash := h; u_role := r;
                               u_tenant_id := tid |}.
Proof.
  induction rows as [|[[[e0 h0] r0] tid0] rows IH];
    intros seq u ins u' ins' seq' e h r tid Hids Hrun Hnd Hin He; [destruct Hin|].
  simpl in Hrun, Hnd. apply NoDup_cons in Hnd as [Hfresh Hnd].
  unfold nextval in Hrun. destruct (Z.ltb seq int4_max); [|discriminate].
  destruct (u !! e0) as [x0|] eqn:He0.
  - destruct Hin as [[= -> -> -> ->]|Hin]; [congruence|].
    apply (IH (seq + 1)%Z u ins u' ins' seq' e h r tid); auto.
    intros e1 x1 Hx1. apply Hids in Hx1. lia.
  - destruct (user_id_taken (seq + 1) u) eqn:Htaken; [discriminate|].
    set (x0 := {| u_id := (seq + 1)%Z; u_password_hash := h0; u_role := r0;
                  u_tenant_id := tid0 |}) in *.
    assert (Hids1 : forall e1 x1, <[e0 := x0]> u !! e1 = Some x1 -> (u_id x1 <= seq + 1)%Z).
    { intros e1 x1. destruct (decide (e0 = e1)) as [->|Hne].
      - rewrite lookup_insert_eq. intros [= <-]. simpl. lia.
      - rewrite lookup_insert_ne by done. intros Hx1. apply Hids in Hx1. lia. }
    destruct Hin as [[= -> -> -> ->]|Hin].
    + pose proof (insert_users_rows_spec rows (seq + 1)%Z (<[e := x0]> u) (tid :: ins)
                    Hids1) as Hspec.
      rewrite Hrun in Hspec. destruct Hspec as (_ & _ & Hp & _).
      exists (seq + 1)%Z. apply Hp. apply lookup_insert_eq.
    + apply (IH (seq + 1)%Z (<[e0 := x0]> u) (tid0 :: ins) u' ins' seq' e h r tid); auto.
      rewrite lookup_insert_ne; [exact He|].
      intros ->. apply Hfresh. apply list_elem_of_In.
      apply (in_map (fun row => row.1.1.1) rows (e, h, r, tid)). exact Hin.
Qed.

(** An e-mail that no row carries is looked up as before. *)
Lemma insert_users_rows_others (rows : list (string * string * Role * Z)) :
  forall (seq : Z) (u : gmap string User) (ins : list Z) u' ins' seq' e,
  insert_users_rows rows seq u ins = (inr (u', ins'), seq') ->
  ~ In e (map (fun row => row.1.1.1) rows) ->
  u' !! e = u !! e.
Proof.
  induction rows as [|[[[e0 h0] r0] tid0] rows IH];
    intros seq u ins u' ins' seq' e Hrun Hnot; simpl in Hrun.
  - injection Hrun as <- _ _. reflexivity.
  - simpl in Hnot. unfold nextval in Hrun.
    destruct (Z.ltb seq int4_max); [|discriminate].
    destruct (u !! e0) as [x0|] eqn:He0.
    + apply (IH _ _ _ _ _ _ e Hrun). tauto.
    + destruct (user_id_taken (seq + 1) u); [discriminate|].
      rewrite (IH _ _ _ _ _ _ e Hrun) by tauto.
      apply lookup_insert_ne. tauto.
Qed.

Section InitializationSucceeds.
Context `{Externals}.
Implicit Types (env : Env) (req : Request) (w : World) (d : JwtClaims).

(** The parameters of a seed statement are accepted when its hash is
    text without a NUL and its tenant id is in range. *)
Lemma seed_params_accepted (rows : list (string * string * Role * Z)) (tid : Z) :
  (forall e h r t, In (e, h, r, t) rows -> t = tid /\ has_nul h = false) ->
  int4 tid = true ->
  bind_params (seed_params rows) = None.
Proof.
  intros Hrows Htid. induction rows as [|[[[e h] r] t] rows IH]; [reflexivity|].
  destruct (Hrows e h r t) as [-> Hh]; [left; reflexivity|].
  simpl. rewrite Hh, Htid. apply IH.
  intros e' h' r' t' Hin. apply (Hrows e' h' r' t'). right. exact Hin.
Qed.

(** The seed users of one tenant, on a store whose user ids are within
    the sequence, which has room for them, and that has the tenant. *)
Lemma insert_seed_users_ok (rows : list (string * string * Role * Z)) (tid : Z) (st : DB) :
  (forall e x, users st !! e = Some x -> (u_id x <= users_id_seq st)%Z) ->
  (users_id_seq st + Z.of_nat (List.length rows) <= int4_max)%Z ->
  is_Some (tenants st !! tid) ->
  int4 tid = true ->
  (forall e h r t, In (e, h, r, t) rows -> t = tid /\ has_nul h = false) ->
  NoDup (map (fun row => row.1.1.1) rows) ->
  exists u',
    insert_users_on_conflict_do_nothing rows st =
      (inr tt, set_users u' (users_id_seq st + Z.of_nat (List.length rows))%Z st) /\
    (forall e x, u' !! e = Some x ->
       (u_id x <= users_id_seq st + Z.of_nat (List.length rows))%Z) /\
    (forall e x, users st !! e = Some x -> u' !! e = Some x) /\
    (forall e, ~ In e (map (fun row => row.1.1.1) rows) -> u' !! e = users st !! e) /\
    (forall e h r t, In (e, h, r, t) rows ->
       is_Some (u' !! e) /\
       (users st !! e = None ->
        exists id, u' !! e = Some {| u_id := id; u_password_hash := h; u_role := r;
                                     u_tenant_id := t |})).
Proof.
  intros Hids Hroom [x Hx] Htid Hrows Hnd.
  unfold insert_users_on_conflict_do_nothing, with_params.
  rewrite (seed_params_accepted rows tid Hrows Htid).
  destruct (insert_users_rows_ok rows (users_id_seq st) (users st) [] Hids Hroom)
    as (u' & ins' & Hrun & Hk & Hp & Hn & Hi & Hs).
  rewrite Hrun.
  assert (Hfk : forallb (fun t => tenant_exists t st) ins' = true).
  { apply forallb_forall. intros t Ht.
    destruct (Hi t Ht) as [[]|(e & h & r & Hin)].
    destruct (Hrows _ _ _ _ Hin) as [-> _]. unfold tenant_exists. rewrite Hx. reflexivity. }
  rewrite Hfk. exists u'. split_and!; eauto.
  { intros e Hnot. exact (insert_users_rows_others rows _ _ _ _ _ _ e Hrun Hnot). }
  intros e h r t Hin. split; [eauto|]. intros He.
  exact (insert_users_rows_new rows _ _ _ _ _ _ e h r t Hids Hrun Hnd Hin He).
Qed.

(** A cold start on a store whose ids are within their sequences, with
    room for the seed rows, step by step. *)
Lemma initializeDatabase_seeds env w :
  ids_within_sequences (db w) ->
  integer_tenant_ids (db w) ->
  room_for_seeds (db w) ->
  has_nul (bcrypt_hash "password" 10 (init_salt env)) = false ->
  initialized w = false ->
  exists w1 ka kg ta tg,
    initializeDatabase env w = (inr tt, w1) /\
    initialized w1 = true /\
    ids_within_sequences (db w1) /\
    (forall k x, tenants (db w) !! k = Some x -> tenants (db w1) !! k = Some x) /\
    (forall e x, users (db w) !! e = Some x -> users (db w1) !! e = Some x) /\
    notes (db w1) = notes (db w) /\
    (tenants (db w1) !! ka = Some ta /\ t_slug ta = "acme" /\ int4 ka = true) /\
    (tenants (db w1) !! kg = Some tg /\ t_slug tg = "globex" /\ int4 kg = true) /\
    (forall e r k,
       In (e, r, k) [("admin@acme.test", admin, ka); ("user@acme.test", member, ka);
                     ("admin@globex.test", admin, kg); ("user@globex.test", member, kg)] ->
       is_Some (users (db w1) !! e) /\
       (users (db w) !! e = None ->
        exists id, users (db w1) !! e =
                     Some {| u_id := id;
                             u_password_hash := bcrypt_hash "password" 10 (init_salt env);
                             u_role := r; u_tenant_id := k |})).
Proof.
  intros (Hit & Hiu & Hin) (Hseq4 & Hkeys4) (Hroomt & Hroomu) Hhash Hflag.
  unfold initializeDatabase. unfold bind at 1, get_world. rewrite Hflag.
  unfold try_catch.
  destruct (insert_tenants_rows_ok seed_tenants (tenants_id_seq (db w)) (tenants (db w)) Hit)
    as (t' & Hr1 & Hk1 & Hp1 & Hn1 & Hs1); [exact Hroomt|].
  assert (Hint4 : forall k, is_Some (t' !! k) -> int4 k = true).
  { intros k Hk. pose proof (Hk1 k Hk) as Hup. simpl in Hup.
    unfold int4 in *. apply andb_true_iff in Hseq4 as [Hlo _]. apply Z.leb_le in Hlo.
    destruct (Hn1 k Hk) as [Hold|Hnew].
    - apply Hkeys4 in Hold. exact Hold.
    - apply andb_true_iff. split; apply Z.leb_le; lia. }
  assert (Hq1 : insert_tenants_on_conflict_do_nothing seed_tenants (db w) =
                (inr tt, set_tenants t' (tenants_id_seq (db w) + 2)%Z (db w))).
  { unfold insert_tenants_on_conflict_do_nothing. rewrite Hr1. reflexivity. }
  set (d1 := set_tenants t' (tenants_id_seq (db w) + 2)%Z (db w)) in *.
  destruct (select_tenant_id_by_slug_found "acme" d1)
    as (rowsA & ka & ta & HqA & HrA & HkA & HsA).
  { apply (Hs1 "acme" "Acme Corporation" free). left. reflexivity. }
  destruct (select_tenant_id_by_slug_found "globex" d1)
    as (rowsG & kg & tg & HqG & HrG & HkG & HsG).
  { apply (Hs1 "globex" "Globex Corporation" free). right. left. reflexivity. }
  set (hash := bcrypt_hash "password" 10 (init_salt env)).
  destruct (insert_seed_users_ok
              [("admin@acme.test", hash, admin, ka); ("user@acme.test", hash, member, ka)]
              ka d1) as (u2 & Hq2 & Hk2 & Hp2 & Hf2 & Hs2).
  { exact Hiu. }
  { simpl. lia. }
  { eexists. exact HkA. }
  { apply Hint4. eexists. exact HkA. }
  { intros e h r t [[= _ <- _ <-] | [[= _ <- _ <-] | []]]; split; done. }
  { apply (bool_decide_unpack _). vm_compute. exact I. }
  set (d2 := set_users u2 (users_id_seq d1 + 2)%Z d1) in *.
  destruct (insert_seed_users_ok
              [("admin@globex.test", hash, admin, kg); ("user@globex.test", hash, member, kg)]
              kg d2) as (u3 & Hq3 & Hk3 & Hp3 & _ & Hs3).
  { exact Hk2. }
  { simpl. lia. }
  { eexists. exact HkG. }
  { apply Hint4. eexists. exact HkG. }
  { intros e h r t [[= _ <- _ <-] | [[= _ <- _ <-] | []]]; split; done. }
  { apply (bool_decide_unpack _). vm_compute. exact I. }
  set (d3 := set_users u3 (users_id_seq d2 + 2)%Z d2) in *.
  exists {| initialized := true; db := d3 |}, ka, kg, ta, tg.
  split.
  { unfold bind at 1. rewrite (query_returns _ w tt d1 Hq1). cbv beta iota.
    unfold bind at 1. rewrite (query_returns _ (set_db d1 w) rowsA d1 HqA). cbv beta iota.
    unfold bind at 1. rewrite (query_returns _ (set_db d1 (set_db d1 w)) rowsG d1 HqG).
    cbv beta iota zeta.
    rewrite HrA, HrG. unfold prop at 1, bind at 1, ret at 1. cbv beta iota.
    unfold bind at 1.
    rewrite (query_returns _ (set_db d1 (set_db d1 (set_db d1 w))) tt d2 Hq2). cbv beta iota.
    unfold prop at 1, bind at 1, ret at 1. cbv beta iota.
    unfold bind at 1.
    rewrite (query_returns _ (set_db d2 (set_db d1 (set_db d1 (set_db d1 w)))) tt d3 Hq3).
    cbv beta iota. reflexivity. }
  split; [reflexivity|].
  split.
  { unfold ids_within_sequences. simpl. split; [exact Hk1|]. split; [exact Hk3|exact Hin]. }
  split.
  { simpl. intros k x Hx. apply Hp1. done. }
  split.
  { simpl. intros e x Hx. apply Hp3, Hp2. done. }
  split; [reflexivity|].
  split; [split_and!; [exact HkA|exact HsA|apply Hint4; eexists; exact HkA]|].
  split; [split_and!; [exact HkG|exact HsG|apply Hint4; eexists; exact HkG]|].
  intros e r k Hseed. simpl.
  destruct Hseed as [[= <- <- <-]|[[= <- <- <-]|[[= <- <- <-]|[[= <- <- <-]|[]]]]].
  - destruct (Hs2 "admin@acme.test" hash admin ka) as [[x Hx] Hnew]; [left; reflexivity|].
    split; [exists x; apply Hp3; done|].
    intros He. destruct (Hnew He) as [id Hid]. exists id. apply Hp3. exact Hid.
  - destruct (Hs2 "user@acme.test" hash member ka) as [[x Hx] Hnew];
      [right; left; reflexivity|].
    split; [exists x; apply Hp3; done|].
    intros He. destruct (Hnew He) as [id Hid]. exists id. apply Hp3. exact Hid.
  - destruct (Hs3 "admin@globex.test" hash admin kg) as [Hx Hnew]; [left; reflexivity|].
    split; [exact Hx|]. intros He. apply Hnew. simpl.
    rewrite Hf2; [exact He|].
    simpl. intros [[=]|[[=]|[]]].
  - destruct (Hs3 "user@globex.test" hash member kg) as [Hx Hnew];
      [right; left; reflexivity|].
    split; [exact Hx|]. intros He. apply Hnew. simpl.
    rewrite Hf2; [exact He|].
    simpl. intros [[=]|[[=]|[]]].
Qed.

(** X18.  Take a store whose ids are within their sequences, whose
    tenant ids are in the range of their column, and whose sequences
    can still give out two tenant ids and four user ids, and a bcrypt
    whose hash is text without a NUL.  Initialization then does not
    throw, whatever the flag says: it ends with the flag set, the ids
    still within the sequences and every tenant and user it found still
    there; and a run that found the flag unset leaves the two seed
    tenants present by slug and the four seed e-mails present as
    users. *)
Theorem initialization_succeeds env w :
  ids_within_sequences (db w) ->
  integer_tenant_ids (db w) ->
  room_for_seeds (db w) ->
  has_nul (bcrypt_hash "password" 10 (init_salt env)) = false ->
  exists w1,
    initializeDatabase env w = (inr tt, w1) /\
    initialized w1 = true /\
    ids_within_sequences (db w1) /\
    (forall k x, tenants (db w) !! k = Some x -> tenants (db w1) !! k = Some x) /\
    (forall e x, users (db w) !! e = Some x -> users (db w1) !! e = Some x) /\
    (initialized w = false ->
       slug_taken "acme" (tenants (db w1)) = true /\
       slug_taken "globex" (tenants (db w1)) = true /\
       Forall (fun e => is_Some (users (db w1) !! e))
         ["admin@acme.test"; "user@acme.test"; "admin@globex.test"; "user@globex.test"]).
Proof.
  intros Hids Hint Hroom Hhash.
  destruct (initialized w) eqn:Hflag.
  { exists w. unfold initializeDatabase, bind, get_world, ret. rewrite Hflag.
    split; [reflexivity|]. split; [reflexivity|]. split; [exact Hids|].
    split; [auto|]. split; [auto|]. intros [=]. }
  destruct (initializeDatabase_seeds env w Hids Hint Hroom Hhash Hflag)
    as (w1 & ka & kg & ta & tg & Hrun & Hf & Hids1 & Ht & Hu & _ &
        (Hka & Hsa & _) & (Hkg & Hsg & _) & Hseed).
  exists w1. split; [exact Hrun|]. split; [exact Hf|]. split; [exact Hids1|].
  split; [exact Ht|]. split; [exact Hu|]. intros _.
  split; [apply slug_taken_spec; eauto|].
  split; [apply slug_taken_spec; eauto|].
  repeat apply Forall_cons_2; [..|apply Forall_nil_2].
  - apply (Hseed "admin@acme.test" admin ka). simpl. tauto.
  - apply (Hseed "user@acme.test" member ka). simpl. tauto.
  - apply (Hseed "admin@globex.test" admin kg). simpl. tauto.
  - apply (Hseed "user@globex.test" member kg). simpl. tauto.
Qed.

(** Where the sequence of tenant ids is exhausted, initialization
    throws, and every route that starts with it answers 500. *)
Lemma initialization_fails_at_the_end_of_the_sequence env w :
  initialized w = false ->
  (int4_max <= tenants_id_seq (db w))%Z ->
  initializeDatabase env w =
    (inl (PgThrown (sequence_generator_limit_exceeded "tenants_id_seq")), w).
Proof.
  intros Hflag Hseq.
  unfold initializeDatabase. unfold bind at 1, get_world. rewrite Hflag.
  unfold try_catch, bind at 1, query, insert_tenants_on_conflict_do_nothing.
  simpl. unfold nextval.
  destruct (Z.ltb_spec (tenants_id_seq (db w)) int4_max) as [Hlt|_]; [lia|].
  unfold throw. f_equal. destruct w as [i [? ? ? ? ? ?]]. reflexivity.
Qed.

(** X19.  The seed accounts log in.  Take a process that has not
    initialized yet, over a store as in X18 that has no user with one
    of the four seed e-mails, and a bcrypt that accepts a password
    against its own hash.  The first login with that e-mail and the
    password password is answered 200: the body names the e-mail, the
    role the seed gives it and the slug of its seed tenant, and the
    token is the one signed for the user row and the tenant row that
    the store then holds. *)
Theorem seed_accounts_log_in env req w b e r slug :
  ids_within_sequences (db w) ->
  integer_tenant_ids (db w) ->
  room_for_seeds (db w) ->
  has_nul (bcrypt_hash "password" 10 (init_salt env)) = false ->
  initialized w = false ->
  In (e, r, slug) [("admin@acme.test", admin, "acme"); ("user@acme.test", member, "acme");
                   ("admin@globex.test", admin, "globex");
                   ("user@globex.test", member, "globex")] ->
  users (db w) !! e = None ->
  json req = Some b ->
  b "email" = VString e ->
  b "password" = VString "password" ->
  bcrypt_compare "password" (bcrypt_hash "password" 10 (init_salt env)) = true ->
  exists c name w1 u,
    POST_auth_login env req w =
      (c_json_ok (JLogin (signToken env c) e r slug name (plan c)), w1) /\
    email c = e /\ role c = r /\ tenantSlug c = slug /\
    users (db w1) !! e = Some u /\
    u_id u = sub c /\ u_role u = r /\ u_tenant_id u = tenantId c /\
    tenants (db w1) !! tenantId c =
      Some {| t_slug := slug; t_name := name; t_plan := plan c |}.
Proof.
  intros Hids Hint Hroom Hhash Hflag Hseed He Hjson Hemail Hpw Hbcrypt.
  destruct (initializeDatabase_seeds env w Hids Hint Hroom Hhash Hflag)
    as (w1 & ka & kg & ta & tg & Hrun & Hf & Hids1 & Ht & Hu & _ &
        (Hka & Hsa & Hra) & (Hkg & Hsg & Hrg) & Hs).
  assert (Hrow : exists k t id,
            tenants (db w1) !! k = Some t /\ t_slug t = slug /\ int4 k = true /\
            users (db w1) !! e =
              Some {| u_id := id;
                      u_password_hash := bcrypt_hash "password" 10 (init_salt env);
                      u_role := r; u_tenant_id := k |}).
  { destruct Hseed as [[= <- <- <-]|[[= <- <- <-]|[[= <- <- <-]|[[= <- <- <-]|[]]]]].
    - destruct (Hs "admin@acme.test" admin ka) as [_ Hnew]; [simpl; tauto|].
      destruct (Hnew He) as [id Hid]. eauto 10.
    - destruct (Hs "user@acme.test" member ka) as [_ Hnew]; [simpl; tauto|].
      destruct (Hnew He) as [id Hid]. eauto 10.
    - destruct (Hs "admin@globex.test" admin kg) as [_ Hnew]; [simpl; tauto|].
      destruct (Hnew He) as [id Hid]. eauto 10.
    - destruct (Hs "user@globex.test" member kg) as [_ Hnew]; [simpl; tauto|].
      destruct (Hnew He) as [id Hid]. eauto 10. }
  destruct Hrow as (k & t & id & Hk & Hslug & Hrange & Hid).
  assert (Htext : truthy (VString e) = true /\ has_nul e = false).
  { destruct Hseed as [[= <- <- <-]|[[= <- <- <-]|[[= <- <- <-]|[[= <- <- <-]|[]]]]];
      split; reflexivity. }
  destruct Htext as [Htruthy Hnul].
  exists {| sub := id; email := e; role := r; tenantId := k; tenantSlug := t_slug t;
            plan := t_plan t |}, (t_name t), w1, 
         {| u_id := id; u_password_hash := bcrypt_hash "password" 10 (init_salt env);
            u_role := r; u_tenant_id := k |}.
  split.
  { rewrite login_run, Hrun, Hjson, Hemail, Hpw, Htruthy. simpl.
    unfold no_nul. rewrite Hnul. simpl.
    unfold user_by_email. rewrite Hid. simpl. rewrite Hbcrypt, Hrange, Hk, Hslug.
    reflexivity. }
  simpl. split_and!; try done.
  rewrite Hk. destruct t; simpl in *; congruence.
Qed.

End InitializationSucceeds.

Lemma ids_within_sequences_empty :
  ids_within_sequences (db Sample.empty_world).
Proof. apply well_formed_empty. Defined.

Lemma integer_tenant_ids_empty :
  integer_tenant_ids (db Sample.empty_world).
Proof.
  split; [reflexivity|]. intros k [x Hx]. simpl in Hx.
  rewrite lookup_empty in Hx. discriminate.
Defined.

Lemma room_for_seeds_empty :
  room_for_seeds (db Sample.empty_world).
Proof. split; simpl; unfold int4_max; lia. Defined.

Lemma initialization_succeeds_witness :
  exists w1,
    @initializeDatabase Sample.externals Sample.env Sample.empty_world = (inr tt, w1) /\
    initialized w1 = true /\
    ids_within_sequences (db w1) /\
    (forall k x, tenants (db Sample.empty_world) !! k = Some x -> tenants (db w1) !! k = Some x) /\
    (forall e x, users (db Sample.empty_world) !! e = Some x -> users (db w1) !! e = Some x) /\
    (initialized Sample.empty_world = false ->
       slug_taken "acme" (tenants (db w1)) = true /\
       slug_taken "globex" (tenants (db w1)) = true /\
       Forall (fun e => is_Some (users (db w1) !! e))
         ["admin@acme.test"; "user@acme.test"; "admin@globex.test"; "user@globex.test"]).
Proof.
  apply (@initialization_succeeds Sample.externals Sample.env Sample.empty_world).
  - exact ids_within_sequences_empty.
  - exact integer_tenant_ids_empty.
  - exact room_for_seeds_empty.
  - vm_compute. reflexivity.
Defined.

Lemma seed_accounts_log_in_witness :
  let b := Sample.fields2 "email" (VString "user@globex.test")
             "password" (VString "password") in
  let req := Sample.request Sample.acme_admin EmptyString b in
  exists c name w1 u,
    @POST_auth_login Sample.externals Sample.env req Sample.empty_world =
      (c_json_ok (JLogin (@signToken Sample.externals Sample.env c)
                    "user@globex.test" member "globex" name (plan c)), w1) /\
    email c = "user@globex.test" /\ role c = member /\ tenantSlug c = "globex" /\
    users (db w1) !! "user@globex.test" = Some u /\
    u_id u = sub c /\ u_role u = member /\ u_tenant_id u = tenantId c /\
    tenants (db w1) !! tenantId c =
      Some {| t_slug := "globex"; t_name := name; t_plan := plan c |}.
Proof.
  apply (@seed_accounts_log_in Sample.externals Sample.env
           (Sample.request Sample.acme_admin EmptyString
              (Sample.fields2 "email" (VString "user@globex.test")
                 "password" (VString "password")))
           Sample.empty_world
           (Sample.fields2 "email" (VString "user@globex.test")
              "password" (VString "password"))).
  - exact ids_within_sequences_empty.
  - exact integer_tenant_ids_empty.
  - exact room_for_seeds_empty.
  - vm_compute. reflexivity.
  - reflexivity.
  - simpl. tauto.
  - reflexivity.
  - reflexivity.
  - reflexivity.
  - reflexivity.
  - vm_compute. reflexivity.
Defined.

(** ** The client's [createNote] against [POST /notes] *)

Section ClientOfCreate.
Context `{Externals}.
Implicit Types (env : Env) (req : Request) (w : World).

(** What [requireAuth] without a role makes of a request: one of its
    two refusals, or the answer of the handler for some payload. *)
Lemma requireAuth_refusals env req (next : JWTPayload -> M Response) w :
  (exists e, (e = "Unauthorized" \/ e = "Invalid token") /\
     respond (requireAuth None env req next) w = (c_json (JError e) 401, w)) \/
  (exists c, respond (requireAuth None env req next) w = respond (next c) w).
Proof.
  unfold requireAuth.
  destruct (authorization req) as [h|];
    [|left; exists "Unauthorized"; split_and!; auto].
  destruct (negb (String.prefix "Bearer " h));
    [left; exists "Unauthorized"; split_and!; auto|].
  unfold respond, hono_next, try_catch, ret, throw.
  destruct (jwt_verify _ _ _) as [e|dd];
    [left; exists "Invalid token"; split_and!; auto|].
  right. exists (payload dd). destruct (next (payload dd) w) as [[e|x] w']; reflexivity.
Qed.

Lemma insert_note_row tid uid title content now (d st : DB) rows :
  insert_note tid uid title content now d = (inr rows, st) ->
  exists row, row0 rows = Some row.
Proof.
  unfold insert_note, with_params. intros Hi.
  repeat case_match; simplify_eq. eexists. reflexivity.
Qed.

(** The answers of [POST /notes], whatever the request and the store. *)
Lemma POST_notes_answers env req w :
  let response := (POST_notes env req w).1 in
  (exists row, response = c_json (JNote (Some row)) 201) \/
  response = note_limit_reached \/
  (exists e s, In (e, s) create_errors /\ response = c_json (JError e) s) \/
  response = onError.
Proof.
  unfold POST_notes.
  destruct (requireAuth_refusals env req (createNote_handler env req) w)
    as [(e & He & ->) | [c ->]].
  { right. right. left. exists e, 401%Z. split; [|reflexivity].
    unfold create_errors. destruct He as [-> | ->]; simpl; tauto. }
  rewrite createNote_run.
  assert (Hfailed : forall w',
            let response := (c_json (JError "Failed to create note") 500, w').1 in
            (exists row, response = c_json (JNote (Some row)) 201) \/
            response = note_limit_reached \/
            (exists e s, In (e, s) create_errors /\ response = c_json (JError e) s) \/
            response = onError).
  { intros w'. right. right. left. exists "Failed to create note", 500%Z.
    split; [unfold create_errors; simpl; tauto|reflexivity]. }
  destruct (initializeDatabase env w) as [[x|u] w1]; [tauto|].
  destruct (json req) as [b|]; [|tauto].
  destruct (negb (truthy (b "title")) || negb (truthy (b "content"))).
  { right. right. left. exists "Title and content are required", 400%Z.
    split; [unfold create_errors; simpl; tauto|reflexivity]. }
  destruct (negb (int4 (tenantId c))); [apply Hfailed|].
  destruct (tenants (db w1) !! tenantId c) as [t|]; [|apply Hfailed].
  destruct (bool_decide (t_plan t = free) && Z.leb 3 (note_count (tenantId c) (db w1)));
    [tauto|].
  destruct (insert_note _ _ _ _ _ _) as [[x|rows] st] eqn:Hi; [apply Hfailed|].
  destruct (insert_note_row _ _ _ _ _ _ _ _ Hi) as [row ->].
  left. exists row. reflexivity.
Qed.

(** X20.  What the client's createNote makes of the answer to its
    POST /notes, whatever the request and the store, when the text of
    the framework's own 500 answer is not JSON.  The answer is one of
    four, and each fixes the outcome.  A 201 with a note row: createNote
    returns that row.  The 402 of the quota: createNote throws an error
    with message note_limit_reached (the error code, not the sentence
    the server sent as message), no status and code NOTE_LIMIT.  One of
    the JSON errors (401 Unauthorized, 401 Invalid token, 400 Title and
    content are required, 500 Failed to create note): createNote throws
    an error with that string as message and as code and that status.
    The framework's 500: createNote throws from response.json().  So
    createNote returns exactly on 201, and throws with code NOTE_LIMIT
    exactly on 402. *)
Theorem client_createNote (JSON_parse : string -> option Json) env req w :
  JSON_parse "Internal Server Error" = None ->
  let response := (POST_notes env req w).1 in
  ((exists row,
      response = c_json (JNote (Some row)) 201 /\
      createNote JSON_parse response = inr (JNote (Some row))) \/
   (response = note_limit_reached /\
    createNote JSON_parse response =
      inl (ErrorObject {| e_message := "note_limit_reached"; e_status := None;
                          e_code := Some "NOTE_LIMIT" |})) \/
   (exists e s,
      In (e, s) create_errors /\
      response = c_json (JError e) s /\
      createNote JSON_parse response =
        inl (ErrorObject {| e_message := e; e_status := Some s; e_code := Some e |})) \/
   (response = onError /\
    createNote JSON_parse response = inl JsonSyntaxError)) /\
  (status response = 201 <->
   exists data, createNote JSON_parse response = inr data) /\
  (status response = 402 <->
   exists e, createNote JSON_parse response = inl (ErrorObject e) /\
             e_code e = Some "NOTE_LIMIT").
Proof.
  intros Hparse response.
  assert (Hcases :
    (exists row,
      response = c_json (JNote (Some row)) 201 /\
      createNote JSON_parse response = inr (JNote (Some row))) \/
    (response = note_limit_reached /\
     createNote JSON_parse response =
       inl (ErrorObject {| e_message := "note_limit_reached"; e_status := None;
                           e_code := Some "NOTE_LIMIT" |})) \/
    (exists e s,
      In (e, s) create_errors /\
      response = c_json (JError e) s /\
      createNote JSON_parse response =
        inl (ErrorObject {| e_message := e; e_status := Some s; e_code := Some e |})) \/
    (response = onError /\
     createNote JSON_parse response = inl JsonSyntaxError)).
  { destruct (POST_notes_answers env req w)
      as [[row Hr] | [Hr | [(e & s & Hin & Hr) | Hr]]];
      fold response in Hr; rewrite Hr.
    - left. exists row. split; reflexivity.
    - right. left. split; reflexivity.
    - right. right. left. exists e, s. split; [exact Hin|]. split; [reflexivity|].
      unfold create_errors in Hin.
      destruct Hin as [[= <- <-] | [[= <- <-] | [[= <- <-] | [[= <- <-] | []]]]];
        reflexivity.
    - right. right. right. split; [reflexivity|].
      unfold createNote, apiRequest, response_json, onError. simpl.
      rewrite Hparse. reflexivity. }
  split; [exact Hcases|]. clearbody response.
  destruct Hcases as [(row & -> & ->) | [[-> ->] | [(e & s & Hin & -> & ->) | [-> ->]]]].
  - split; split; simpl; try done; eauto.
    intros (e & [=] & _).
  - split; split; simpl; try done; eauto.
    intros [d [=]].
  - unfold create_errors in Hin.
    destruct Hin as [[= <- <-] | [[= <- <-] | [[= <- <-] | [[= <- <-] | []]]]];
      (split; split; simpl; [done | intros [d [=]] | done | ]);
      intros (e & [= <-] & [=]).
  - split; split; simpl; try done.
    + intros [d [=]].
    + intros (e & [=] & _).
Qed.

End ClientOfCreate.

Lemma client_createNote_witness :
  let fields := Sample.fields2 "title" (VString "t") "content" (VString "c") in
  let full := Sample.request Sample.acme_member EmptyString fields in
  let room := Sample.request Sample.globex_admin EmptyString fields in
  let r := (@POST_notes Sample.externals Sample.env full Sample.world).1 in
  let r2 := (@POST_notes Sample.externals Sample.env room Sample.world).1 in
  (status r = 402 /\
   createNote (fun _ => None) r =
     inl (ErrorObject {| e_message := "note_limit_reached"; e_status := None;
                         e_code := Some "NOTE_LIMIT" |})) /\
  (status r2 = 201 /\
   createNote (fun _ => None) r2 =
     inr (JNote (Some {| r_id := 5; r_title := "t"; r_content := "c";
                         r_user_id := 3; r_created_at := 200;
                         r_updated_at := 200 |}))).
Proof.
  intros fields full room r r2.
  assert (H1 := @client_createNote Sample.externals (fun _ => None) Sample.env
                  full Sample.world eq_refl).
  assert (H2 := @client_createNote Sample.externals (fun _ => None) Sample.env
                  room Sample.world eq_refl).
  split.
  - destruct H1 as [[(row & Hr & _) | [[Hr Hc] | [(e & s & _ & Hr & _) | [Hr _]]]] _];
      try (vm_compute in Hr; discriminate Hr).
    split; [|exact Hc]. fold r in Hr. rewrite Hr. reflexivity.
  - destruct H2 as [[(row & Hr & Hc) | [[Hr _] | [(e & s & _ & Hr & _) | [Hr _]]]] _];
      try (vm_compute in Hr; discriminate Hr).
    fold r2 in Hr, Hc. split; [rewrite Hr; reflexivity|].
    rewrite Hc. f_equal. f_equal. f_equal.
    assert (Hrow : body r2 = JNote (Some row)) by (rewrite Hr; reflexivity).
    vm_compute in Hrow. injection Hrow as <-. reflexivity.
Defined.

